(** * Sistema de ventas: modelo de [models.py] y [app.py]

    Shallow embedding of the sale registration routine [registrar_venta],
    of the permission table [Usuario.tiene_permiso], of the audit triggers
    on [Producto] and of the two request handlers that feed or follow a
    sale ([nueva_venta], [editar_producto]).

    Conventions of the model.
    - A [db.Integer] column and a Python [int] are [Z].
    - A [Numeric(10, 2)] column is a [Decimal]: an integer number of
      céntimos.
    - A Python [float] is a value of an abstract type [F] with
      uninterpreted operations (class [Flotante]); no law of arithmetic is
      assumed, so every general theorem holds whatever the rounding of the
      double precision operations is.
    - [db.session] is a record [Sesion]: the committed database, the view
      of the open transaction, the products touched since the last flush,
      and a schedule of persistence faults that says which of the coming
      round trips to the database raise. *)

From stdpp Require Import gmap strings list fin_maps pretty.

Local Open Scope Z_scope.

(** ** Access control: [Usuario.tiene_permiso] *)

Module Permisos.

(** The dict literal of [tiene_permiso], one list of actions per role. *)
Definition permisos_admin : list string :=
  ["crear"; "leer"; "actualizar"; "eliminar"; "ventas"; "reportes"].
Definition permisos_vendedor : list string :=
  ["leer"; "ventas"; "actualizar_cliente"].
Definition permisos_consulta : list string := ["leer"; "reportes"].

Definition permisos : gmap string (list string) :=
  <["admin" := permisos_admin]>
  (<["vendedor" := permisos_vendedor]>
  (<["consulta" := permisos_consulta]> ∅)).

(** [accion in permisos.get(self.rol, [])] *)
Definition tiene_permiso (rol accion : string) : bool :=
  bool_decide (accion ∈ default [] (permisos !! rol)).

(** The fixed table of the specification, role by role. *)
Definition tabla_fija (rol accion : string) : Prop :=
  (rol = "admin" ∧
     accion ∈ ["crear"; "leer"; "actualizar"; "eliminar"; "ventas"; "reportes"])
  ∨ (rol = "vendedor" ∧ accion ∈ ["leer"; "ventas"; "actualizar_cliente"])
  ∨ (rol = "consulta" ∧ accion ∈ ["leer"; "reportes"]).

Definition rol_conocido (rol : string) : Prop :=
  rol = "admin" ∨ rol = "vendedor" ∨ rol = "consulta".

End Permisos.


(** ** Numbers *)

(** A [Numeric(10, 2)] value, in céntimos. *)
Definition Decimal := Z.

(** Python's [float], kept abstract: [f_entero n] is [float(n)] for an
    [int], [f_decimal d] is [float(d)] for a [Decimal] read from a column,
    [a_numeric x] is the value a [Numeric(10, 2)] column keeps when the
    float [x] is written to it, and [formato_2f x] renders [f'{x:.2f}']. *)
Class Flotante (F : Type) := {
  f_entero : Z → F;
  f_decimal : Decimal → F;
  f_mas : F → F → F;
  f_por : F → F → F;
  a_numeric : F → Decimal;
  formato_2f : F → string
}.

(** Exact arithmetic in céntimos: the instance used to run the model. A
    quantity is a plain integer and every amount an integer number of
    céntimos, so [f_por (f_entero n) x] is [n] times the amount [x]. *)
Module Centimos.

Definition dos_digitos (n : Z) : string :=
  if n <? 10 then "0" +:+ pretty n else pretty n.

Definition formato (x : Z) : string :=
  (if x <? 0 then "-" else "") +:+
  pretty (Z.abs x `div` 100) +:+ "." +:+ dos_digitos (Z.abs x `mod` 100).

#[export] Instance flotante_centimos : Flotante Z := {|
  f_entero n := n;
  f_decimal d := d;
  f_mas := Z.add;
  f_por := Z.mul;
  a_numeric x := x;
  formato_2f := formato
|}.

End Centimos.

(** ** Data model: the tables of [models.py] *)

Record Producto := mkProducto {
  id_producto : Z;
  nombre_producto : string;
  descripcion : string;
  precio : Decimal;
  stock : Z
}.

Record Venta := mkVenta {
  id_venta : Z;
  fecha_venta : Z;
  v_id_cliente : Z;
  v_id_usuario : Z;
  total : Decimal
}.

Record DetalleVenta := mkDetalleVenta {
  id_detalle : Z;
  dv_id_venta : Z;
  dv_id_producto : Z;
  cantidad : Z;
  precio_unitario : Decimal
}.

Record Auditoria := mkAuditoria {
  id_auditoria : Z;
  tabla : string;
  accion : string;
  id_registro : Z;
  fecha : Z;
  usuario_sql : string;
  datos : string
}.

(** The database. [Producto] is looked up by primary key only, so it is a
    finite map; the other three tables are kept in insertion order.
    [Cliente] and [Usuario] rows are never read by the code modelled here;
    a dangling reference to one of them shows as a persistence fault. *)
Record BD := mkBD {
  productos : gmap Z Producto;
  ventas : list Venta;
  detalles : list DetalleVenta;
  auditorias : list Auditoria
}.

(** [db.session]. [confirmado] is the durable state, [actual] what the
    open transaction sees, [sucios] the products modified since the last
    flush. [fallos] is consumed one entry per round trip to the database:
    [Some e] makes that round trip raise [e]. [ahora] is the clock read by
    [hora_peru], in seconds. *)
Record Sesion := mkSesion {
  confirmado : BD;
  actual : BD;
  sucios : list Z;
  fallos : list (option string);
  ahora : Z
}.

Definition con_actual (s : Sesion) (b : BD) : Sesion :=
  mkSesion (confirmado s) b (sucios s) (fallos s) (ahora s).

Definition con_productos (b : BD) (ps : gmap Z Producto) : BD :=
  mkBD ps (ventas b) (detalles b) (auditorias b).
Definition con_ventas (b : BD) (vs : list Venta) : BD :=
  mkBD (productos b) vs (detalles b) (auditorias b).
Definition con_detalles (b : BD) (ds : list DetalleVenta) : BD :=
  mkBD (productos b) (ventas b) ds (auditorias b).
Definition con_auditorias (b : BD) (al : list Auditoria) : BD :=
  mkBD (productos b) (ventas b) (detalles b) al.

(** ** Computations on the session: state and exceptions *)

Inductive Salida (A : Type) : Type :=
  | Normal (a : A)
  | Excepcion (e : string).
Arguments Normal {A} a.
Arguments Excepcion {A} e.

Definition Op (A : Type) : Type := Sesion → Salida A * Sesion.

Definition ret {A} (a : A) : Op A := λ s, (Normal a, s).

Definition ligar {A B} (m : Op A) (k : A → Op B) : Op B :=
  λ s, match m s with
       | (Normal a, s') => k a s'
       | (Excepcion e, s') => (Excepcion e, s')
       end.

Definition lanzar {A} (e : string) : Op A := λ s, (Excepcion e, s).

(** [try: m except Exception as e: h e] *)
Definition try_except {A} (m : Op A) (h : string → Op A) : Op A :=
  λ s, match m s with
       | (Normal a, s') => (Normal a, s')
       | (Excepcion e, s') => h e s'
       end.

Definition leer {A} (f : Sesion → A) : Op A := λ s, (Normal (f s), s).
Definition modificar (f : Sesion → Sesion) : Op unit := λ s, (Normal tt, f s).

Notation "x <- c1 ;; c2" := (ligar c1 (λ x, c2))
  (at level 100, c1 at next level, right associativity).
Notation "c1 ;; c2" := (ligar c1 (λ _, c2))
  (at level 100, right associativity).

(** ** The persistence layer as the code uses it *)

(** One round trip to the database: it raises when the schedule says so. *)
Definition persistencia : Op unit :=
  λ s, match fallos s with
       | [] => (Normal tt, s)
       | None :: fs =>
           (Normal tt, mkSesion (confirmado s) (actual s) (sucios s) fs (ahora s))
       | Some e :: fs =>
           (Excepcion e, mkSesion (confirmado s) (actual s) (sucios s) fs (ahora s))
       end.

(** [datetime.utcnow() - timedelta(hours=5)]; [ahora] is the UTC clock. *)
Definition hora_peru : Op Z := leer (λ s, ahora s - 5 * 3600).

(** [.date()] of a timestamp in seconds: the day number. *)
Definition date (t : Z) : Z := t `div` 86400.

(** [Producto.query.get(id)]: one round trip that answers the row of the
    view. Before it emits a query the session may first flush what is
    pending (autoflush); the model leaves every flush to the explicit
    [flush] and [commit]. The difference stays within one transaction and
    within the audit log: for a sale with lines of several products, rows
    of the [after_update] listener may stand before the row of the sale,
    or come more than once. The statements below say of those rows that
    they are about [Producto]; none fixes their place or their number for
    a sale. *)
Definition query_get (id : Z) : Op (option Producto) :=
  persistencia ;; leer (λ s, productos (actual s) !! id).

(** The next value of an autoincrement primary key. Keys handed out this
    way start at 1, so the largest key in use is never below 0. *)
Definition nuevo_id (ids : list Z) : Z := 1 + foldr Z.max 0 ids.

(** [db.session.add(Venta(...))]. The primary key, which the code reads
    after [flush], is fixed here already: rows are keyed in the order in
    which they join the session. *)
Definition session_add_venta (fecha id_cliente id_usuario : Z)
    (total : Decimal) : Op Venta :=
  λ s, let b := actual s in
       let v := mkVenta (nuevo_id (id_venta <$> ventas b))
                        fecha id_cliente id_usuario total in
       (Normal v, con_actual s (con_ventas b (ventas b ++ [v]))).

(** [db.session.add(DetalleVenta(...))] *)
Definition session_add_detalle (id_venta id_producto cantidad : Z)
    (precio_unitario : Decimal) : Op DetalleVenta :=
  λ s, let b := actual s in
       let d := mkDetalleVenta (nuevo_id (id_detalle <$> detalles b))
                               id_venta id_producto cantidad precio_unitario in
       (Normal d, con_actual s (con_detalles b (detalles b ++ [d]))).

(** [db.session.add(Auditoria(...))]; [fecha] takes its column default
    [hora_peru]. *)
Definition session_add_auditoria (tabla accion : string) (id_registro : Z)
    (usuario_sql datos : string) : Op unit :=
  λ s, let b := actual s in
       let a := mkAuditoria (nuevo_id (id_auditoria <$> auditorias b))
                            tabla accion id_registro (ahora s - 5 * 3600)
                            usuario_sql datos in
       (Normal tt, con_actual s (con_auditorias b (auditorias b ++ [a]))).

(** The [after_update] listener on [Producto]. *)
Definition auditoria_producto_update (target : Producto) : Op unit :=
  session_add_auditoria "Producto" "UPDATE" (id_producto target) "system"
    ("Producto actualizado: " +:+ nombre_producto target).

Definition marcar_sucio (id : Z) (l : list Z) : list Z :=
  if bool_decide (id ∈ l) then l else l ++ [id].

(** An attribute assignment on the [Producto] object with key [id]: the
    object is shared through the identity map, so every later
    [query_get id] of the same session sees the change. *)
Definition actualizar_producto (id : Z) (f : Producto → Producto) : Op unit :=
  modificar (λ s,
    mkSesion (confirmado s)
             (con_productos (actual s) (alter f id (productos (actual s))))
             (marcar_sucio id (sucios s)) (fallos s) (ahora s)).

Definition con_stock (n : Z) (p : Producto) : Producto :=
  mkProducto (id_producto p) (nombre_producto p) (descripcion p) (precio p) n.

Definition con_total (t : Decimal) (v : Venta) : Venta :=
  mkVenta (id_venta v) (fecha_venta v) (v_id_cliente v) (v_id_usuario v) t.

(** [venta.total = t] on the [Venta] object with key [id]. *)
Definition asignar_total (id : Z) (t : Decimal) : Op unit :=
  modificar (λ s,
    con_actual s (con_ventas (actual s)
      ((λ v, if decide (id_venta v = id) then con_total t v else v)
         <$> ventas (actual s)))).

(** The [UPDATE]s of a flush run the [after_update] listener once for each
    modified product. *)
Fixpoint disparar_after_update (ids : list Z) : Op unit :=
  match ids with
  | [] => ret tt
  | id :: ids' =>
      p <- leer (λ s, productos (actual s) !! id) ;;
      match p with
      | Some target => auditoria_producto_update target
      | None => ret tt
      end ;;
      disparar_after_update ids'
  end.

(** [db.session.flush()] *)
Definition session_flush : Op unit :=
  persistencia ;;
  ids <- leer sucios ;;
  modificar (λ s, mkSesion (confirmado s) (actual s) [] (fallos s) (ahora s)) ;;
  disparar_after_update ids.

(** [db.session.commit()]: flush, then make the view durable. *)
Definition session_commit : Op unit :=
  session_flush ;;
  persistencia ;;
  modificar (λ s, mkSesion (actual s) (actual s) (sucios s) (fallos s) (ahora s)).

(** Dropping the open transaction: the view falls back to the durable
    state and nothing is pending any more. *)
Definition descartar (s : Sesion) : Sesion :=
  mkSesion (confirmado s) (confirmado s) [] (fallos s) (ahora s).

(** [db.session.rollback()]: a round trip to the database like the
    others, so it raises when the schedule says so, and the transaction
    is then still open; when it goes through, the view falls back to the
    durable state. *)
Definition session_rollback : Op unit :=
  persistencia ;; modificar descartar.

(** [db.session.remove()], which Flask-SQLAlchemy runs when the
    application context of a request is torn down: the session is thrown
    away, and the next request starts from the durable state. *)
Definition session_remove : Op unit := modificar descartar.

(** [@app.errorhandler(500)]: an exception that leaves a view is answered
    by [internal_error], which rolls the session back and renders the 500
    page [pagina]. When that rollback raises as well, the exception leaves
    the application: the server answers 500 all the same, and the
    teardown of the request throws the session away. *)
Definition internal_error {A} (pagina : A) : Op A :=
  try_except (session_rollback ;; ret pagina)
             (λ _, session_remove ;; ret pagina).

(** ** The sale engine and the request handlers *)

Section Motor.
Context {F : Type} `{Flotante F}.

(** One entry of [detalles_productos]: [{id_producto, cant, precio}]. *)
Record Detalle := mkDetalle {
  d_id_producto : Z;
  cant : Z;
  d_precio : F
}.

(** The dict returned by [registrar_venta]. *)
Record Resultado := mkResultado {
  status : string;
  mensaje : string;
  venta_id : Z;
  total_venta : F
}.

(** [DetalleVenta.subtotal] on a row read back from the table. *)
Definition subtotal (d : DetalleVenta) : F :=
  f_por (f_entero (cantidad d)) (f_decimal (precio_unitario d)).

(** [DetalleVenta.subtotal] on the object just built from a request line,
    whose [precio_unitario] attribute still holds the float it was given,
    so that the inner [float(...)] changes nothing. *)
Definition subtotal_linea (d : Detalle) : F :=
  f_por (f_entero (cant d)) (d_precio d).

Definition mensaje_no_encontrado (d : Detalle) : string :=
  "Producto ID " +:+ pretty (d_id_producto d) +:+ " no encontrado".

Definition mensaje_stock (p : Producto) (d : Detalle) : string :=
  "Stock insuficiente para '" +:+ nombre_producto p +:+ "' (ID: "
  +:+ pretty (id_producto p) +:+ "). " +:+ "Solicitado: " +:+ pretty (cant d)
  +:+ ", Disponible: " +:+ pretty (stock p).

Definition resultado_error (m : string) : Resultado :=
  mkResultado "error" m 0 (f_entero 0).

(** 1. VERIFICAR STOCK DISPONIBLE: [Some r] is the early [return r]. *)
Fixpoint verificar_stock (ds : list Detalle) : Op (option Resultado) :=
  match ds with
  | [] => ret None
  | detalle :: ds' =>
      producto <- query_get (d_id_producto detalle) ;;
      match producto with
      | None => ret (Some (resultado_error (mensaje_no_encontrado detalle)))
      | Some p =>
          if decide (stock p < cant detalle)
          then ret (Some (resultado_error (mensaje_stock p detalle)))
          else verificar_stock ds'
      end
  end.

(** 3. INSERTAR DETALLES DE VENTA, with the running [total]. *)
Fixpoint insertar_detalles (id_venta : Z) (ds : list Detalle) (total : F)
    : Op F :=
  match ds with
  | [] => ret total
  | detalle :: ds' =>
      session_add_detalle id_venta (d_id_producto detalle) (cant detalle)
        (a_numeric (d_precio detalle)) ;;
      insertar_detalles id_venta ds' (f_mas total (subtotal_linea detalle))
  end.

(** 5. ACTUALIZAR STOCK DE PRODUCTOS. A product that is gone makes
    [producto.stock] raise an [AttributeError]. *)
Fixpoint actualizar_stock (ds : list Detalle) : Op unit :=
  match ds with
  | [] => ret tt
  | detalle :: ds' =>
      producto <- query_get (d_id_producto detalle) ;;
      match producto with
      | None => lanzar "'NoneType' object has no attribute 'stock'"
      | Some p =>
          actualizar_producto (d_id_producto detalle)
            (con_stock (stock p - cant detalle))
      end ;;
      actualizar_stock ds'
  end.

Definition datos_venta (id_cliente : Z) (total : F) : string :=
  "Venta registrada: Cliente ID " +:+ pretty id_cliente +:+ ", Total S/. "
  +:+ formato_2f total.

Definition registrar_venta (id_cliente id_usuario : Z) (fecha : option Z)
    (detalles_productos : option (list Detalle)) : Op Resultado :=
  let detalles_productos := default [] detalles_productos in
  try_except
    (fecha <- match fecha with
              | None => t <- hora_peru ;; ret (date t)
              | Some f => ret f
              end ;;
     rechazo <- verificar_stock detalles_productos ;;
     match rechazo with
     | Some r => ret r
     | None =>
         venta <- session_add_venta fecha id_cliente id_usuario 0 ;;
         session_flush ;;
         let id_venta := id_venta venta in
         total <- insertar_detalles id_venta detalles_productos (f_entero 0) ;;
         asignar_total id_venta (a_numeric total) ;;
         actualizar_stock detalles_productos ;;
         session_add_auditoria "Venta" "INSERT" id_venta "system"
           (datos_venta id_cliente total) ;;
         session_commit ;;
         ret (mkResultado "success" "Venta registrada exitosamente"
                          id_venta total)
     end)
    (λ e,
       session_rollback ;;
       ret (resultado_error ("Error al registrar venta: " +:+ e))).

(** What a request handler answers: a flashed message with its category
    and a redirect, a 404, or the page of the 500 handler. *)
Inductive Destino : Type :=
  | a_nueva_venta
  | a_detalle_venta (id : Z)
  | a_ver_productos.

Inductive Respuesta : Type :=
  | Redirige (flash categoria : string) (destino : Destino)
  | NoEncontrado404
  | ErrorInterno500.

(** A view function as Flask runs it: an exception that leaves it goes
    to [internal_error]. *)
Definition despachar (m : Op Respuesta) : Op Respuesta :=
  try_except m (λ _, internal_error ErrorInterno500).

(** The loop of [nueva_venta] over the two form lists, their fields
    already parsed by [int]; [cantidades[i]] raises an [IndexError] when
    that list is the shorter one. *)
Fixpoint leer_detalles (productos_ids cantidades : list Z)
    (detalles : list Detalle) : Op (list Detalle) :=
  match productos_ids with
  | [] => ret detalles
  | id_producto :: ids' =>
      match cantidades with
      | [] => lanzar "list index out of range"
      | cantidad :: cs' =>
          if decide (cantidad ≤ 0) then leer_detalles ids' cs' detalles
          else
            producto <- query_get id_producto ;;
            match producto with
            | Some p =>
                leer_detalles ids' cs'
                  (detalles ++
                     [mkDetalle id_producto cantidad (f_decimal (precio p))])
            | None => leer_detalles ids' cs' detalles
            end
      end
  end.

(** [nueva_venta], POST branch. [fecha] is [datetime.now().date()]. *)
Definition nueva_venta (id_cliente id_usuario fecha : Z)
    (productos_ids cantidades : list Z) : Op Respuesta :=
  despachar
    (detalles <- leer_detalles productos_ids cantidades [] ;;
     match detalles with
     | [] =>
         ret (Redirige "Debe agregar al menos un producto" "warning"
                       a_nueva_venta)
     | _ =>
         resultado <- registrar_venta id_cliente id_usuario (Some fecha)
                        (Some detalles) ;;
         if decide (status resultado = "success")
         then ret (Redirige (mensaje resultado) "success"
                            (a_detalle_venta (venta_id resultado)))
         else ret (Redirige (mensaje resultado) "danger" a_nueva_venta)
     end).

(** [editar_producto], POST branch, with the form already parsed. *)
Definition editar_producto (id : Z) (nombre descr : string) (nuevo_precio : F)
    (nuevo_stock : Z) : Op Respuesta :=
  despachar
    (producto <- query_get id ;;
     match producto with
     | None => ret NoEncontrado404
     | Some _ =>
         actualizar_producto id
           (λ p, mkProducto (id_producto p) nombre descr
                            (a_numeric nuevo_precio) nuevo_stock) ;;
         session_commit ;;
         ret (Redirige "Producto actualizado correctamente" "success"
                       a_ver_productos)
     end).

(** [Venta.calcular_total] as a query: the sum of the subtotals of the
    rows of [DetalleVenta] that belong to the sale. *)
Definition detalles_de (b : BD) (id : Z) : list DetalleVenta :=
  filter (λ d, dv_id_venta d = id) (detalles b).

Definition calcular_total (b : BD) (id : Z) : F :=
  foldl (λ acc d, f_mas acc (subtotal d)) (f_entero 0) (detalles_de b id).

End Motor.

Arguments Detalle F : clear implicits.
Arguments Resultado F : clear implicits.

(** ** Vocabulary of the statements *)

(** A computation respects a relation between the session before and
    after it, however it ends. *)
Definition respeta {A} (R : Sesion → Sesion → Prop) (m : Op A) : Prop :=
  ∀ s o s', m s = (o, s') → R s s'.

(** Only the fault schedule moved. *)
Definition solo_fallos (s s' : Sesion) : Prop :=
  confirmado s' = confirmado s ∧ actual s' = actual s
  ∧ sucios s' = sucios s ∧ ahora s' = ahora s.

(** Nothing was committed. *)
Definition mismo_confirmado (s s' : Sesion) : Prop :=
  confirmado s' = confirmado s ∧ ahora s' = ahora s.

(** The sales and their lines are untouched, in the view and on disk. *)
Definition mismas_ventas (s s' : Sesion) : Prop :=
  ∀ vs ds,
    ventas (actual s) = vs ∧ detalles (actual s) = ds
    ∧ ventas (confirmado s) = vs ∧ detalles (confirmado s) = ds →
    ventas (actual s') = vs ∧ detalles (actual s') = ds
    ∧ ventas (confirmado s') = vs ∧ detalles (confirmado s') = ds.

(** A computation that raises has committed nothing. *)
Definition lanza_sin_confirmar {A} (m : Op A) : Prop :=
  ∀ s e s', m s = (Excepcion e, s') → mismo_confirmado s s'.

(** No round trip to the database is scheduled to fail. *)
Definition sin_fallos (s : Sesion) : Prop := Forall (λ f, f = None) (fallos s).

Definition conserva_sin_fallos (s s' : Sesion) : Prop :=
  sin_fallos s → sin_fallos s'.

(** What a computation has taken from the fault schedule by the time it
    ends: round trips that went through and, when it raised, the fault it
    raised. *)
Definition gasto {A} (o : Salida A) : list (option string) :=
  match o with
  | Normal _ => []
  | Excepcion e => [Some e]
  end.

Definition traza {A} (s : Sesion) (o : Salida A) (s' : Sesion) : Prop :=
  ∃ pre, Forall (λ f, f = None) pre ∧ fallos s = pre ++ gasto o ++ fallos s'.

(** Every exception of the computation is a fault of the schedule. *)
Definition consume {A} (m : Op A) : Prop :=
  ∀ s o s', m s = (o, s') → traza s o s'.

(** The session holds no uncommitted change, as at the start of a
    request. *)
Definition sesion_limpia (s : Sesion) : Prop := actual s = confirmado s.

(** The figures of the atomicity property: number of sales, number of
    lines, stock of every product, number of audit entries. *)
Definition conteos (b : BD) : nat * nat * gmap Z Z * nat :=
  (length (ventas b), length (detalles b), stock <$> productos b,
   length (auditorias b)).

(** A row written by a [Producto] listener. *)
Definition es_de_producto (a : Auditoria) : Prop := tabla a = "Producto".

Section Referencia.
Context {F : Type} `{Flotante F}.

(** The sum of [float(cant) * precio] over the request, as the loop adds
    it up: from the left, starting at [0]. *)
Definition total_lineas (ds : list (Detalle F)) : F :=
  foldl (λ t d, f_mas t (subtotal_linea d)) (f_entero 0) ds.

(** The rows of [DetalleVenta] after the lines of a request have joined
    the table [l]. *)
Definition fila_detalle (id_venta : Z) (l : list DetalleVenta)
    (d : Detalle F) : DetalleVenta :=
  mkDetalleVenta (nuevo_id (id_detalle <$> l)) id_venta (d_id_producto d)
                 (cant d) (a_numeric (d_precio d)).

Definition agregar_detalles (id_venta : Z) (ds : list (Detalle F))
    (l : list DetalleVenta) : list DetalleVenta :=
  foldl (λ l d, l ++ [fila_detalle id_venta l d]) l ds.

(** A row of [DetalleVenta] records a request line for a sale. *)
Definition fila_de (id_venta : Z) (fila : DetalleVenta) (d : Detalle F)
    : Prop :=
  dv_id_venta fila = id_venta ∧ dv_id_producto fila = d_id_producto d
  ∧ cantidad fila = cant d ∧ precio_unitario fila = a_numeric (d_precio d).

(** The product table after the stock of each line has been taken. *)
Definition descontar_uno (m : gmap Z Producto) (d : Detalle F)
    : gmap Z Producto :=
  match m !! d_id_producto d with
  | Some p => alter (con_stock (stock p - cant d)) (d_id_producto d) m
  | None => m
  end.

Definition descontar (ds : list (Detalle F)) (m : gmap Z Producto)
    : gmap Z Producto :=
  foldl descontar_uno m ds.

(** The quantity a request asks of one product, over all its lines. *)
Definition pedido (id : Z) (ds : list (Detalle F)) : Z :=
  foldr (λ d n, if decide (d_id_producto d = id) then cant d + n else n) 0 ds.

(** Every line of the request names a product of [m] with enough stock
    for that line. *)
Definition lineas_validas (m : gmap Z Producto) (ds : list (Detalle F))
    : Prop :=
  Forall (λ d, ∃ p, m !! d_id_producto d = Some p ∧ cant d ≤ stock p) ds.

(** Steps 2 to 7 of [registrar_venta], the try body and the handler. *)
Definition alta_venta (id_cliente id_usuario fecha : Z)
    (detalles_productos : list (Detalle F)) : Op (Resultado F) :=
  venta <- session_add_venta fecha id_cliente id_usuario 0 ;;
  session_flush ;;
  let id_venta := id_venta venta in
  total <- insertar_detalles id_venta detalles_productos (f_entero 0) ;;
  asignar_total id_venta (a_numeric total) ;;
  actualizar_stock detalles_productos ;;
  session_add_auditoria "Venta" "INSERT" id_venta "system"
    (datos_venta id_cliente total) ;;
  session_commit ;;
  ret (mkResultado "success" "Venta registrada exitosamente" id_venta total).

Definition cuerpo_venta (id_cliente id_usuario : Z) (fecha : option Z)
    (detalles_productos : list (Detalle F)) : Op (Resultado F) :=
  fecha <- match fecha with
           | None => t <- hora_peru ;; ret (date t)
           | Some f => ret f
           end ;;
  rechazo <- verificar_stock detalles_productos ;;
  match rechazo with
  | Some r => ret r
  | None => alta_venta id_cliente id_usuario fecha detalles_productos
  end.

Definition manejador (e : string) : Op (Resultado F) :=
  session_rollback ;;
  ret (resultado_error ("Error al registrar venta: " +:+ e)).

(** The date a sale gets. *)
Definition fecha_efectiva (fecha : option Z) (s : Sesion) : Z :=
  match fecha with
  | None => date (ahora s - 5 * 3600)
  | Some f => f
  end.

End Referencia.

(** ** Statements of the specification and sample data *)

Section Enunciados.
Context {F : Type} `{Flotante F}.

(** The price of the product a request line names, as a float, at the
    moment of the call. *)
Definition precio_vigente (m : gmap Z Producto) (d : Detalle F) : F :=
  match m !! d_id_producto d with
  | Some p => f_decimal (precio p)
  | None => f_entero 0
  end.

Definition total_vigente (m : gmap Z Producto) (ds : list (Detalle F)) : F :=
  foldl (λ t d, f_mas t (f_por (f_entero (cant d)) (precio_vigente m d)))
        (f_entero 0) ds.

(** A request line that carries a positive quantity and, as its price,
    the price of an existing product converted to a float. *)
Definition linea_vigente (m : gmap Z Producto) (d : Detalle F) : Prop :=
  ∃ p, m !! d_id_producto d = Some p ∧ d_precio d = f_decimal (precio p)
       ∧ 0 < cant d.

(** "Each line item captures the product's current unit price, and the
    returned total is the sum of quantity times that price." *)
Definition captura_precio_vigente : Prop :=
  ∀ c u fecha (ds : list (Detalle F)) s r s',
    registrar_venta c u fecha (Some ds) s = (Normal r, s') →
    status r = "success" →
    (∀ fila, fila ∈ detalles (confirmado s') →
       dv_id_venta fila = venta_id r →
       ∃ p, productos (actual s) !! dv_id_producto fila = Some p
            ∧ precio_unitario fila = precio p)
    ∧ total_venta r = total_vigente (productos (actual s)) ds.

(** "For every input the call returns a structured result, with a status
    of success or error and a sale id that is 0 exactly on error; no
    exception escapes to the caller." *)
Definition siempre_resultado : Prop :=
  ∀ c u fecha (dps : option (list (Detalle F))) s,
    ∃ r s', registrar_venta c u fecha dps s = (Normal r, s')
            ∧ (status r = "success" ∨ status r = "error")
            ∧ (venta_id r = 0 ↔ status r = "error").

(** "An empty request is an error: no sale, no line, no stock change." *)
Definition pedido_vacio_es_error : Prop :=
  ∀ c u fecha s (r : Resultado F) s',
    registrar_venta c u fecha (Some []) s = (Normal r, s') →
    status r = "error" ∧ ventas (confirmado s') = ventas (confirmado s)
    ∧ detalles (confirmado s') = detalles (confirmado s)
    ∧ productos (confirmado s') = productos (confirmado s).

(** The number of distinct products asked for with a positive quantity. *)
Definition productos_distintos (ds : list (Detalle F)) : nat :=
  length (remove_dups (d_id_producto <$> filter (λ d, 0 < cant d) ds)).

(** "A successful sale has as many line items as distinct products with a
    positive quantity in the request." *)
Definition una_linea_por_producto : Prop :=
  ∀ c u fecha (ds : list (Detalle F)) s r s',
    registrar_venta c u fecha (Some ds) s = (Normal r, s') →
    status r = "success" →
    ∃ nuevas, detalles (confirmado s') = detalles (actual s) ++ nuevas
              ∧ length nuevas = productos_distintos ds.

End Enunciados.

Module Ejemplo.
Import Centimos.

(** Three products of the seed catalogue, with stocks chosen for the
    scenarios: 850.00 with 25 in stock, 280.00 with 5, 120.00 with 1. *)
Definition sofa : Producto :=
  mkProducto 1 "Sofa 3 Cuerpos" "Sofa de 3 cuerpos en tela resistente" 85000 25.
Definition mesa : Producto :=
  mkProducto 2 "Mesa de Centro Madera" "Mesa de centro en madera de cedro"
             28000 5.
Definition velador : Producto :=
  mkProducto 3 "Velador Moderno" "Velador con cajon y lampara incorporada"
             12000 1.

Definition tienda : BD :=
  mkBD (<[1 := sofa]> (<[2 := mesa]> (<[3 := velador]> ∅))) [] [] [].

(** A fresh session on [tienda], nothing scheduled to fail. *)
Definition sesion_inicial : Sesion := mkSesion tienda tienda [] [] 1700000000.

(** The same session when the fifth round trip to the database, the
    [COMMIT] of a one-line sale, fails. *)
Definition sesion_commit_falla : Sesion :=
  mkSesion tienda tienda [] [None; None; None; None; Some "disk I/O error"]
           1700000000.

(** The same session when the connection is lost at the [COMMIT]: the
    fifth round trip fails, and so does the sixth, the [ROLLBACK] of the
    handler. *)
Definition sesion_rollback_falla : Sesion :=
  mkSesion tienda tienda []
           [None; None; None; None;
            Some "server closed the connection unexpectedly";
            Some "connection already closed"]
           1700000000.

(** Request lines: two sofas at the catalogue price, two sofas at a forged
    price of 1.00, three tables (twice in one request below), ten tables. *)
Definition dos_sofas : Detalle Z := mkDetalle 1 2 85000.
Definition dos_sofas_a_un_sol : Detalle Z := mkDetalle 1 2 100.
Definition tres_mesas : Detalle Z := mkDetalle 2 3 28000.
Definition diez_mesas : Detalle Z := mkDetalle 2 10 28000.
Definition un_velador : Detalle Z := mkDetalle 3 1 12000.

(** The sessions left by a call for customer 7 by user 3: after the sale
    of [dos_sofas], after the sale at the forged price, after the request
    that names the tables twice, after a call without lines, after the
    sale whose [COMMIT] fails, and after the one whose [ROLLBACK] fails
    as well. *)
Definition sesion_tras_venta : Sesion :=
  (registrar_venta 7 3 None (Some [dos_sofas]) sesion_inicial).2.
Definition sesion_precio_forjado : Sesion :=
  (registrar_venta 7 3 None (Some [dos_sofas_a_un_sol]) sesion_inicial).2.
Definition sesion_mesas_repetidas : Sesion :=
  (registrar_venta 7 3 None (Some [tres_mesas; tres_mesas]) sesion_inicial).2.
Definition sesion_pedido_vacio : Sesion :=
  (registrar_venta 7 3 None (@None (list (Detalle Z))) sesion_inicial).2.
Definition sesion_revertida : Sesion :=
  (registrar_venta 7 3 None (Some [dos_sofas]) sesion_commit_falla).2.
Definition sesion_sin_revertir : Sesion :=
  (registrar_venta 7 3 None (Some [dos_sofas]) sesion_rollback_falla).2.

Definition exito (id : Z) (t : Z) : Resultado Z :=
  mkResultado "success" "Venta registrada exitosamente" id t.

End Ejemplo.

(** ** The other product handlers, access control and authentication *)

(** A row of [Usuario]; [fecha_creacion] is never read. *)
Record Usuario := mkUsuario {
  id_usuario : Z;
  username : string;
  password_hash : string;
  rol : string;
  nombre_completo : string;
  activo : bool
}.

(** The keys of [Producto] in use. *)
Definition claves (m : gmap Z Producto) : list Z := (map_to_list m).*1.

(** [db.session.add(Producto(...))]; as for the other tables the primary
    key is fixed when the row joins the session: one more than the largest
    key in use. *)
Definition session_add_producto (nombre descr : string) (precio : Decimal)
    (stock : Z) : Op Producto :=
  λ s, let b := actual s in
       let p := mkProducto (nuevo_id (claves (productos b)))
                           nombre descr precio stock in
       (Normal p,
        con_actual s (con_productos b (<[id_producto p := p]> (productos b)))).

(** [db.session.delete(producto)] for the object read under key [id]. *)
Definition session_delete_producto (id : Z) : Op unit :=
  modificar (λ s,
    con_actual s (con_productos (actual s) (delete id (productos (actual s))))).

(** The [after_delete] listener on [Producto]. *)
Definition auditoria_producto_delete (target : Producto) : Op unit :=
  session_add_auditoria "Producto" "DELETE" (id_producto target) "system"
    ("Producto eliminado: " +:+ nombre_producto target).

(** [db.session.commit()] when the session holds one deleted product: the
    flush emits the [DELETE] and runs [after_delete], whose row goes out
    with the next flush, inside [session_commit]. *)
Definition session_commit_delete (target : Producto) : Op unit :=
  persistencia ;;
  auditoria_producto_delete target ;;
  session_commit.

(** [DetalleVenta.query.filter_by(id_producto=id).count()] *)
Definition contar_detalles_de_producto (id : Z) : Op nat :=
  persistencia ;;
  leer (λ s, length (filter (λ d, dv_id_producto d = id) (detalles (actual s)))).

(** The row the [after_update] listener writes about a product. *)
Definition fila_update (a : Auditoria) (p : Producto) : Prop :=
  tabla a = "Producto" ∧ accion a = "UPDATE"
  ∧ id_registro a = id_producto p ∧ usuario_sql a = "system"
  ∧ datos a = "Producto actualizado: " +:+ nombre_producto p.

(** What a decorated view answers: the page of the view, or the redirect
    of a decorator with the message it flashes and its category. *)
Inductive Vista (A : Type) : Type :=
  | Pagina (r : A)
  | RedirigeLogin (flash categoria : string)
  | RedirigeIndex (flash categoria : string).
Arguments Pagina {A} r.
Arguments RedirigeLogin {A} flash categoria.
Arguments RedirigeIndex {A} flash categoria.

(** Flask-Login's [@login_required]: an anonymous visitor is sent to
    [login_view] with [login_message]. [current_user] is [None] for the
    anonymous visitor; inside the view it is the user given to [f]. *)
Definition login_required {A} (current_user : option Usuario)
    (f : Usuario → Op (Vista A)) : Op (Vista A) :=
  match current_user with
  | None =>
      ret (RedirigeLogin "Por favor inicie sesión para acceder a esta página."
                         "message")
  | Some u => f u
  end.

(** [@requiere_permiso(accion)] *)
Definition requiere_permiso {A} (accion : string)
    (current_user : option Usuario) (f : Usuario → Op (Vista A))
    : Op (Vista A) :=
  match current_user with
  | None => ret (RedirigeLogin "Debe iniciar sesión" "warning")
  | Some u =>
      if Permisos.tiene_permiso (rol u) accion then f u
      else ret (RedirigeIndex ("No tiene permisos para: " +:+ accion) "danger")
  end.

(** A view under [@login_required] and [@requiere_permiso(accion)], in
    the order of the source: the login check is the outer one. *)
Definition protegida {A} (accion : string) (current_user : option Usuario)
    (f : Usuario → Op A) : Op (Vista A) :=
  login_required current_user (λ _,
    requiere_permiso accion current_user (λ u,
      r <- f u ;; ret (Pagina r))).

Section Catalogo.
Context {F : Type} `{Flotante F}.

(** Python's [str] of a float, as an f-string renders it. *)
Variable str_float : F → string.

(** The [after_insert] listener on [Producto]; [precio] is the attribute
    of the new object, still the float it was built with. *)
Definition auditoria_producto_insert (target : Producto) (precio : F)
    : Op unit :=
  session_add_auditoria "Producto" "INSERT" (id_producto target) "system"
    ("Producto: " +:+ nombre_producto target +:+ ", Precio: "
     +:+ str_float precio +:+ ", Stock: " +:+ pretty (stock target)).

(** [db.session.commit()] when the session holds one new product: the
    flush emits the [INSERT] and runs [after_insert]. *)
Definition session_commit_insert (target : Producto) (precio : F) : Op unit :=
  persistencia ;;
  auditoria_producto_insert target precio ;;
  session_commit.

(** [nuevo_producto], POST branch, with the form already parsed. *)
Definition nuevo_producto (nombre descr : string) (precio : F) (stock : Z)
    : Op Respuesta :=
  despachar
    (producto <- session_add_producto nombre descr (a_numeric precio) stock ;;
     session_commit_insert producto precio ;;
     ret (Redirige "Producto registrado exitosamente" "success"
                   a_ver_productos)).

(** [eliminar_producto] *)
Definition eliminar_producto (id : Z) : Op Respuesta :=
  despachar
    (producto <- query_get id ;;
     match producto with
     | None => ret NoEncontrado404
     | Some p =>
         n <- contar_detalles_de_producto (id_producto p) ;;
         if decide (0 < n)%nat
         then ret (Redirige
                     "No se puede eliminar. El producto tiene ventas registradas"
                     "danger" a_ver_productos)
         else
           session_delete_producto id ;;
           session_commit_delete p ;;
           ret (Redirige "Producto eliminado correctamente" "success"
                         a_ver_productos)
     end).

(** The routes with their decorators. *)
Definition ruta_nueva_venta (current_user : option Usuario)
    (id_cliente fecha : Z) (productos_ids cantidades : list Z)
    : Op (Vista Respuesta) :=
  protegida "ventas" current_user (λ u,
    nueva_venta id_cliente (id_usuario u) fecha productos_ids cantidades).

Definition ruta_nuevo_producto (current_user : option Usuario)
    (nombre descr : string) (precio : F) (stock : Z) : Op (Vista Respuesta) :=
  protegida "crear" current_user (λ _, nuevo_producto nombre descr precio stock).

Definition ruta_editar_producto (current_user : option Usuario) (id : Z)
    (nombre descr : string) (precio : F) (stock : Z) : Op (Vista Respuesta) :=
  protegida "actualizar" current_user (λ _,
    editar_producto id nombre descr precio stock).

Definition ruta_eliminar_producto (current_user : option Usuario) (id : Z)
    : Op (Vista Respuesta) :=
  protegida "eliminar" current_user (λ _, eliminar_producto id).

End Catalogo.

Section Autenticacion.

(** werkzeug's [check_password_hash(pwhash, password)]. *)
Variable check_password_hash : string → string → bool.

(** The rows of [Usuario], in the order the query returns them; nothing
    modelled here writes to that table. *)
Variable usuarios : list Usuario.

(** [Usuario.check_password] *)
Definition check_password (u : Usuario) (password : string) : bool :=
  check_password_hash (password_hash u) password.

(** [Usuario.query.filter_by(username=username).first()] *)
Definition usuario_por_username (nombre : string) : Op (option Usuario) :=
  persistencia ;;
  ret (snd <$> list_find (λ u, username u = nombre) usuarios).

(** What [login] answers: the redirect of a visitor already logged in,
    the welcome with the page to go to, the rejection, or the 500 page. *)
Inductive RespuestaLogin : Type :=
  | YaAutenticado
  | Bienvenido (u : Usuario) (flash : string) (next_page : option string)
  | Rechazado (flash categoria : string)
  | LoginError500.

(** [login], POST branch. *)
Definition login (current_user : option Usuario) (nombre password : string)
    (next_page : option string) : Op RespuestaLogin :=
  match current_user with
  | Some _ => ret YaAutenticado
  | None =>
      try_except
        (usuario <- usuario_por_username nombre ;;
         match usuario with
         | Some u =>
             if activo u && check_password u password
             then
               session_add_auditoria "Usuario" "LOGIN" (id_usuario u)
                 (username u) "Inicio de sesión exitoso" ;;
               session_commit ;;
               ret (Bienvenido u ("Bienvenido " +:+ nombre_completo u)
                               next_page)
             else ret (Rechazado "Usuario o contraseña incorrectos" "danger")
         | None => ret (Rechazado "Usuario o contraseña incorrectos" "danger")
         end)
        (λ _, internal_error LoginError500)
  end.

(** What [logout] answers behind [@login_required]. *)
Inductive RespuestaLogout : Type :=
  | SesionCerrada (flash categoria : string)
  | LogoutError500.

(** [logout] *)
Definition logout (current_user : option Usuario)
    : Op (Vista RespuestaLogout) :=
  login_required current_user (λ u,
    try_except
      (session_add_auditoria "Usuario" "LOGOUT" (id_usuario u) (username u)
         "Cierre de sesión" ;;
       session_commit ;;
       ret (Pagina (SesionCerrada "Sesión cerrada correctamente" "info")))
      (λ _, internal_error (Pagina LogoutError500))).

End Autenticacion.

(** ** Requests one after the other *)

Section Peticiones.
Context {F : Type} `{Flotante F}.
Variable str_float : F → string.
Variable check_password_hash : string → string → bool.
Variable usuarios : list Usuario.

(** The POST requests modelled, each with the visitor that sends it. *)
Inductive Peticion : Type :=
  | PostNuevaVenta (current_user : option Usuario) (id_cliente fecha : Z)
      (productos_ids cantidades : list Z)
  | PostNuevoProducto (current_user : option Usuario) (nombre descr : string)
      (precio : F) (stock : Z)
  | PostEditarProducto (current_user : option Usuario) (id : Z)
      (nombre descr : string) (precio : F) (stock : Z)
  | PostEliminarProducto (current_user : option Usuario) (id : Z)
  | PostLogin (current_user : option Usuario) (nombre password : string)
      (next_page : option string)
  | GetLogout (current_user : option Usuario).

Definition poner_reloj (t : Z) (s : Sesion) : Sesion :=
  mkSesion (confirmado s) (actual s) (sucios s) (fallos s) t.

(** The session after one request served at time [t]. *)
Definition atender (t : Z) (p : Peticion) (s : Sesion) : Sesion :=
  let s := poner_reloj t s in
  match p with
  | PostNuevaVenta u c f ids cs => (ruta_nueva_venta u c f ids cs s).2
  | PostNuevoProducto u n d x st =>
      (ruta_nuevo_producto str_float u n d x st s).2
  | PostEditarProducto u id n d x st =>
      (ruta_editar_producto u id n d x st s).2
  | PostEliminarProducto u id => (ruta_eliminar_producto u id s).2
  | PostLogin u n pw nx => (login check_password_hash usuarios u n pw nx s).2
  | GetLogout u => (logout u s).2
  end.

Definition atender_todas (ps : list (Z * Peticion)) (s : Sesion) : Sesion :=
  foldl (λ s tp, atender tp.1 tp.2 s) s ps.

(** The running total of step 3 taken over stored rows: the subtotals
    added from the left, starting at [0]. *)
Definition suma_subtotales (filas : list DetalleVenta) : F :=
  foldl (λ t d, f_mas t (subtotal d)) (f_entero 0) filas.

(** The keys of [Producto] are the ids of its rows, and every line item
    belongs to a sale of the table, names a product of the table and has
    a positive quantity. *)
Definition bd_coherente (b : BD) : Prop :=
  (∀ k p, productos b !! k = Some p → id_producto p = k)
  ∧ (∀ d, d ∈ detalles b → dv_id_venta d ∈ id_venta <$> ventas b)
  ∧ (∀ d, d ∈ detalles b → is_Some (productos b !! dv_id_producto d))
  ∧ (∀ d, d ∈ detalles b → 0 < cantidad d).

(** A price that survives the way from its column to a float and back. *)
Definition precio_estable (c : Decimal) : Prop := a_numeric (f_decimal c) = c.

Definition precios_estables (b : BD) : Prop :=
  ∀ k p, productos b !! k = Some p → precio_estable (precio p).

(** The stored total of every sale is what its stored lines add up to. *)
Definition totales_coherentes (b : BD) : Prop :=
  ∀ v, v ∈ ventas b →
       total v = a_numeric (suma_subtotales (detalles_de b (id_venta v))).

(** What a [Numeric] column took from a float it gives back unchanged. *)
Definition numeric_estable : Prop :=
  ∀ x : F, precio_estable (a_numeric x).

(** The committed effect of one request: on the audit log alone, on one
    product, or a sale built by [nueva_venta]. *)
Definition solo_auditoria (b b' : BD) : Prop :=
  productos b' = productos b ∧ ventas b' = ventas b
  ∧ detalles b' = detalles b ∧ ∃ A, auditorias b' = auditorias b ++ A.

Definition efecto_alta_producto (b b' : BD) : Prop :=
  ventas b' = ventas b ∧ detalles b' = detalles b
  ∧ (∃ A, auditorias b' = auditorias b ++ A)
  ∧ ∃ q x, productos b !! id_producto q = None ∧ precio q = a_numeric x
           ∧ productos b' = <[id_producto q := q]> (productos b).

Definition efecto_edicion (b b' : BD) : Prop :=
  ventas b' = ventas b ∧ detalles b' = detalles b
  ∧ (∃ A, auditorias b' = auditorias b ++ A)
  ∧ ∃ id p q x, productos b !! id = Some p ∧ id_producto q = id_producto p
                ∧ precio q = a_numeric x
                ∧ productos b' = <[id := q]> (productos b).

Definition efecto_baja (b b' : BD) : Prop :=
  ventas b' = ventas b ∧ detalles b' = detalles b
  ∧ (∃ A, auditorias b' = auditorias b ++ A)
  ∧ ∃ id p, productos b !! id = Some p
            ∧ (∀ d, d ∈ detalles b → dv_id_producto d ≠ id_producto p)
            ∧ productos b' = delete id (productos b).

Definition efecto_venta (b b' : BD) : Prop :=
  ∃ v (ds : list (Detalle F)) nuevas A,
    Forall (linea_vigente (productos b)) ds
    ∧ lineas_validas (productos b) ds
    ∧ productos b' = descontar ds (productos b)
    ∧ ventas b' = ventas b ++ [v]
    ∧ id_venta v = nuevo_id (id_venta <$> ventas b)
    ∧ total v = a_numeric (total_lineas ds)
    ∧ detalles b' = detalles b ++ nuevas
    ∧ Forall2 (fila_de (id_venta v)) nuevas ds
    ∧ auditorias b' = auditorias b ++ A.

Definition paso (b b' : BD) : Prop :=
  solo_auditoria b b' ∨ efecto_alta_producto b b' ∨ efecto_edicion b b'
  ∨ efecto_baja b b' ∨ efecto_venta b b'.

End Peticiones.

(** Units of a product sold so far: the sum of [cantidad] over its line
    items, as the report of best sellers adds it. *)
Definition vendido (b : BD) (id : Z) : Z :=
  foldr Z.add 0
    (cantidad <$> filter (λ d, dv_id_producto d = id) (detalles b)).

Section Veredicto.
Context {F : Type} `{Flotante F}.

(** What the validation of step 1 decides on a product table: nothing to
    object when every line is valid, and otherwise the error result of the
    first line that is not, for a missing product or for short stock. *)
Definition objecion (m : gmap Z Producto) (d : Detalle F) (r : Resultado F)
    : Prop :=
  (m !! d_id_producto d = None
   ∧ r = resultado_error (mensaje_no_encontrado d))
  ∨ (∃ p, m !! d_id_producto d = Some p ∧ stock p < cant d
          ∧ r = resultado_error (mensaje_stock p d)).

Definition veredicto (m : gmap Z Producto) (ds : list (Detalle F))
    (rechazo : option (Resultado F)) : Prop :=
  match rechazo with
  | None => lineas_validas m ds
  | Some r =>
      ∃ pre d post, ds = pre ++ d :: post ∧ lineas_validas m pre
                    ∧ objecion m d r
  end.

End Veredicto.

Module Muestra.
Import Centimos Ejemplo.

(** [str] of a non-negative amount held in céntimos, as Python prints
    the float: 850.0, 850.5, 850.25. *)
Definition str_centimos (x : Z) : string :=
  pretty (x `div` 100) +:+ "." +:+
  (if decide (x `mod` 10 = 0) then pretty ((x `mod` 100) `div` 10)
   else Centimos.dos_digitos (x `mod` 100)).

(** A stand-in for the password hash: the hash of [pw] is "hash:" and
    [pw]. *)
Definition comprobar (pwhash password : string) : bool :=
  bool_decide (pwhash = "hash:" +:+ password).

(** The users of the seed data, and one who has been deactivated. *)
Definition admin : Usuario :=
  mkUsuario 1 "admin" "hash:AdminSecure123" "admin"
            "Raul Gomez (Administrador)" true.
Definition vendedor1 : Usuario :=
  mkUsuario 2 "vendedor1" "hash:VendedorSecure456" "vendedor"
            "Ana Lopez (Vendedora)" true.
Definition consulta1 : Usuario :=
  mkUsuario 4 "consulta1" "hash:ConsultaSecure789" "consulta"
            "Antonio Ruiz (Consultor)" true.
Definition de_baja : Usuario :=
  mkUsuario 5 "vendedor3" "hash:VendedorSecure456" "vendedor"
            "Luis Paz (Vendedor)" false.

Definition usuarios : list Usuario := [admin; vendedor1; consulta1; de_baja].

(** The session left by the sale of two sofas and three tables. *)
Definition sesion_dos_lineas : Sesion :=
  (registrar_venta 7 3 None (Some [dos_sofas; tres_mesas]) sesion_inicial).2.

(** The line item of [sesion_tras_venta]. *)
Definition linea_sofas : DetalleVenta := mkDetalleVenta 1 1 1 2 85000.

(** A working day: a login, a sale by a seller, an edit of the sofa with
    a new price, the removal of the night table, a new product, a
    logout. *)
Definition jornada : list (Z * Peticion (F := Z)) :=
  [ (1700000000, PostLogin None "admin" "AdminSecure123" None);
    (1700000600, PostNuevaVenta (Some vendedor1) 7 19675 [1; 2] [2; 3]);
    (1700001200,
     PostEditarProducto (Some admin) 1 "Sofa 3 Cuerpos" "Tapiz nuevo" 99900 20);
    (1700001800, PostEliminarProducto (Some admin) 3);
    (1700002400,
     PostNuevoProducto (Some admin) "Banco Decorativo"
       "Banco para recibidor o pasillo" 22000 25);
    (1700003000, GetLogout (Some admin)) ].

Definition tras_jornada : Sesion :=
  atender_todas str_centimos comprobar usuarios jornada sesion_inicial.

End Muestra.
(** ** Generic facts about computations *)

Section Marco.
Context {R : Sesion → Sesion → Prop}.
Hypothesis R_refl : ∀ s, R s s.
Hypothesis R_trans : ∀ s1 s2 s3, R s1 s2 → R s2 s3 → R s1 s3.

Lemma respeta_ret {A} (a : A) : respeta R (ret a).
Proof. intros s o s' [= <- <-]. apply R_refl. Qed.

Lemma respeta_lanzar {A} (e : string) : respeta R (@lanzar A e).
Proof. intros s o s' [= <- <-]. apply R_refl. Qed.

Lemma respeta_leer {A} (f : Sesion → A) : respeta R (leer f).
Proof. intros s o s' [= <- <-]. apply R_refl. Qed.

Lemma respeta_ligar {A B} (m : Op A) (k : A → Op B) :
  respeta R m → (∀ a, respeta R (k a)) → respeta R (ligar m k).
Proof.
  intros Hm Hk s o s'. unfold ligar.
  destruct (m s) as [[a|e] s1] eqn:Em; intros Hs.
  - eapply R_trans; [eapply Hm, Em | eapply Hk, Hs].
  - injection Hs as <- <-. eapply Hm, Em.
Qed.

Lemma respeta_try_except {A} (m : Op A) (h : string → Op A) :
  respeta R m → (∀ e, respeta R (h e)) → respeta R (try_except m h).
Proof.
  intros Hm Hh s o s'. unfold try_except.
  destruct (m s) as [[a|e] s1] eqn:Em; intros Hs.
  - injection Hs as <- <-. eapply Hm, Em.
  - eapply R_trans; [eapply Hm, Em | eapply Hh, Hs].
Qed.

Lemma respeta_modificar (f : Sesion → Sesion) :
  (∀ s, R s (f s)) → respeta R (modificar f).
Proof. intros Hf s o s' [= <- <-]. apply Hf. Qed.

End Marco.

Lemma ligar_normal {A B} (m : Op A) (k : A → Op B) s b s' :
  ligar m k s = (Normal b, s') →
  ∃ a s1, m s = (Normal a, s1) ∧ k a s1 = (Normal b, s').
Proof.
  unfold ligar. destruct (m s) as [[a|e] s1]; [eauto | discriminate].
Qed.

Lemma ligar_paso {A B} (m : Op A) (k : A → Op B) s a s1 :
  m s = (Normal a, s1) → ligar m k s = k a s1.
Proof. unfold ligar. intros ->. reflexivity. Qed.

Lemma respeta_mono {A} (R R' : Sesion → Sesion → Prop) (m : Op A) :
  (∀ s s', R s s' → R' s s') → respeta R m → respeta R' m.
Proof. intros HR Hm s o s' Hs. eapply HR, Hm, Hs. Qed.

(** ** The relations are preorders *)

Lemma solo_fallos_refl s : solo_fallos s s.
Proof. repeat split. Qed.

Lemma solo_fallos_trans s1 s2 s3 :
  solo_fallos s1 s2 → solo_fallos s2 s3 → solo_fallos s1 s3.
Proof.
  intros (a1 & b1 & c1 & d1) (a2 & b2 & c2 & d2).
  repeat split; congruence.
Qed.

Lemma mismo_confirmado_refl s : mismo_confirmado s s.
Proof. split; reflexivity. Qed.

Lemma mismo_confirmado_trans s1 s2 s3 :
  mismo_confirmado s1 s2 → mismo_confirmado s2 s3 → mismo_confirmado s1 s3.
Proof. intros [a1 b1] [a2 b2]. split; congruence. Qed.

Lemma mismas_ventas_refl s : mismas_ventas s s.
Proof. intros vs ds Hs. exact Hs. Qed.

Lemma mismas_ventas_trans s1 s2 s3 :
  mismas_ventas s1 s2 → mismas_ventas s2 s3 → mismas_ventas s1 s3.
Proof. intros H12 H23 vs ds Hs. apply H23, H12, Hs. Qed.

Lemma conserva_sin_fallos_refl s : conserva_sin_fallos s s.
Proof. intros Hs. exact Hs. Qed.

Lemma conserva_sin_fallos_trans s1 s2 s3 :
  conserva_sin_fallos s1 s2 → conserva_sin_fallos s2 s3 →
  conserva_sin_fallos s1 s3.
Proof. intros H12 H23 Hs. apply H23, H12, Hs. Qed.

Lemma solo_fallos_mismo_confirmado s s' :
  solo_fallos s s' → mismo_confirmado s s'.
Proof. intros (a & b & c & d). split; assumption. Qed.

Lemma solo_fallos_mismas_ventas s s' : solo_fallos s s' → mismas_ventas s s'.
Proof. intros (a & b & c & d) vs ds. rewrite a, b. tauto. Qed.

Create HintDb marco.

#[local] Hint Resolve solo_fallos_refl solo_fallos_trans
  mismo_confirmado_refl mismo_confirmado_trans
  mismas_ventas_refl mismas_ventas_trans
  conserva_sin_fallos_refl conserva_sin_fallos_trans : marco.

(** Breaks a frame goal along the structure of the computation. *)
Ltac marco :=
  repeat first
    [ solve [eauto with marco]
    | apply respeta_ret | apply respeta_lanzar | apply respeta_leer
    | apply respeta_ligar | apply respeta_try_except
    | match goal with |- ∀ _, _ => intro end ].

(** ** Frames of the persistence operations *)

Lemma persistencia_solo_fallos : respeta solo_fallos persistencia.
Proof.
  intros s o s'. unfold persistencia.
  destruct (fallos s) as [|[e|] fs]; intros [= <- <-]; repeat split.
Qed.

Lemma persistencia_sin_fallos : respeta conserva_sin_fallos persistencia.
Proof.
  intros s o s'. unfold persistencia, conserva_sin_fallos, sin_fallos.
  destruct (fallos s) as [|[e|] fs] eqn:Ef; intros [= <- <-]; simpl;
    rewrite ?Ef; intros Hs; [assumption | |]; eapply Forall_inv_tail, Hs.
Qed.

Lemma persistencia_normal s :
  sin_fallos s → ∃ s', persistencia s = (Normal tt, s').
Proof.
  unfold persistencia, sin_fallos.
  destruct (fallos s) as [|[e|] fs]; intros Hs; eauto.
  apply Forall_inv in Hs. discriminate Hs.
Qed.

#[local] Hint Resolve persistencia_solo_fallos persistencia_sin_fallos : marco.

Lemma query_get_solo_fallos id : respeta solo_fallos (query_get id).
Proof. unfold query_get. marco. Qed.

Lemma query_get_sin_fallos id : respeta conserva_sin_fallos (query_get id).
Proof. unfold query_get. marco. Qed.

#[local] Hint Resolve query_get_solo_fallos query_get_sin_fallos : marco.

(** What [query_get] answers is the row of the view. *)
Lemma query_get_valor id s p s' :
  query_get id s = (Normal p, s') → p = productos (actual s) !! id.
Proof.
  intros Hq. pose proof (query_get_solo_fallos id _ _ _ Hq) as (_ & Hb & _).
  apply ligar_normal in Hq as (u & s1 & Hp & Hl).
  injection Hl as <- <-.
  pose proof (persistencia_solo_fallos _ _ _ Hp) as (_ & Hb1 & _).
  rewrite Hb1. reflexivity.
Qed.

Lemma query_get_normal id s :
  sin_fallos s →
  ∃ s', query_get id s = (Normal (productos (actual s) !! id), s').
Proof.
  intros Hs. destruct (persistencia_normal s Hs) as [s1 Hp].
  exists s1. unfold query_get. rewrite (ligar_paso _ _ _ _ _ Hp).
  pose proof (persistencia_solo_fallos _ _ _ Hp) as (_ & Hb1 & _).
  unfold leer. rewrite Hb1. reflexivity.
Qed.

Ltac paso_puro :=
  let s := fresh "s" in
  let o := fresh "o" in
  let s' := fresh "s'" in
  intros s o s' [= <- <-]; simpl.

Lemma add_venta_mismo_confirmado f c u t :
  respeta mismo_confirmado (session_add_venta f c u t).
Proof. paso_puro. split; reflexivity. Qed.

Lemma add_venta_sin_fallos f c u t :
  respeta conserva_sin_fallos (session_add_venta f c u t).
Proof. paso_puro. intros Hs. exact Hs. Qed.

Lemma add_detalle_mismo_confirmado v p c pu :
  respeta mismo_confirmado (session_add_detalle v p c pu).
Proof. paso_puro. split; reflexivity. Qed.

Lemma add_auditoria_mismo_confirmado t a i u d :
  respeta mismo_confirmado (session_add_auditoria t a i u d).
Proof. paso_puro. split; reflexivity. Qed.

Lemma add_auditoria_mismas_ventas t a i u d :
  respeta mismas_ventas (session_add_auditoria t a i u d).
Proof. paso_puro. intros vs ds Hs. exact Hs. Qed.

Lemma add_auditoria_sin_fallos t a i u d :
  respeta conserva_sin_fallos (session_add_auditoria t a i u d).
Proof. paso_puro. intros Hs. exact Hs. Qed.

Lemma actualizar_producto_mismo_confirmado id f :
  respeta mismo_confirmado (actualizar_producto id f).
Proof. paso_puro. split; reflexivity. Qed.

Lemma actualizar_producto_mismas_ventas id f :
  respeta mismas_ventas (actualizar_producto id f).
Proof. paso_puro. intros vs ds Hs. exact Hs. Qed.

Lemma actualizar_producto_sin_fallos id f :
  respeta conserva_sin_fallos (actualizar_producto id f).
Proof. paso_puro. intros Hs. exact Hs. Qed.

Lemma asignar_total_mismo_confirmado id t :
  respeta mismo_confirmado (asignar_total id t).
Proof. paso_puro. split; reflexivity. Qed.

#[local] Hint Resolve add_venta_mismo_confirmado add_venta_sin_fallos
  add_detalle_mismo_confirmado add_auditoria_mismo_confirmado
  add_auditoria_mismas_ventas add_auditoria_sin_fallos
  actualizar_producto_mismo_confirmado actualizar_producto_mismas_ventas
  actualizar_producto_sin_fallos asignar_total_mismo_confirmado : marco.

#[local] Hint Extern 1 (respeta mismo_confirmado _) =>
  (eapply respeta_mono; [apply solo_fallos_mismo_confirmado|]) : marco.
#[local] Hint Extern 1 (respeta mismas_ventas _) =>
  (eapply respeta_mono; [apply solo_fallos_mismas_ventas|]) : marco.

Lemma session_rollback_mismas_ventas : respeta mismas_ventas session_rollback.
Proof.
  unfold session_rollback. marco. paso_puro.
  intros vs ds (h1 & h2 & h3 & h4). repeat split; assumption.
Qed.

Lemma session_rollback_sin_fallos :
  respeta conserva_sin_fallos session_rollback.
Proof. unfold session_rollback. marco. paso_puro. intros Hs. exact Hs. Qed.

Lemma session_rollback_mismo_confirmado :
  respeta mismo_confirmado session_rollback.
Proof. unfold session_rollback. marco. paso_puro. split; reflexivity. Qed.

(** A rollback that goes through leaves the view at the committed
    state. *)
Lemma session_rollback_normal s s' :
  session_rollback s = (Normal tt, s') →
  confirmado s' = confirmado s ∧ actual s' = confirmado s ∧ sucios s' = []
  ∧ ahora s' = ahora s.
Proof.
  intros Hr. apply ligar_normal in Hr as (u & s1 & Hp & Hm).
  apply persistencia_solo_fallos in Hp as (Hc & _ & _ & Ha).
  injection Hm as <-. simpl. auto.
Qed.

(** A rollback that raises has met a fault at once, and the transaction
    is as it was. *)
Lemma session_rollback_lanza s e s' :
  session_rollback s = (Excepcion e, s') →
  fallos s = Some e :: fallos s' ∧ confirmado s' = confirmado s
  ∧ actual s' = actual s.
Proof.
  unfold session_rollback, ligar, persistencia, modificar.
  destruct (fallos s) as [|[e0|] fs]; intros [= <- <-]. auto.
Qed.

(** The 500 handler always answers with its page and leaves a clean
    session on the committed state, whether its rollback goes through or
    not. *)
Lemma internal_error_normal {A} (pagina : A) s o s' :
  internal_error pagina s = (o, s') →
  o = Normal pagina ∧ confirmado s' = confirmado s
  ∧ actual s' = confirmado s ∧ sucios s' = [] ∧ ahora s' = ahora s.
Proof.
  unfold internal_error, try_except, session_rollback, session_remove,
    ligar, persistencia, modificar, ret.
  destruct (fallos s) as [|[e|] fs]; simpl; intros [= <- <-]; auto.
Qed.

Lemma internal_error_mismas_ventas {A} (pagina : A) :
  respeta mismas_ventas (internal_error pagina).
Proof.
  intros s o s' Hi vs ds (h1 & h2 & h3 & h4).
  apply internal_error_normal in Hi as (_ & Hc & Hb & _).
  rewrite Hb, Hc. auto.
Qed.

Lemma internal_error_sin_fallos {A} (pagina : A) :
  respeta conserva_sin_fallos (internal_error pagina).
Proof.
  unfold internal_error, session_remove. marco; paso_puro; intros Hs; exact Hs.
Qed.

#[local] Hint Resolve session_rollback_mismas_ventas
  session_rollback_sin_fallos internal_error_mismas_ventas
  internal_error_sin_fallos : marco.

Lemma disparar_mismo_confirmado ids :
  respeta mismo_confirmado (disparar_after_update ids).
Proof.
  induction ids as [|id ids IH]; simpl; [marco|].
  marco. unfold auditoria_producto_update. destruct a; marco.
Qed.

Lemma disparar_mismas_ventas ids :
  respeta mismas_ventas (disparar_after_update ids).
Proof.
  induction ids as [|id ids IH]; simpl; [marco|].
  marco. unfold auditoria_producto_update. destruct a; marco.
Qed.

Lemma disparar_sin_fallos ids :
  respeta conserva_sin_fallos (disparar_after_update ids).
Proof.
  induction ids as [|id ids IH]; simpl; [marco|].
  marco. unfold auditoria_producto_update. destruct a; marco.
Qed.

#[local] Hint Resolve disparar_mismo_confirmado disparar_mismas_ventas
  disparar_sin_fallos : marco.

Lemma session_flush_mismo_confirmado : respeta mismo_confirmado session_flush.
Proof.
  unfold session_flush. marco. paso_puro. split; reflexivity.
Qed.

Lemma session_flush_mismas_ventas : respeta mismas_ventas session_flush.
Proof.
  unfold session_flush. marco. paso_puro. intros vs ds Hs. exact Hs.
Qed.

Lemma session_flush_sin_fallos : respeta conserva_sin_fallos session_flush.
Proof.
  unfold session_flush. marco. paso_puro. intros Hs. exact Hs.
Qed.

#[local] Hint Resolve session_flush_mismo_confirmado
  session_flush_mismas_ventas session_flush_sin_fallos : marco.

Lemma session_commit_mismas_ventas : respeta mismas_ventas session_commit.
Proof.
  unfold session_commit. marco; paso_puro;
    intros vs ds (h1 & h2 & h3 & h4); repeat split; assumption.
Qed.

Lemma session_commit_sin_fallos : respeta conserva_sin_fallos session_commit.
Proof.
  unfold session_commit. marco; paso_puro; intros Hs; exact Hs.
Qed.

#[local] Hint Resolve session_commit_mismas_ventas
  session_commit_sin_fallos : marco.

(** ** The steps of the sale, one by one *)

Section Pasos.
Context {F : Type} `{Flotante F}.

Lemma verificar_stock_solo_fallos (ds : list (Detalle F)) :
  respeta solo_fallos (verificar_stock ds).
Proof.
  induction ds as [|d ds IH]; simpl; [marco|].
  marco. destruct a as [p|]; [case_decide|]; marco.
Qed.

Lemma verificar_stock_sin_fallos (ds : list (Detalle F)) :
  respeta conserva_sin_fallos (verificar_stock ds).
Proof.
  induction ds as [|d ds IH]; simpl; [marco|].
  marco. destruct a as [p|]; [case_decide|]; marco.
Qed.

(** Validation that lets the sale through has seen every line pass. *)
Lemma verificar_stock_none (ds : list (Detalle F)) s s' :
  verificar_stock ds s = (Normal None, s') →
  lineas_validas (productos (actual s)) ds.
Proof.
  revert s. induction ds as [|d ds IH]; intros s; simpl; [constructor|].
  intros Hv. apply ligar_normal in Hv as (p & s1 & Hq & Hk).
  pose proof (query_get_solo_fallos _ _ _ _ Hq) as (_ & Hb & _).
  apply query_get_valor in Hq. destruct p as [p|]; [|discriminate Hk].
  case_decide as Hst; [discriminate Hk|].
  constructor.
  - exists p. split; [congruence | lia].
  - rewrite <- Hb. eapply IH, Hk.
Qed.

(** An early return of the validation is an error result. *)
Lemma verificar_stock_some (ds : list (Detalle F)) s r s' :
  verificar_stock ds s = (Normal (Some r), s') →
  ∃ m, r = resultado_error m.
Proof.
  revert s. induction ds as [|d ds IH]; intros s; simpl; [discriminate|].
  intros Hv. apply ligar_normal in Hv as (p & s1 & Hq & Hk).
  destruct p as [p|].
  - case_decide; [|eapply IH, Hk]. injection Hk as <- <-. eauto.
  - injection Hk as <- <-. eauto.
Qed.

Lemma insertar_detalles_eq id_venta (ds : list (Detalle F)) t s :
  insertar_detalles id_venta ds t s =
    (Normal (foldl (λ t d, f_mas t (subtotal_linea d)) t ds),
     con_actual s (con_detalles (actual s)
                     (agregar_detalles id_venta ds (detalles (actual s))))).
Proof.
  revert t s. induction ds as [|d ds IH]; intros t s; simpl.
  - destruct s as [c [ps vs dv au] su fa ah]. reflexivity.
  - unfold ligar, session_add_detalle. rewrite IH. reflexivity.
Qed.

(** The new rows follow the old ones and record the request line by
    line. *)
Lemma agregar_detalles_filas id_venta (ds : list (Detalle F)) l :
  ∃ nuevas, agregar_detalles id_venta ds l = l ++ nuevas
            ∧ Forall2 (fila_de id_venta) nuevas ds.
Proof.
  revert l. induction ds as [|d ds IH]; intros l; simpl.
  - exists []. split; [symmetry; apply app_nil_r | constructor].
  - destruct (IH (l ++ [fila_detalle id_venta l d])) as (n & Hn & Hf).
    exists (fila_detalle id_venta l d :: n). split.
    + change (agregar_detalles id_venta (d :: ds) l)
        with (agregar_detalles id_venta ds (l ++ [fila_detalle id_venta l d])).
      rewrite Hn, <- app_assoc. reflexivity.
    + constructor; [repeat split | exact Hf].
Qed.

(** The listeners only append rows about [Producto] to the audit log. *)
Lemma disparar_eq ids s :
  ∃ A, disparar_after_update ids s =
         (Normal tt, con_actual s (con_auditorias (actual s)
                                     (auditorias (actual s) ++ A)))
       ∧ Forall es_de_producto A.
Proof.
  revert s. induction ids as [|id ids IH]; intros s; simpl.
  - exists []. split; [|constructor].
    rewrite app_nil_r. destruct s as [c [ps vs dv au] su fa ah]. reflexivity.
  - unfold ligar at 1. simpl.
    destruct (productos (actual s) !! id) as [target|]; simpl.
    + unfold ligar at 1. simpl.
      match goal with |- context [disparar_after_update ids ?s1] =>
        destruct (IH s1) as (A & -> & HA) end.
      simpl. eexists (_ :: A). split.
      * rewrite <- app_assoc. reflexivity.
      * constructor; [reflexivity | exact HA].
    + unfold ligar at 1. simpl. apply IH.
Qed.

Lemma session_flush_normal s s' :
  session_flush s = (Normal tt, s') →
  ∃ A, actual s' = con_auditorias (actual s) (auditorias (actual s) ++ A)
       ∧ Forall es_de_producto A ∧ confirmado s' = confirmado s
       ∧ ahora s' = ahora s.
Proof.
  intros Hf. apply ligar_normal in Hf as (u & s1 & Hp & Hk).
  apply persistencia_solo_fallos in Hp as (Hc & Hb & Hsu & Ha).
  unfold ligar in Hk. simpl in Hk.
  match type of Hk with disparar_after_update ?ids ?s2 = _ =>
    destruct (disparar_eq ids s2) as (A & HA & HP) end.
  rewrite HA in Hk. injection Hk as <-. simpl.
  exists A. rewrite Hb, Hc, Ha. auto.
Qed.

Lemma session_commit_normal s s' :
  session_commit s = (Normal tt, s') →
  ∃ A, actual s' = con_auditorias (actual s) (auditorias (actual s) ++ A)
       ∧ Forall es_de_producto A ∧ confirmado s' = actual s'.
Proof.
  intros Hc. apply ligar_normal in Hc as ([] & s1 & Hf & Hk).
  apply session_flush_normal in Hf as (A & HA & HP & _).
  apply ligar_normal in Hk as (u & s2 & Hp & Hk).
  apply persistencia_solo_fallos in Hp as (_ & Hb & _).
  injection Hk as <-. simpl. exists A. rewrite Hb. auto.
Qed.

Lemma actualizar_stock_mismo_confirmado (ds : list (Detalle F)) :
  respeta mismo_confirmado (actualizar_stock ds).
Proof.
  induction ds as [|d ds IH]; simpl; [marco|].
  marco. destruct a; marco.
Qed.

(** Step 5 leaves the product table as [descontar] says and touches no
    other table. *)
Lemma actualizar_stock_normal (ds : list (Detalle F)) s s' :
  actualizar_stock ds s = (Normal tt, s') →
  actual s' = con_productos (actual s) (descontar ds (productos (actual s))).
Proof.
  revert s. induction ds as [|d ds IH]; intros s; simpl.
  - intros [= <-]. destruct (actual s). reflexivity.
  - intros Ha. apply ligar_normal in Ha as (p & s1 & Hq & Hk).
    pose proof (query_get_solo_fallos _ _ _ _ Hq) as (_ & Hb & _).
    apply query_get_valor in Hq.
    apply ligar_normal in Hk as ([] & s2 & Hu & Hk).
    destruct p as [p|]; [|discriminate Hu].
    injection Hu as <-. apply IH in Hk. rewrite Hk. simpl.
    unfold descontar_uno. rewrite <- Hq, Hb. reflexivity.
Qed.

End Pasos.

(** ** The sale as a whole *)

Lemma nuevo_id_positivo ids : 0 < nuevo_id ids.
Proof.
  unfold nuevo_id.
  assert (0 ≤ foldr Z.max 0 ids) by (induction ids; simpl; lia). lia.
Qed.

Lemma nuevo_id_fresco ids x : x ∈ ids → x < nuevo_id ids.
Proof.
  unfold nuevo_id. induction 1; simpl; lia.
Qed.

(** Assigning the total of the sale just added leaves the older sales
    alone. *)
Lemma asignar_total_ultima vs f c u t :
  let idv := nuevo_id (id_venta <$> vs) in
  (λ v, if decide (id_venta v = idv) then con_total t v else v)
    <$> (vs ++ [mkVenta idv f c u 0])
  = vs ++ [mkVenta idv f c u t].
Proof.
  intros idv. rewrite fmap_app. simpl.
  rewrite decide_True by reflexivity. f_equal.
  rewrite <- (list_fmap_id vs) at 2. apply list_fmap_ext.
  intros i v Hv. rewrite decide_False; [reflexivity|].
  assert (id_venta v < idv); [|lia].
  apply nuevo_id_fresco, list_elem_of_fmap. exists v. split; [reflexivity|].
  eapply list_elem_of_lookup_2, Hv.
Qed.

Section Venta.
Context {F : Type} `{Flotante F}.

Lemma alta_venta_normal c u f (ds : list (Detalle F)) s r s' :
  alta_venta c u f ds s = (Normal r, s') →
  let b := actual s in
  let idv := nuevo_id (id_venta <$> ventas b) in
  let t := total_lineas ds in
  ∃ A1 A2,
    r = mkResultado "success" "Venta registrada exitosamente" idv t
    ∧ confirmado s' = actual s'
    ∧ productos (actual s') = descontar ds (productos b)
    ∧ ventas (actual s') = ventas b ++ [mkVenta idv f c u (a_numeric t)]
    ∧ detalles (actual s') = agregar_detalles idv ds (detalles b)
    ∧ auditorias (actual s') =
        auditorias b ++ A1 ++
        [mkAuditoria (nuevo_id (id_auditoria <$> (auditorias b ++ A1)))
           "Venta" "INSERT" idv (ahora s - 5 * 3600) "system"
           (datos_venta c t)] ++ A2
    ∧ Forall es_de_producto A1 ∧ Forall es_de_producto A2.
Proof.
  intros Ha b idv t. unfold alta_venta in Ha.
  apply ligar_normal in Ha as (v & s1 & Hv & Ha).
  injection Hv as <- <-.
  apply ligar_normal in Ha as ([] & s2 & Hf & Ha).
  apply session_flush_normal in Hf as (A1 & Hb2 & HA1 & _ & Hah2).
  apply ligar_normal in Ha as (t' & s3 & Hi & Ha).
  rewrite insertar_detalles_eq in Hi. injection Hi as <- <-.
  apply ligar_normal in Ha as ([] & s4 & Ht & Ha).
  injection Ht as <-.
  apply ligar_normal in Ha as ([] & s5 & Hs & Ha).
  pose proof (actualizar_stock_mismo_confirmado _ _ _ _ Hs) as [_ Hah5].
  apply actualizar_stock_normal in Hs.
  apply ligar_normal in Ha as ([] & s6 & Hau & Ha).
  injection Hau as <-.
  apply ligar_normal in Ha as ([] & s7 & Hc & Ha).
  apply session_commit_normal in Hc as (A2 & Hb7 & HA2 & Hc7).
  injection Ha as <- <-.
  exists A1, A2. simpl in *.
  rewrite Hc7, Hb7, Hs, Hb2, Hah5, Hah2. simpl.
  rewrite (asignar_total_ultima (ventas (actual s))), <- !app_assoc.
  repeat split; assumption.
Qed.

Lemma lanza_de_respeta {A} (m : Op A) :
  respeta mismo_confirmado m → lanza_sin_confirmar m.
Proof. intros Hm s e s' Hs. eapply Hm, Hs. Qed.

Lemma lanza_ligar {A B} (m : Op A) (k : A → Op B) :
  respeta mismo_confirmado m → (∀ a, lanza_sin_confirmar (k a)) →
  lanza_sin_confirmar (ligar m k).
Proof.
  intros Hm Hk s e s'. unfold ligar.
  destruct (m s) as [[a|e1] s1] eqn:Em; intros Hs.
  - eapply mismo_confirmado_trans; [eapply Hm, Em | eapply Hk, Hs].
  - injection Hs as <- <-. eapply Hm, Em.
Qed.

Lemma lanza_ligar_ret {A B} (m : Op A) (b : A → B) :
  lanza_sin_confirmar m → lanza_sin_confirmar (ligar m (λ a, ret (b a))).
Proof.
  intros Hm s e s'. unfold ligar.
  destruct (m s) as [[a|e1] s1] eqn:Em; intros Hs; [discriminate Hs|].
  injection Hs as <- <-. eapply Hm, Em.
Qed.

Lemma session_commit_lanza : lanza_sin_confirmar session_commit.
Proof.
  unfold session_commit.
  apply lanza_ligar; [apply session_flush_mismo_confirmado | intros _].
  apply lanza_ligar; [eauto with marco | intros _].
  intros s e s' Hs. discriminate Hs.
Qed.

Lemma insertar_detalles_mismo_confirmado v (ds : list (Detalle F)) t :
  respeta mismo_confirmado (insertar_detalles v ds t).
Proof.
  intros s o s'. rewrite insertar_detalles_eq. intros [= <- <-].
  split; reflexivity.
Qed.

Lemma alta_venta_lanza c u f (ds : list (Detalle F)) :
  lanza_sin_confirmar (alta_venta c u f ds).
Proof.
  unfold alta_venta.
  apply lanza_ligar; [apply add_venta_mismo_confirmado | intros v].
  apply lanza_ligar; [apply session_flush_mismo_confirmado | intros _].
  apply lanza_ligar; [apply insertar_detalles_mismo_confirmado | intros t].
  apply lanza_ligar; [apply asignar_total_mismo_confirmado | intros _].
  apply lanza_ligar; [apply actualizar_stock_mismo_confirmado | intros _].
  apply lanza_ligar; [apply add_auditoria_mismo_confirmado | intros _].
  apply (lanza_ligar_ret session_commit), session_commit_lanza.
Qed.

Lemma fecha_efectiva_eq (fecha : option Z) s :
  match fecha with
  | None => t <- hora_peru ;; ret (date t)
  | Some f => ret f
  end s = (Normal (fecha_efectiva fecha s), s).
Proof. destruct fecha; reflexivity. Qed.

Lemma cuerpo_venta_lanza c u fecha (ds : list (Detalle F)) :
  lanza_sin_confirmar (cuerpo_venta c u fecha ds).
Proof.
  unfold cuerpo_venta.
  apply lanza_ligar; [|intros f].
  { intros s o s'. rewrite fecha_efectiva_eq. intros [= <- <-].
    split; reflexivity. }
  apply lanza_ligar; [|intros [r|]].
  - eapply respeta_mono;
      [apply solo_fallos_mismo_confirmado | apply verificar_stock_solo_fallos].
  - intros s e s' Hs. discriminate Hs.
  - apply alta_venta_lanza.
Qed.

(** The try body ends normally either on an early return of the
    validation, which touched nothing, or at the end of steps 2 to 7. *)
Lemma cuerpo_venta_normal c u fecha (ds : list (Detalle F)) s r s' :
  cuerpo_venta c u fecha ds s = (Normal r, s') →
  ((∃ m, r = resultado_error m) ∧ solo_fallos s s')
  ∨ (∃ s1, solo_fallos s s1 ∧ lineas_validas (productos (actual s)) ds
           ∧ alta_venta c u (fecha_efectiva fecha s) ds s1 = (Normal r, s')).
Proof.
  unfold cuerpo_venta. intros Hc.
  apply ligar_normal in Hc as (f & s0 & Hf & Hc).
  rewrite fecha_efectiva_eq in Hf. injection Hf as <- <-.
  apply ligar_normal in Hc as (rechazo & s1 & Hv & Hc).
  pose proof (verificar_stock_solo_fallos _ _ _ _ Hv) as Hs1.
  destruct rechazo as [r'|].
  - left. injection Hc as <- <-.
    split; [eapply verificar_stock_some, Hv | exact Hs1].
  - right. exists s1. split; [exact Hs1|].
    split; [eapply verificar_stock_none, Hv | exact Hc].
Qed.

Lemma registrar_venta_eq c u fecha (dps : option (list (Detalle F))) :
  registrar_venta c u fecha dps
  = try_except (cuerpo_venta c u fecha (default [] dps)) manejador.
Proof. reflexivity. Qed.

(** The ways [registrar_venta] ends: rejected by the validation, sale
    committed, rolled back after an exception of the try body, or, when
    that rollback raises as well, with the exception of the rollback. *)
Lemma registrar_venta_casos c u fecha (dps : option (list (Detalle F)))
    s o s' :
  registrar_venta c u fecha dps s = (o, s') →
  (∃ r, o = Normal r
        ∧ (((∃ m, r = resultado_error m) ∧ solo_fallos s s')
           ∨ (∃ s1, solo_fallos s s1
                ∧ lineas_validas (productos (actual s)) (default [] dps)
                ∧ alta_venta c u (fecha_efectiva fecha s) (default [] dps) s1
                  = (Normal r, s'))
           ∨ ((∃ e, r = resultado_error ("Error al registrar venta: " +:+ e))
              ∧ confirmado s' = confirmado s ∧ actual s' = confirmado s)))
  ∨ (∃ e, o = Excepcion e ∧ confirmado s' = confirmado s).
Proof.
  rewrite registrar_venta_eq. unfold try_except.
  destruct (cuerpo_venta c u fecha (default [] dps) s) as [[r|e] s1] eqn:Ec.
  - intros [= <- <-]. left. exists r. split; [reflexivity|].
    apply cuerpo_venta_normal in Ec as [Hr|Hr]; [left | right; left]; exact Hr.
  - apply cuerpo_venta_lanza in Ec as [Hc _]. unfold manejador, ligar.
    destruct (session_rollback s1) as [[[]|e'] s2] eqn:Er; intros [= <- <-].
    + apply session_rollback_normal in Er as (Hc2 & Hb2 & _).
      left. eexists. split; [reflexivity|]. right; right.
      split; [eauto|]. split; congruence.
    + apply session_rollback_mismo_confirmado in Er as [Hc2 _].
      right. exists e'. split; [reflexivity | congruence].
Qed.

(** *** Runs without persistence faults *)

Lemma session_flush_ok s :
  sin_fallos s → ∃ s', session_flush s = (Normal tt, s') ∧ sin_fallos s'.
Proof.
  intros Hs. destruct (persistencia_normal s Hs) as [s1 Hp].
  pose proof (persistencia_sin_fallos _ _ _ Hp Hs) as Hs1.
  unfold session_flush. rewrite (ligar_paso _ _ _ _ _ Hp).
  unfold ligar at 1. simpl. unfold ligar at 1. simpl.
  match goal with |- context [disparar_after_update ?ids ?s2] =>
    destruct (disparar_eq ids s2) as (A & -> & _) end.
  eexists. split; [reflexivity | exact Hs1].
Qed.

Lemma session_commit_ok s :
  sin_fallos s → ∃ s', session_commit s = (Normal tt, s') ∧ sin_fallos s'.
Proof.
  intros Hs. destruct (session_flush_ok s Hs) as (s1 & Hf & Hs1).
  destruct (persistencia_normal s1 Hs1) as [s2 Hp].
  pose proof (persistencia_sin_fallos _ _ _ Hp Hs1) as Hs2.
  unfold session_commit.
  rewrite (ligar_paso _ _ _ _ _ Hf), (ligar_paso _ _ _ _ _ Hp).
  eexists. split; [reflexivity | exact Hs2].
Qed.

Lemma verificar_stock_ok (ds : list (Detalle F)) s :
  sin_fallos s → lineas_validas (productos (actual s)) ds →
  ∃ s', verificar_stock ds s = (Normal None, s') ∧ sin_fallos s'
        ∧ solo_fallos s s'.
Proof.
  revert s. induction ds as [|d ds IH]; intros s Hs Hv; simpl.
  - exists s. repeat split. exact Hs.
  - apply Forall_cons in Hv as [(p & Hp & Hst) Hv].
    destruct (query_get_normal (d_id_producto d) s Hs) as [s1 Hq].
    pose proof (query_get_sin_fallos _ _ _ _ Hq Hs) as Hs1.
    pose proof (query_get_solo_fallos _ _ _ _ Hq) as Hf1.
    rewrite (ligar_paso _ _ _ _ _ Hq), Hp.
    rewrite decide_False by lia.
    destruct (IH s1 Hs1) as (s' & He & Hs' & Hf').
    { destruct Hf1 as (_ & -> & _). exact Hv. }
    exists s'. split; [exact He|]. split; [exact Hs'|].
    eapply solo_fallos_trans; eassumption.
Qed.

(** The first line whose stock is short is the one reported. *)
Lemma verificar_stock_rechaza (pre post : list (Detalle F)) d p s :
  sin_fallos s → lineas_validas (productos (actual s)) pre →
  productos (actual s) !! d_id_producto d = Some p → stock p < cant d →
  ∃ s', verificar_stock (pre ++ d :: post) s
          = (Normal (Some (resultado_error (mensaje_stock p d))), s')
        ∧ solo_fallos s s'.
Proof.
  revert s. induction pre as [|d0 pre IH]; intros s Hs Hv Hp Hst; simpl.
  - destruct (query_get_normal (d_id_producto d) s Hs) as [s1 Hq].
    rewrite (ligar_paso _ _ _ _ _ Hq), Hp.
    rewrite decide_True by exact Hst.
    exists s1. split; [reflexivity | eapply query_get_solo_fallos, Hq].
  - apply Forall_cons in Hv as [(p0 & Hp0 & Hst0) Hv].
    destruct (query_get_normal (d_id_producto d0) s Hs) as [s1 Hq].
    pose proof (query_get_sin_fallos _ _ _ _ Hq Hs) as Hs1.
    pose proof (query_get_solo_fallos _ _ _ _ Hq) as Hf1.
    rewrite (ligar_paso _ _ _ _ _ Hq), Hp0.
    rewrite decide_False by lia.
    destruct (IH s1 Hs1) as (s' & He & Hf').
    { destruct Hf1 as (_ & -> & _). exact Hv. }
    { destruct Hf1 as (_ & -> & _). exact Hp. }
    { exact Hst. }
    exists s'. split; [exact He|]. eapply solo_fallos_trans; eassumption.
Qed.

Lemma descontar_uno_dom (m : gmap Z Producto) (d : Detalle F) id :
  is_Some (descontar_uno m d !! id) ↔ is_Some (m !! id).
Proof.
  unfold descontar_uno. destruct (m !! d_id_producto d) as [p|]; [|tauto].
  rewrite lookup_alter. case_decide; [subst|tauto].
  rewrite fmap_is_Some. tauto.
Qed.

Lemma actualizar_stock_ok (ds : list (Detalle F)) s :
  sin_fallos s →
  Forall (λ d, is_Some (productos (actual s) !! d_id_producto d)) ds →
  ∃ s', actualizar_stock ds s = (Normal tt, s') ∧ sin_fallos s'.
Proof.
  revert s. induction ds as [|d ds IH]; intros s Hs Hv; simpl.
  - exists s. split; [reflexivity | exact Hs].
  - apply Forall_cons in Hv as [[p Hp] Hv].
    destruct (query_get_normal (d_id_producto d) s Hs) as [s1 Hq].
    pose proof (query_get_sin_fallos _ _ _ _ Hq Hs) as Hs1.
    pose proof (query_get_solo_fallos _ _ _ _ Hq) as (_ & Hb & _).
    rewrite (ligar_paso _ _ _ _ _ Hq), Hp.
    unfold ligar at 1. simpl. apply IH; [exact Hs1|]. simpl.
    rewrite Hb. eapply Forall_impl; [exact Hv|]. intros d' Hd'. simpl.
    rewrite lookup_alter. case_decide; [subst|exact Hd'].
    rewrite fmap_is_Some. eauto.
Qed.

Lemma lineas_validas_existen (m : gmap Z Producto) (ds : list (Detalle F)) :
  lineas_validas m ds → Forall (λ d, is_Some (m !! d_id_producto d)) ds.
Proof.
  intros Hv. eapply Forall_impl; [exact Hv|].
  intros d (p & Hp & _). eauto.
Qed.

(** Steps 2 to 7 go through when nothing fails underneath and the
    products are there. *)
Lemma alta_venta_ok c u f (ds : list (Detalle F)) s :
  sin_fallos s →
  Forall (λ d, is_Some (productos (actual s) !! d_id_producto d)) ds →
  ∃ r s', alta_venta c u f ds s = (Normal r, s') ∧ sin_fallos s'.
Proof.
  intros Hs Hv. unfold alta_venta.
  unfold ligar at 1. simpl.
  match goal with |- context [ligar session_flush _ ?s1] =>
    destruct (session_flush_ok s1) as (s2 & Hf & Hs2); [exact Hs|];
    pose proof (session_flush_normal _ _ Hf) as (A1 & Hb2 & _) end.
  rewrite (ligar_paso _ _ _ _ _ Hf).
  unfold ligar at 1. rewrite insertar_detalles_eq.
  unfold ligar at 1. simpl.
  match goal with |- context [ligar (actualizar_stock ds) _ ?s4] =>
    destruct (actualizar_stock_ok ds s4) as (s5 & Ha & Hs5);
      [exact Hs2 | |] end.
  { simpl. rewrite Hb2. exact Hv. }
  rewrite (ligar_paso _ _ _ _ _ Ha).
  unfold ligar at 1. simpl.
  match goal with |- context [ligar session_commit _ ?s6] =>
    destruct (session_commit_ok s6) as (s7 & Hc & Hs7); [exact Hs5|] end.
  rewrite (ligar_paso _ _ _ _ _ Hc). eauto.
Qed.

End Venta.

(** ** Faults and the schedule *)

Lemma traza_normal {A} (a : A) s s' :
  fallos s' = fallos s → traza s (Normal a) s'.
Proof. intros Hf. exists []. rewrite Hf. split; [constructor | reflexivity]. Qed.

Lemma traza_seguida {A B} (a : A) (o : Salida B) s s1 s' :
  traza s (Normal a) s1 → traza s1 o s' → traza s o s'.
Proof.
  intros (pre1 & Hp1 & H1) (pre2 & Hp2 & H2). simpl in H1.
  exists (pre1 ++ pre2). split; [apply Forall_app; auto|].
  rewrite H1, H2, <- app_assoc. reflexivity.
Qed.

Lemma traza_excepcion {A B} e s s' :
  traza s (@Excepcion A e) s' → traza s (@Excepcion B e) s'.
Proof. intros Ht. exact Ht. Qed.

(** Sequencing, with what is known of the state after the first step. *)
Lemma traza_ligar {A B} (m : Op A) (k : A → Op B) s o s' :
  (∀ o1 s1, m s = (o1, s1) → traza s o1 s1) →
  (∀ a s1, m s = (Normal a, s1) → ∀ o2 s2, k a s1 = (o2, s2) → traza s1 o2 s2) →
  ligar m k s = (o, s') → traza s o s'.
Proof.
  intros Hm Hk. unfold ligar.
  destruct (m s) as [[a|e] s1] eqn:Em; intros Hs.
  - eapply traza_seguida; [eapply Hm; reflexivity | eapply Hk; eauto].
  - injection Hs as <- <-. eapply (traza_excepcion (A := A)), Hm. reflexivity.
Qed.

Lemma consume_ligar {A B} (m : Op A) (k : A → Op B) :
  consume m → (∀ a, consume (k a)) → consume (ligar m k).
Proof.
  intros Hm Hk s o s'. apply traza_ligar.
  - intros o1 s1. apply Hm.
  - intros a s1 _ o2 s2. apply Hk.
Qed.

Lemma consume_ret {A} (a : A) : consume (ret a).
Proof. intros s o s' [= <- <-]. apply traza_normal. reflexivity. Qed.

Lemma consume_leer {A} (f : Sesion → A) : consume (leer f).
Proof. intros s o s' [= <- <-]. apply traza_normal. reflexivity. Qed.

Lemma consume_modificar (f : Sesion → Sesion) :
  (∀ s, fallos (f s) = fallos s) → consume (modificar f).
Proof. intros Hf s o s' [= <- <-]. apply traza_normal, Hf. Qed.

Lemma consume_persistencia : consume persistencia.
Proof.
  intros s o s'. unfold persistencia, traza.
  destruct (fallos s) as [|[e|] fs] eqn:Ef; intros [= <- <-]; simpl.
  - exists []. rewrite Ef. split; [constructor | reflexivity].
  - exists []. split; [constructor | reflexivity].
  - exists [None]. split; [repeat constructor | reflexivity].
Qed.

Create HintDb consumo.

#[local] Hint Resolve consume_ret consume_leer consume_persistencia
  : consumo.

(** Breaks a goal on the schedule along the structure of the
    computation. *)
Ltac consumo :=
  repeat first
    [ solve [eauto with consumo]
    | apply consume_ligar
    | apply consume_modificar; intros ?; reflexivity
    | match goal with |- ∀ _, _ => intro end ].

Lemma consume_query_get id : consume (query_get id).
Proof. unfold query_get. consumo. Qed.

Lemma consume_add_venta f c u t : consume (session_add_venta f c u t).
Proof. intros s o s' [= <- <-]. apply traza_normal. reflexivity. Qed.

Lemma consume_add_auditoria t a i u d :
  consume (session_add_auditoria t a i u d).
Proof. intros s o s' [= <- <-]. apply traza_normal. reflexivity. Qed.

Lemma consume_asignar_total id t : consume (asignar_total id t).
Proof. unfold asignar_total. consumo. Qed.

Lemma consume_actualizar_producto id f : consume (actualizar_producto id f).
Proof. unfold actualizar_producto. consumo. Qed.

#[local] Hint Resolve consume_query_get consume_add_venta
  consume_add_auditoria consume_asignar_total consume_actualizar_producto
  : consumo.

Lemma consume_disparar ids : consume (disparar_after_update ids).
Proof.
  induction ids as [|id ids IH]; simpl; [consumo|].
  consumo. unfold auditoria_producto_update. destruct a; consumo.
Qed.

#[local] Hint Resolve consume_disparar : consumo.

Lemma consume_session_flush : consume session_flush.
Proof. unfold session_flush. consumo. Qed.

#[local] Hint Resolve consume_session_flush : consumo.

Lemma consume_session_commit : consume session_commit.
Proof. unfold session_commit. consumo. Qed.

Lemma consume_session_rollback : consume session_rollback.
Proof. unfold session_rollback, descartar. consumo. Qed.

#[local] Hint Resolve consume_session_commit consume_session_rollback
  : consumo.

(** Two readings of one schedule up to its first fault agree. *)
Lemma primer_fallo (pre1 pre2 : list (option string)) e1 e2 r1 r2 :
  Forall (λ f, f = None) pre1 → Forall (λ f, f = None) pre2 →
  pre1 ++ Some e1 :: r1 = pre2 ++ Some e2 :: r2 →
  pre1 = pre2 ∧ e1 = e2 ∧ r1 = r2.
Proof.
  revert pre2. induction pre1 as [|f1 pre1 IH]; intros [|f2 pre2] H1 H2 Heq;
    simpl in Heq.
  - injection Heq as <- <-. auto.
  - injection Heq as <- _. apply Forall_inv in H2. discriminate H2.
  - injection Heq as -> _. apply Forall_inv in H1. discriminate H1.
  - injection Heq as <- Heq.
    apply Forall_inv_tail in H1. apply Forall_inv_tail in H2.
    destruct (IH _ H1 H2 Heq) as (-> & -> & ->). auto.
Qed.

(** Round trips that went through have not reached the first fault. *)
Lemma fallo_pendiente (pre1 pre2 : list (option string)) e r1 r2 :
  Forall (λ f, f = None) pre1 → Forall (λ f, f = None) pre2 →
  pre1 ++ r1 = pre2 ++ Some e :: r2 →
  ∃ pre', Forall (λ f, f = None) pre' ∧ r1 = pre' ++ Some e :: r2.
Proof.
  revert pre2. induction pre1 as [|f1 pre1 IH]; intros pre2 H1 H2 Heq;
    simpl in Heq.
  - exists pre2. auto.
  - destruct pre2 as [|f2 pre2]; simpl in Heq.
    + injection Heq as -> _. apply Forall_inv in H1. discriminate H1.
    + injection Heq as _ Heq.
      apply Forall_inv_tail in H1. apply Forall_inv_tail in H2.
      exact (IH _ H1 H2 Heq).
Qed.

Section FallosDeLaVenta.
Context {F : Type} `{Flotante F}.

Lemma consume_verificar_stock (ds : list (Detalle F)) :
  consume (verificar_stock ds).
Proof.
  induction ds as [|d ds IH]; simpl; [consumo|].
  consumo. destruct a as [p|]; [case_decide|]; consumo.
Qed.

Lemma consume_insertar_detalles v (ds : list (Detalle F)) t :
  consume (insertar_detalles v ds t).
Proof.
  intros s o s'. rewrite insertar_detalles_eq. intros [= <- <-].
  apply traza_normal. reflexivity.
Qed.

(** Step 5 raises nothing of its own when the products of the request are
    there: the [AttributeError] on a missing product cannot happen after
    the validation. *)
Lemma actualizar_stock_traza (ds : list (Detalle F)) s o s' :
  Forall (λ d, is_Some (productos (actual s) !! d_id_producto d)) ds →
  actualizar_stock ds s = (o, s') → traza s o s'.
Proof.
  revert s o s'. induction ds as [|d ds IH]; intros s o s' Hv; simpl.
  - apply consume_ret.
  - apply Forall_cons in Hv as [[p Hp] Hv].
    apply traza_ligar; [intros o1 s1; apply consume_query_get|].
    intros p' s1 Hq o2 s2.
    pose proof (query_get_solo_fallos _ _ _ _ Hq) as (_ & Hb & _).
    apply query_get_valor in Hq. rewrite Hp in Hq. subst p'.
    apply traza_ligar;
      [intros o1 s3; apply consume_actualizar_producto|].
    intros [] s3 [= <-] o3 s4. apply IH. simpl. rewrite Hb.
    eapply Forall_impl; [exact Hv|]. intros d' Hd'. simpl.
    rewrite lookup_alter. case_decide; [subst|exact Hd'].
    rewrite fmap_is_Some. eauto.
Qed.

Lemma alta_venta_traza c u f (ds : list (Detalle F)) s o s' :
  Forall (λ d, is_Some (productos (actual s) !! d_id_producto d)) ds →
  alta_venta c u f ds s = (o, s') → traza s o s'.
Proof.
  intros Hv. unfold alta_venta.
  apply traza_ligar; [intros o1 s1; apply consume_add_venta|].
  intros v s1 [= <- <-] o2 s2.
  apply traza_ligar; [intros o1 s3; apply consume_session_flush|].
  intros [] s3 Hf o3 s4. apply session_flush_normal in Hf as (A1 & Hb3 & _).
  apply traza_ligar; [intros o1 s5; apply consume_insertar_detalles|].
  intros t s5 Hi o5 s6. rewrite insertar_detalles_eq in Hi.
  injection Hi as <- <-.
  apply traza_ligar; [intros o1 s7; apply consume_asignar_total|].
  intros [] s7 [= <-] o7 s8.
  apply traza_ligar.
  { intros o1 s9. apply actualizar_stock_traza. simpl. rewrite Hb3. exact Hv. }
  intros [] s9 _ o9 s10.
  apply traza_ligar; [intros o1 s11; apply consume_add_auditoria|].
  intros [] s11 _ o11 s12.
  apply traza_ligar; [intros o1 s13; apply consume_session_commit|].
  intros [] s13 _ o13 s14. apply consume_ret.
Qed.

(** Every exception of the try body is a fault of the schedule. *)
Lemma consume_cuerpo_venta c u fecha (ds : list (Detalle F)) :
  consume (cuerpo_venta c u fecha ds).
Proof.
  intros s o s'. unfold cuerpo_venta.
  apply traza_ligar.
  { intros o1 s1. rewrite fecha_efectiva_eq. intros [= <- <-].
    apply traza_normal. reflexivity. }
  intros f s0 Hf o0 s0'. rewrite fecha_efectiva_eq in Hf.
  injection Hf as <- <-.
  apply traza_ligar; [intros o1 s1; apply consume_verificar_stock|].
  intros [r|] s1 Hver o2 s2; [apply consume_ret|].
  pose proof (verificar_stock_solo_fallos _ _ _ _ Hver) as (_ & Hb & _).
  apply verificar_stock_none in Hver.
  apply alta_venta_traza. rewrite Hb.
  apply lineas_validas_existen, Hver.
Qed.

(** The message of a result of the try body is never empty. *)
Lemma verificar_stock_mensaje (ds : list (Detalle F)) s r s' :
  verificar_stock ds s = (Normal (Some r), s') → mensaje r ≠ "".
Proof.
  revert s. induction ds as [|d ds IH]; intros s; simpl; [discriminate|].
  intros Hv. apply ligar_normal in Hv as (p & s1 & Hq & Hk).
  destruct p as [p|].
  - case_decide; [|eapply IH, Hk]. injection Hk as <- <-. discriminate.
  - injection Hk as <- <-. discriminate.
Qed.

Lemma cuerpo_venta_mensaje c u fecha (ds : list (Detalle F)) s r s' :
  cuerpo_venta c u fecha ds s = (Normal r, s') → mensaje r ≠ "".
Proof.
  unfold cuerpo_venta. intros Hc.
  apply ligar_normal in Hc as (f & s0 & _ & Hc).
  apply ligar_normal in Hc as (rechazo & s1 & Hv & Hc).
  destruct rechazo as [r'|].
  - injection Hc as <- <-. eapply verificar_stock_mensaje, Hv.
  - apply alta_venta_normal in Hc as (A1 & A2 & -> & _). discriminate.
Qed.

End FallosDeLaVenta.

(** ** Properties of [registrar_venta] *)

Section Propiedades.
Context {F : Type} `{Flotante F}.


(** On an error result nothing was committed, whatever the session held
    before, and the view is either untouched or back at the committed
    state. *)
Lemma registrar_venta_error_confirmado c u fecha
    (dps : option (list (Detalle F))) s r s' :
  registrar_venta c u fecha dps s = (Normal r, s') →
  status r = "error" →
  confirmado s' = confirmado s
  ∧ (actual s' = actual s ∨ actual s' = confirmado s).
Proof.
  intros Hr Hst.
  apply registrar_venta_casos in Hr
    as [(r0 & [= <-] & Hcasos) | (e & [=] & _)].
  destruct Hcasos as [[_ Hf] | [(s1 & _ & _ & Ha) | (_ & Hc & Hb)]].
  - destruct Hf as (Hc & Hb & _). auto.
  - apply alta_venta_normal in Ha as (A1 & A2 & -> & _). discriminate Hst.
  - auto.
Qed.

(** C3. When a call on a session without uncommitted changes returns an
    error result, be it a rejection by the validation or an exception
    raised anywhere in the sequence, the database is what it was before
    the call, in the view and on disk: same number of sales, of line
    items and of audit entries, same stock for every product. *)
Theorem registrar_venta_error_sin_cambios c u fecha
    (dps : option (list (Detalle F))) s r s' :
  sesion_limpia s →
  registrar_venta c u fecha dps s = (Normal r, s') →
  status r = "error" →
  actual s' = actual s ∧ confirmado s' = confirmado s
  ∧ conteos (actual s') = conteos (actual s)
  ∧ conteos (confirmado s') = conteos (confirmado s).
Proof.
  intros Hl Hr Hst. unfold sesion_limpia in Hl.
  destruct (registrar_venta_error_confirmado _ _ _ _ _ _ _ Hr Hst)
    as [Hc Hb].
  assert (actual s' = actual s) as Hb' by (destruct Hb; congruence).
  rewrite Hb', Hc. auto.
Qed.

Lemma primera_linea_corta (m : gmap Z Producto) (ds : list (Detalle F)) :
  Forall (λ d, is_Some (m !! d_id_producto d)) ds →
  Exists (λ d, ∃ p, m !! d_id_producto d = Some p ∧ stock p < cant d) ds →
  ∃ pre d post p,
    ds = pre ++ d :: post ∧ lineas_validas m pre
    ∧ m !! d_id_producto d = Some p ∧ stock p < cant d.
Proof.
  induction ds as [|d ds IH]; intros Hex Hcorta.
  - apply Exists_nil in Hcorta. contradiction.
  - apply Forall_cons in Hex as [[p Hp] Hex].
    destruct (decide (stock p < cant d)) as [Hst|Hst].
    + exists [], d, ds, p. repeat split; [constructor | exact Hp | exact Hst].
    + apply Exists_cons in Hcorta as [(p' & Hp' & Hst') | Hcorta].
      { rewrite Hp in Hp'. injection Hp' as <-. contradiction. }
      destruct (IH Hex Hcorta) as (pre & d' & post & p' & -> & Hv & Hp' & Hs').
      exists (d :: pre), d', post, p'. repeat split; try assumption.
      constructor; [|exact Hv]. exists p. split; [exact Hp | lia].
Qed.

(** The validation stops at the first line that asks for more than there
    is, and the call returns its message without touching anything. *)
Lemma rechazo_por_stock c u fecha (ds : list (Detalle F)) s :
  sin_fallos s →
  Forall (λ d, is_Some (productos (actual s) !! d_id_producto d)) ds →
  Exists (λ d, ∃ p, productos (actual s) !! d_id_producto d = Some p
                    ∧ stock p < cant d) ds →
  ∃ pre d post p s',
    ds = pre ++ d :: post
    ∧ lineas_validas (productos (actual s)) pre
    ∧ productos (actual s) !! d_id_producto d = Some p ∧ stock p < cant d
    ∧ registrar_venta c u fecha (Some ds) s
      = (Normal (mkResultado "error" (mensaje_stock p d) 0 (f_entero 0)), s')
    ∧ actual s' = actual s ∧ confirmado s' = confirmado s.
Proof.
  intros Hs Hex Hcorta.
  destruct (primera_linea_corta _ _ Hex Hcorta)
    as (pre & d & post & p & -> & Hv & Hp & Hst).
  destruct (verificar_stock_rechaza pre post d p s Hs Hv Hp Hst)
    as (s' & He & Hc & Hb & _).
  exists pre, d, post, p, s'. repeat split; try assumption.
  rewrite registrar_venta_eq. unfold try_except, cuerpo_venta. simpl.
  unfold ligar at 1. rewrite fecha_efectiva_eq.
  rewrite (ligar_paso _ _ _ _ _ He). reflexivity.
Qed.

(** C6. When no persistence fault occurs, every product of the request
    exists and some line asks for more than the stock of its product, the
    call returns an error result, with sale id 0 and total 0, whose message
    reads "Stock insuficiente para '<name>' (ID: <id>). Solicitado: <asked>,
    Disponible: <stock>" for the first such line: the name and the id of
    its product, the quantity the line asks for and the stock there is.
    The whole order is rejected, whatever the other lines are: the view
    and the committed state are unchanged. *)
Theorem stock_insuficiente_rechaza_todo c u fecha (ds : list (Detalle F)) s :
  sin_fallos s →
  Forall (λ d, is_Some (productos (actual s) !! d_id_producto d)) ds →
  Exists (λ d, ∃ p, productos (actual s) !! d_id_producto d = Some p
                    ∧ stock p < cant d) ds →
  ∃ pre d post p r s',
    ds = pre ++ d :: post
    ∧ lineas_validas (productos (actual s)) pre
    ∧ productos (actual s) !! d_id_producto d = Some p ∧ stock p < cant d
    ∧ registrar_venta c u fecha (Some ds) s = (Normal r, s')
    ∧ status r = "error" ∧ venta_id r = 0 ∧ total_venta r = f_entero 0
    ∧ mensaje r
      = "Stock insuficiente para '" +:+ nombre_producto p +:+ "' (ID: "
        +:+ pretty (id_producto p) +:+ "). Solicitado: " +:+ pretty (cant d)
        +:+ ", Disponible: " +:+ pretty (stock p)
    ∧ actual s' = actual s ∧ confirmado s' = confirmado s.
Proof.
  intros Hs Hex Hcorta.
  destruct (rechazo_por_stock c u fecha ds s Hs Hex Hcorta)
    as (pre & d & post & p & s' & Hds & Hv & Hp & Hst & Hr & Hb & Hc).
  exists pre, d, post, p. eexists _, s'.
  split; [exact Hds|]. split; [exact Hv|]. split; [exact Hp|].
  split; [exact Hst|]. split; [exact Hr|]. simpl.
  split; [reflexivity|]. split; [reflexivity|]. split; [reflexivity|].
  split; [reflexivity|]. split; [exact Hb | exact Hc].
Qed.

(** What a successful call leaves behind, table by table, measured from
    the view at the moment of the call. *)
Lemma registrar_venta_exito c u fecha (dps : option (list (Detalle F)))
    s r s' :
  registrar_venta c u fecha dps s = (Normal r, s') →
  status r = "success" →
  let ds := default [] dps in
  let b := actual s in
  let idv := nuevo_id (id_venta <$> ventas b) in
  let t := total_lineas ds in
  ∃ A1 A2,
    r = mkResultado "success" "Venta registrada exitosamente" idv t
    ∧ confirmado s' = actual s'
    ∧ lineas_validas (productos b) ds
    ∧ productos (actual s') = descontar ds (productos b)
    ∧ ventas (actual s')
      = ventas b ++ [mkVenta idv (fecha_efectiva fecha s) c u (a_numeric t)]
    ∧ detalles (actual s') = agregar_detalles idv ds (detalles b)
    ∧ auditorias (actual s') =
        auditorias b ++ A1 ++
        [mkAuditoria (nuevo_id (id_auditoria <$> (auditorias b ++ A1)))
           "Venta" "INSERT" idv (ahora s - 5 * 3600) "system"
           (datos_venta c t)] ++ A2
    ∧ Forall es_de_producto A1 ∧ Forall es_de_producto A2.
Proof.
  intros Hr Hst ds b idv t.
  apply registrar_venta_casos in Hr
    as [(r0 & [= <-] & Hcasos) | (e & [=] & _)].
  destruct Hcasos as [[[m ->] _] | [(s1 & Hf & Hv & Ha) | [[m ->] _]]];
    [discriminate Hst | | discriminate Hst].
  destruct Hf as (_ & Hb & _ & Hah).
  apply alta_venta_normal in Ha. simpl in Ha. rewrite Hb, Hah in Ha.
  destruct Ha as (A1 & A2 & Hr' & Hc & Hp & Hvs & Hd & Hau & HA1 & HA2).
  exists A1, A2. repeat split; assumption.
Qed.

(** The rows a successful call appends to [DetalleVenta], and the total
    it returns. *)
Lemma registrar_venta_filas c u fecha (ds : list (Detalle F)) s r s' :
  registrar_venta c u fecha (Some ds) s = (Normal r, s') →
  status r = "success" →
  ∃ nuevas,
    detalles (confirmado s') = detalles (actual s) ++ nuevas
    ∧ Forall2 (fila_de (venta_id r)) nuevas ds
    ∧ total_venta r = total_lineas ds.
Proof.
  intros Hr Hst.
  destruct (registrar_venta_exito _ _ _ _ _ _ _ Hr Hst)
    as (A1 & A2 & -> & Hc & _ & _ & _ & Hd & _).
  simpl in *.
  destruct (agregar_detalles_filas
              (nuevo_id (id_venta <$> ventas (actual s))) ds
              (detalles (actual s))) as (nuevas & Hn & Hf).
  exists nuevas. rewrite Hc, Hd. auto.
Qed.

(** C1 (amended). On every successful call each new line item records,
    for the new sale, the product id and the quantity of its request line
    and, as unit price, the price that the request line carries, as the
    [Numeric] column stores it; the returned total is the sum over the
    request lines of [float(cant) * precio] with that same price. The
    price of the product row is not consulted. *)
Theorem registrar_venta_precio_de_la_linea c u fecha (ds : list (Detalle F))
    s r s' :
  registrar_venta c u fecha (Some ds) s = (Normal r, s') →
  status r = "success" →
  ∃ nuevas,
    detalles (confirmado s') = detalles (actual s) ++ nuevas
    ∧ Forall2 (fila_de (venta_id r)) nuevas ds
    ∧ total_venta r = total_lineas ds.
Proof. apply registrar_venta_filas. Qed.

(** C5 (amended). Every successful call adds exactly one sale, for the
    given customer and with the returned total, one line item per request
    line, and an audit entry of table "Venta" and action "INSERT" for the
    new sale whose text holds the customer id and the total with two
    decimals; whatever else joins the audit log is about [Producto]. *)
Theorem registrar_venta_una_venta_n_lineas c u fecha
    (ds : list (Detalle F)) s r s' :
  registrar_venta c u fecha (Some ds) s = (Normal r, s') →
  status r = "success" →
  ∃ v nuevas A1 a A2,
    ventas (confirmado s') = ventas (actual s) ++ [v]
    ∧ id_venta v = venta_id r ∧ v_id_cliente v = c ∧ v_id_usuario v = u
    ∧ total v = a_numeric (total_venta r)
    ∧ detalles (confirmado s') = detalles (actual s) ++ nuevas
    ∧ length nuevas = length ds
    ∧ auditorias (confirmado s') = auditorias (actual s) ++ A1 ++ [a] ++ A2
    ∧ tabla a = "Venta" ∧ accion a = "INSERT"
    ∧ id_registro a = venta_id r
    ∧ datos a = datos_venta c (total_venta r)
    ∧ Forall es_de_producto (A1 ++ A2).
Proof.
  intros Hr Hst.
  destruct (registrar_venta_exito _ _ _ _ _ _ _ Hr Hst)
    as (A1 & A2 & -> & Hc & _ & _ & Hv & Hd & Ha & HA1 & HA2).
  simpl in *.
  destruct (agregar_detalles_filas
              (nuevo_id (id_venta <$> ventas (actual s))) ds
              (detalles (actual s))) as (nuevas & Hn & Hf).
  eexists _, nuevas, A1, _, A2. rewrite Hc, Hv, Hd, Ha.
  split; [reflexivity|]. simpl. repeat split; try reflexivity.
  - exact Hn.
  - eapply Forall2_length, Hf.
  - apply Forall_app. auto.
Qed.

(** C4 (amended). A call with an empty request, or with none, on a
    session where no persistence fault occurs returns "success" with total
    [0]: it adds one sale with no line item and changes no product. *)
Theorem pedido_vacio_registra_venta c u fecha
    (dps : option (list (Detalle F))) s :
  sin_fallos s →
  default [] dps = [] →
  ∃ s',
    registrar_venta c u fecha dps s
    = (Normal (mkResultado "success" "Venta registrada exitosamente"
                 (nuevo_id (id_venta <$> ventas (actual s))) (f_entero 0)),
       s')
    ∧ ventas (confirmado s')
      = ventas (actual s)
        ++ [mkVenta (nuevo_id (id_venta <$> ventas (actual s)))
              (fecha_efectiva fecha s) c u (a_numeric (f_entero 0))]
    ∧ detalles (confirmado s') = detalles (actual s)
    ∧ productos (confirmado s') = productos (actual s).
Proof.
  intros Hs Hds.
  assert (∃ r s', registrar_venta c u fecha dps s = (Normal r, s')
                  ∧ status r = "success") as (r & s' & Hr & Hst).
  { rewrite registrar_venta_eq, Hds. unfold try_except, cuerpo_venta.
    unfold ligar at 1. rewrite fecha_efectiva_eq. unfold ligar at 1. simpl.
    destruct (alta_venta_ok c u (fecha_efectiva fecha s) [] s Hs)
      as (r & s' & Ha & _); [constructor|].
    rewrite Ha. exists r, s'. split; [reflexivity|].
    apply alta_venta_normal in Ha as (A1 & A2 & -> & _). reflexivity. }
  destruct (registrar_venta_exito _ _ _ _ _ _ _ Hr Hst)
    as (A1 & A2 & -> & Hc & _ & Hp & Hv & Hd & _).
  rewrite Hds in *. exists s'. rewrite Hc, Hp, Hv, Hd.
  split; [exact Hr|]. repeat split.
Qed.

(** *** Stock *)

Lemma descontar_uno_lookup (m : gmap Z Producto) (d : Detalle F) id :
  descontar_uno m d !! id
  = (λ p, if decide (d_id_producto d = id)
          then con_stock (stock p - cant d) p else p) <$> m !! id.
Proof.
  unfold descontar_uno.
  destruct (m !! d_id_producto d) as [p|] eqn:Hp.
  - rewrite lookup_alter. case_decide as Hid; [subst id|].
    + rewrite Hp. reflexivity.
    + destruct (m !! id); reflexivity.
  - case_decide as Hid; [subst id; rewrite Hp | destruct (m !! id)];
      reflexivity.
Qed.

(** After step 5 each product has lost what the request asks of it over
    all its lines, and is otherwise the same row. *)
Lemma descontar_lookup (ds : list (Detalle F)) (m : gmap Z Producto) id :
  descontar ds m !! id
  = (λ p, con_stock (stock p - pedido id ds) p) <$> m !! id.
Proof.
  revert m. induction ds as [|d ds IH]; intros m; simpl.
  - destruct (m !! id) as [[i n de pr st]|]; simpl; [|reflexivity].
    unfold con_stock. simpl. rewrite Z.sub_0_r. reflexivity.
  - change (descontar (d :: ds) m) with (descontar ds (descontar_uno m d)).
    rewrite IH, descontar_uno_lookup.
    destruct (m !! id) as [p|]; simpl; [|reflexivity].
    case_decide; unfold con_stock; simpl; do 2 f_equal; lia.
Qed.

Lemma pedido_sin_repetidos (ds : list (Detalle F)) d :
  NoDup (d_id_producto <$> ds) → d ∈ ds →
  pedido (d_id_producto d) ds = cant d.
Proof.
  induction ds as [|d0 ds IH]; simpl; intros Hnd Hin.
  - apply elem_of_nil in Hin. contradiction.
  - apply NoDup_cons in Hnd as [Hni Hnd].
    assert (∀ d' : Detalle F, d_id_producto d' ∉ d_id_producto <$> ds →
                  pedido (d_id_producto d') ds = 0) as Hcero.
    { clear. intros d'. induction ds as [|d1 ds IH]; simpl; [reflexivity|].
      intros Hni. apply not_elem_of_cons in Hni as [Hne Hni].
      rewrite decide_False by congruence. apply IH, Hni. }
    apply elem_of_cons in Hin as [->|Hin].
    + rewrite decide_True by reflexivity. rewrite Hcero by exact Hni. lia.
    + rewrite decide_False; [apply IH; assumption|].
      intros Heq. apply Hni. rewrite Heq.
      apply list_elem_of_fmap. eauto.
Qed.

(** X2. Every successful call takes from each product the sum of the
    quantities of the lines that name it. *)
Theorem registrar_venta_descuenta_pedido c u fecha (ds : list (Detalle F))
    s r s' id :
  registrar_venta c u fecha (Some ds) s = (Normal r, s') →
  status r = "success" →
  stock <$> productos (confirmado s') !! id
  = (λ p, stock p - pedido id ds) <$> productos (actual s) !! id.
Proof.
  intros Hr Hst.
  destruct (registrar_venta_exito _ _ _ _ _ _ _ Hr Hst)
    as (A1 & A2 & _ & Hc & _ & Hp & _).
  simpl in Hp. rewrite Hc, Hp, descontar_lookup.
  destruct (productos (actual s) !! id); reflexivity.
Qed.

(** X3. When no product is named twice, a successful call takes from the
    product of each line exactly the quantity of that line, and the stock
    left is not negative. *)
Theorem registrar_venta_sin_repetidos_stock c u fecha
    (ds : list (Detalle F)) s r s' d :
  NoDup (d_id_producto <$> ds) →
  registrar_venta c u fecha (Some ds) s = (Normal r, s') →
  status r = "success" →
  d ∈ ds →
  ∃ p, productos (actual s) !! d_id_producto d = Some p
       ∧ stock <$> productos (confirmado s') !! d_id_producto d
         = Some (stock p - cant d)
       ∧ 0 ≤ stock p - cant d.
Proof.
  intros Hnd Hr Hst Hin.
  destruct (registrar_venta_exito _ _ _ _ _ _ _ Hr Hst)
    as (A1 & A2 & _ & Hc & Hv & Hp' & _).
  simpl in Hv, Hp'. unfold lineas_validas in Hv. rewrite Forall_forall in Hv.
  destruct (Hv d Hin) as (p & Hp & Hle).
  exists p. rewrite Hc, Hp', descontar_lookup, Hp. simpl.
  rewrite pedido_sin_repetidos by assumption.
  repeat split. lia.
Qed.

(** *** Later operations *)

Lemma editar_producto_mismas_ventas id nombre descr (np : F) ns :
  respeta mismas_ventas (editar_producto id nombre descr np ns).
Proof.
  unfold editar_producto, despachar. marco.
  destruct a as [p|]; marco.
Qed.

(** C9. Editing a product, its price included, on a session without
    uncommitted changes leaves the committed sales and line items exactly
    as they were, whether the edit is committed, answered with a 404 or
    rolled back: for every sale the recorded lines, their unit prices,
    their subtotals, the stored total and the total recomputed from the
    lines are unchanged. *)
Theorem editar_producto_conserva_ventas id nombre descr (np : F) ns s o s' :
  sesion_limpia s →
  editar_producto id nombre descr np ns s = (o, s') →
  ventas (confirmado s') = ventas (confirmado s)
  ∧ detalles (confirmado s') = detalles (confirmado s)
  ∧ ∀ v, detalles_de (confirmado s') v = detalles_de (confirmado s) v
         ∧ precio_unitario <$> detalles_de (confirmado s') v
           = precio_unitario <$> detalles_de (confirmado s) v
         ∧ subtotal <$> detalles_de (confirmado s') v
           = subtotal <$> detalles_de (confirmado s) v
         ∧ calcular_total (confirmado s') v = calcular_total (confirmado s) v.
Proof.
  intros Hl He. unfold sesion_limpia in Hl.
  destruct (editar_producto_mismas_ventas _ _ _ _ _ _ _ _ He
              (ventas (confirmado s)) (detalles (confirmado s)))
    as (_ & _ & Hv & Hd).
  { rewrite Hl. auto. }
  split; [exact Hv|]. split; [exact Hd|].
  intros v. unfold calcular_total, detalles_de. rewrite Hd. auto.
Qed.

(** X5. A later sale only appends: the sales and line items a session saw
    before a call are still there, unchanged, whatever the call returns. *)
Theorem registrar_venta_conserva_ventas c u fecha
    (dps : option (list (Detalle F))) s r s' :
  sesion_limpia s →
  registrar_venta c u fecha dps s = (Normal r, s') →
  ∃ vs dv, ventas (confirmado s') = ventas (confirmado s) ++ vs
           ∧ detalles (confirmado s') = detalles (confirmado s) ++ dv.
Proof.
  intros Hl Hr. unfold sesion_limpia in Hl.
  assert (Hr' := Hr).
  apply registrar_venta_casos in Hr'
    as [(r0 & [= <-] & Hcasos) | (e & [=] & _)].
  assert (status r = "error" ∨ status r = "success") as [Hst|Hst].
  { destruct Hcasos as [[[m ->] _] | [(s1 & _ & _ & Ha) | [[m ->] _]]];
      [left; reflexivity | | left; reflexivity].
    apply alta_venta_normal in Ha as (A1 & A2 & -> & _). right. reflexivity. }
  - destruct (registrar_venta_error_confirmado _ _ _ _ _ _ _ Hr Hst)
      as [-> _].
    exists [], []. rewrite !app_nil_r. auto.
  - destruct (registrar_venta_exito _ _ _ _ _ _ _ Hr Hst)
      as (A1 & A2 & _ & Hc & _ & _ & Hv & Hd & _).
    simpl in *.
    destruct (agregar_detalles_filas
                (nuevo_id (id_venta <$> ventas (actual s))) (default [] dps)
                (detalles (actual s))) as (nuevas & Hn & _).
    rewrite Hc, Hv, Hd, Hn, <- Hl. eauto.
Qed.

(** *** The request layer *)

Lemma leer_detalles_solo_fallos ids cs (acc : list (Detalle F)) :
  respeta solo_fallos (leer_detalles ids cs acc).
Proof.
  revert cs acc. induction ids as [|id ids IH]; intros cs acc; simpl;
    [marco|].
  destruct cs as [|cn cs]; [marco|]. case_decide; [apply IH|].
  marco. destruct a; apply IH.
Qed.

(** The lines [nueva_venta] builds carry a positive quantity and the price
    of an existing product, as a float. *)
Lemma leer_detalles_vigentes ids cs (acc : list (Detalle F)) s ds s' :
  leer_detalles ids cs acc s = (Normal ds, s') →
  Forall (linea_vigente (productos (actual s))) acc →
  Forall (linea_vigente (productos (actual s))) ds.
Proof.
  revert cs acc s. induction ids as [|id ids IH]; intros cs acc s; simpl.
  - intros [= <- <-] Hacc. exact Hacc.
  - destruct cs as [|cn cs]; [discriminate|].
    case_decide as Hcn; [apply IH|].
    intros Hl Hacc. apply ligar_normal in Hl as (p & s1 & Hq & Hl).
    pose proof (query_get_solo_fallos _ _ _ _ Hq) as (_ & Hb & _).
    apply query_get_valor in Hq. rewrite <- Hb.
    destruct p as [p|]; (eapply IH; [exact Hl|]); rewrite Hb;
      [|exact Hacc].
    apply Forall_app. split; [exact Hacc|].
    constructor; [|constructor]. exists p. simpl.
    split; [congruence|]. split; [reflexivity | lia].
Qed.

(** X7. Through [nueva_venta] the unit price recorded on every new line is
    the price the product had when the handler read it, just before the
    call to the engine, and every quantity is positive. *)
Theorem nueva_venta_precio_vigente c u f ids cs s msg destino s' :
  nueva_venta c u f ids cs s = (Normal (Redirige msg "success" destino), s') →
  ∃ idv nuevas,
    destino = a_detalle_venta idv
    ∧ detalles (confirmado s') = detalles (actual s) ++ nuevas
    ∧ Forall (λ fila,
        dv_id_venta fila = idv ∧ 0 < cantidad fila
        ∧ ∃ p, productos (actual s) !! dv_id_producto fila = Some p
               ∧ precio_unitario fila = a_numeric (f_decimal (precio p)))
        nuevas.
Proof.
  unfold nueva_venta, despachar, try_except. intros Hn.
  match type of Hn with context [ligar ?m ?k s] =>
    destruct (ligar m k s) as [[resp|e] s0] eqn:Hc end;
    [|apply internal_error_normal in Hn as [[=] _]].
  injection Hn as -> ->.
  apply ligar_normal in Hc as (ds & s1 & Hl & Hc).
  pose proof (leer_detalles_solo_fallos _ _ _ _ _ _ Hl) as (_ & Hb & _).
  eapply leer_detalles_vigentes in Hl; [|constructor].
  destruct ds as [|d ds]; [discriminate Hc|].
  apply ligar_normal in Hc as (r & s2 & Hr & Hc).
  case_decide as Hst; [|discriminate Hc]. injection Hc as <- <- <-.
  destruct (registrar_venta_filas _ _ _ _ _ _ _ Hr Hst)
    as (nuevas & Hd & Hf & _).
  exists (venta_id r), nuevas. rewrite Hd, Hb.
  split; [reflexivity|]. split; [reflexivity|].
  clear Hd Hr. revert Hl Hf. generalize (d :: ds). intros l Hl Hf.
  induction Hf as [|fila d' nuevas l' (Hv & Hp & Hc & Hpu) Hf IH];
    [constructor|].
  apply Forall_cons in Hl as [(p & Hp' & Hpr & Hpos) Hl].
  constructor; [|apply IH, Hl].
  split; [exact Hv|]. split; [lia|].
  exists p. rewrite Hp, Hpu, Hpr. auto.
Qed.

(** X8. When no quantity of the form is positive, [nueva_venta] never reaches
    the engine: it flashes the warning and touches nothing. *)
Theorem nueva_venta_sin_lineas c u f ids cs s :
  Forall (λ n, n ≤ 0) cs → length ids = length cs →
  nueva_venta c u f ids cs s
  = (Normal (Redirige "Debe agregar al menos un producto" "warning"
                      a_nueva_venta), s).
Proof.
  intros Hcs Hlen.
  assert (leer_detalles ids cs ([] : list (Detalle F)) s = (Normal [], s))
    as Hl.
  { revert cs Hcs Hlen. induction ids as [|id ids IH];
      intros [|cn cs] Hcs Hlen; try discriminate Hlen; [reflexivity|].
    apply Forall_cons in Hcs as [Hcn Hcs]. simpl.
    rewrite decide_True by exact Hcn. apply IH; [exact Hcs|].
    simpl in Hlen. congruence. }
  unfold nueva_venta, despachar, try_except.
  rewrite (ligar_paso _ _ _ _ _ Hl). reflexivity.
Qed.

(** *** Calls in a row *)

(** A request whose lines all pass the validation is registered when no
    persistence fault occurs. *)
Theorem registrar_venta_ok c u fecha (ds : list (Detalle F)) s :
  sin_fallos s → lineas_validas (productos (actual s)) ds →
  ∃ r s', registrar_venta c u fecha (Some ds) s = (Normal r, s')
          ∧ status r = "success" ∧ sin_fallos s'.
Proof.
  intros Hs Hv.
  destruct (verificar_stock_ok ds s Hs Hv) as (s1 & He & Hs1 & _ & Hb & _).
  destruct (alta_venta_ok c u (fecha_efectiva fecha s) ds s1 Hs1)
    as (r & s' & Ha & Hs').
  { rewrite Hb. apply lineas_validas_existen, Hv. }
  exists r, s'. split; [|split; [|exact Hs']].
  - rewrite registrar_venta_eq. unfold try_except, cuerpo_venta. simpl.
    unfold ligar at 1. rewrite fecha_efectiva_eq.
    rewrite (ligar_paso _ _ _ _ _ He), Ha. reflexivity.
  - apply alta_venta_normal in Ha as (A1 & A2 & -> & _). reflexivity.
Qed.

(** X6. Two calls, one after the other and without persistence faults, each
    asking for one unit of a product that has one unit left: the first is
    registered, the second is rejected for lack of stock, and the stock
    ends at 0. *)
Theorem dos_ventas_en_serie c1 u1 c2 u2 f1 f2 id (pr1 pr2 : F) p s :
  sin_fallos s → productos (actual s) !! id = Some p → stock p = 1 →
  ∃ r1 s1 s2,
    registrar_venta c1 u1 f1 (Some [mkDetalle id 1 pr1]) s = (Normal r1, s1)
    ∧ status r1 = "success"
    ∧ registrar_venta c2 u2 f2 (Some [mkDetalle id 1 pr2]) s1
      = (Normal (mkResultado "error"
                   (mensaje_stock (con_stock 0 p) (mkDetalle id 1 pr2))
                   0 (f_entero 0)), s2)
    ∧ stock <$> productos (confirmado s2) !! id = Some 0.
Proof.
  intros Hs Hp Hst.
  destruct (registrar_venta_ok c1 u1 f1 [mkDetalle id 1 pr1] s Hs)
    as (r1 & s1 & Hr1 & Hst1 & Hs1).
  { constructor; [|constructor]. exists p. simpl. split; [exact Hp | lia]. }
  destruct (registrar_venta_exito _ _ _ _ _ _ _ Hr1 Hst1)
    as (A1 & A2 & _ & Hc1 & _ & Hp1 & _).
  change (productos (actual s1)
          = descontar [mkDetalle id 1 pr1] (productos (actual s))) in Hp1.
  assert (productos (actual s1) !! id = Some (con_stock 0 p)) as Hp1'.
  { rewrite Hp1, descontar_lookup, Hp. simpl.
    rewrite decide_True by reflexivity. do 2 f_equal. lia. }
  destruct (rechazo_por_stock c2 u2 f2 [mkDetalle id 1 pr2]
              s1 Hs1) as (pre & d & post & p' & s2 & Hds & _ & Hp' & _ & Hr2
                          & _ & Hc2).
  { constructor; [|constructor]. simpl. rewrite Hp1'. eauto. }
  { constructor. exists (con_stock 0 p). simpl. split; [exact Hp1' | lia]. }
  assert (d = mkDetalle id 1 pr2 ∧ p' = con_stock 0 p) as [-> ->].
  { destruct pre as [|d0 [|d1 pre]]; try discriminate Hds.
    injection Hds as <-. simpl in Hp'. rewrite Hp1' in Hp'.
    injection Hp' as <-. auto. }
  exists r1, s1, s2. rewrite Hc2, Hc1, Hp1'. auto.
Qed.

End Propiedades.
(** ** The permission table *)

Section TablaDePermisos.
Import Permisos.

Lemma permisos_lookup (rol : string) :
  permisos !! rol =
    if decide ("admin" = rol) then Some permisos_admin
    else if decide ("vendedor" = rol) then Some permisos_vendedor
    else if decide ("consulta" = rol) then Some permisos_consulta
    else None.
Proof.
  unfold permisos. rewrite !lookup_insert, lookup_empty. reflexivity.
Qed.

Lemma tiene_permiso_tabla (rol accion : string) :
  tiene_permiso rol accion = true ↔ tabla_fija rol accion.
Proof.
  unfold tiene_permiso, tabla_fija.
  rewrite bool_decide_eq_true, permisos_lookup.
  destruct (decide ("admin" = rol)) as [<-|Ha].
  { split; [intros Hx; left; split; [reflexivity | exact Hx]|].
    intros [[_ Hx]|[[Hr _]|[Hr _]]];
      [exact Hx | discriminate Hr | discriminate Hr]. }
  destruct (decide ("vendedor" = rol)) as [<-|Hv].
  { split; [intros Hx; right; left; split; [reflexivity | exact Hx]|].
    intros [[Hr _]|[[_ Hx]|[Hr _]]];
      [discriminate Hr | exact Hx | discriminate Hr]. }
  destruct (decide ("consulta" = rol)) as [<-|Hc].
  { split; [intros Hx; right; right; split; [reflexivity | exact Hx]|].
    intros [[Hr _]|[[Hr _]|[_ Hx]]];
      [discriminate Hr | discriminate Hr | exact Hx]. }
  simpl. split.
  - intros Hx. apply elem_of_nil in Hx. contradiction.
  - intros [[Hr _]|[[Hr _]|[Hr _]]]; congruence.
Qed.

(** C8. [tiene_permiso] is a total boolean function that agrees with the
    fixed role table (admin: crear, leer, actualizar, eliminar, ventas,
    reportes; vendedor: leer, ventas, actualizar_cliente; consulta: leer,
    reportes), and a role outside the three known ones has no permission
    for any action. *)
Theorem tiene_permiso_total_y_tabla (rol accion : string) :
  (tiene_permiso rol accion = true ↔ tabla_fija rol accion)
  ∧ (¬ rol_conocido rol → tiene_permiso rol accion = false).
Proof.
  split; [apply tiene_permiso_tabla|].
  intros Hrol. apply not_true_is_false. rewrite tiene_permiso_tabla.
  unfold tabla_fija, rol_conocido in *. tauto.
Qed.

Lemma tiene_permiso_total_y_tabla_witness :
  (tiene_permiso "gerente" "leer" = true ↔ tabla_fija "gerente" "leer")
  ∧ tiene_permiso "gerente" "leer" = false.
Proof.
  destruct (tiene_permiso_total_y_tabla "gerente" "leer") as [Htab Hno].
  split; [exact Htab|].
  apply Hno. unfold rol_conocido. intros [H|[H|H]]; discriminate H.
Defined.

End TablaDePermisos.

(** ** The scenarios, run on exact céntimos *)

Section Casos.
Import Centimos Ejemplo.

(** Scenario 1: two sofas at 850.00 with 25 in stock. *)
Example escenario_venta_simple :
  registrar_venta 7 3 None (Some [dos_sofas]) sesion_inicial
  = (Normal (exito 1 170000), sesion_tras_venta)
  ∧ stock <$> productos (confirmado sesion_tras_venta) !! 1 = Some 23
  ∧ datos <$> auditorias (confirmado sesion_tras_venta)
    = ["Venta registrada: Cliente ID 7, Total S/. 1700.00";
       "Producto actualizado: Sofa 3 Cuerpos"].
Proof. split; [|split]; vm_compute; reflexivity. Qed.

(** Scenario 3: a product that does not exist. *)
Example escenario_producto_inexistente :
  (registrar_venta 7 3 None (Some [mkDetalle 9999 1 100]) sesion_inicial).1
  = Normal (mkResultado "error" "Producto ID 9999 no encontrado" 0 0).
Proof. vm_compute. reflexivity. Qed.

(** C1, as stated, fails: a request line for two sofas at 1.00 is recorded
    at 1.00 while the product costs 850.00, and the total is 2.00. *)
Lemma captura_precio_vigente_falso : ¬ captura_precio_vigente.
Proof.
  intros Hc.
  destruct (registrar_venta 7 3 None (Some [dos_sofas_a_un_sol])
              sesion_inicial) as [o s'] eqn:E.
  assert (E' := E). vm_compute in E'. injection E' as <- <-.
  destruct (Hc _ _ _ _ _ _ _ E eq_refl) as [_ Ht].
  vm_compute in Ht. discriminate Ht.
Qed.

Lemma registrar_venta_precio_de_la_linea_witness :
  registrar_venta 7 3 None (Some [dos_sofas_a_un_sol]) sesion_inicial
  = (Normal (exito 1 200), sesion_precio_forjado)
  ∧ ∃ nuevas,
      detalles (confirmado sesion_precio_forjado)
      = detalles (actual sesion_inicial) ++ nuevas
      ∧ Forall2 (fila_de 1) nuevas [dos_sofas_a_un_sol]
      ∧ (200 : Z) = total_lineas [dos_sofas_a_un_sol].
Proof.
  assert (registrar_venta 7 3 None (Some [dos_sofas_a_un_sol]) sesion_inicial
          = (Normal (exito 1 200), sesion_precio_forjado)) as E
    by (vm_compute; reflexivity).
  split; [exact E|].
  exact (registrar_venta_precio_de_la_linea 7 3 None [dos_sofas_a_un_sol]
           sesion_inicial (exito 1 200) sesion_precio_forjado E eq_refl).
Defined.

(** C2, at a failing input: the tables, 5 in stock, asked for twice in one
    request, 3 and 3. Each line passes the validation on its own, the
    sale is registered and the stock ends at -1. The form of
    [nueva_venta] reaches the engine with exactly this request. *)
Theorem venta_repetida_deja_stock_negativo :
  registrar_venta 7 3 None (Some [tres_mesas; tres_mesas]) sesion_inicial
  = (Normal (exito 1 168000), sesion_mesas_repetidas)
  ∧ stock <$> productos (actual sesion_inicial) !! 2 = Some 5
  ∧ stock <$> productos (confirmado sesion_mesas_repetidas) !! 2 = Some (-1)
  ∧ (nueva_venta 7 3 19675 [2; 2] [3; 3] sesion_inicial).1
    = Normal (Redirige "Venta registrada exitosamente" "success"
                       (a_detalle_venta 1))
  ∧ stock <$> productos (confirmado
                 (nueva_venta 7 3 19675 [2; 2] [3; 3] sesion_inicial).2) !! 2
    = Some (-1).
Proof. split; [|split; [|split; [|split]]]; vm_compute; reflexivity. Qed.

(** C4, as stated, fails: a call without lines registers a sale. *)
Lemma pedido_vacio_es_error_falso : ¬ pedido_vacio_es_error.
Proof.
  intros Hc.
  destruct (registrar_venta 7 3 None (Some ([] : list (Detalle Z)))
              sesion_inicial) as [o s'] eqn:E.
  assert (E' := E). vm_compute in E'. injection E' as <- <-.
  destruct (Hc _ _ _ _ _ _ E) as [Hst _]. discriminate Hst.
Qed.

Lemma pedido_vacio_registra_venta_witness :
  sin_fallos sesion_inicial
  ∧ ∃ s',
      registrar_venta 7 3 None (@None (list (Detalle Z))) sesion_inicial
      = (Normal (exito 1 0), s')
      ∧ ventas (confirmado s') = [mkVenta 1 19675 7 3 0]
      ∧ detalles (confirmado s') = []
      ∧ productos (confirmado s') = productos tienda.
Proof.
  assert (sin_fallos sesion_inicial) as Hs by constructor.
  split; [exact Hs|].
  exact (pedido_vacio_registra_venta 7 3 None None sesion_inicial Hs eq_refl).
Defined.

(** C5, as stated, fails: the request that names the tables twice has one
    distinct product and leaves two line items. *)
Lemma una_linea_por_producto_falso : ¬ una_linea_por_producto.
Proof.
  intros Hc.
  destruct (registrar_venta 7 3 None (Some [tres_mesas; tres_mesas])
              sesion_inicial) as [o s'] eqn:E.
  assert (E' := E). vm_compute in E'. injection E' as <- <-.
  destruct (Hc _ _ _ _ _ _ _ E eq_refl) as (nuevas & Hd & Hl).
  apply (f_equal length) in Hd. rewrite length_app in Hd.
  vm_compute in Hd. vm_compute in Hl. congruence.
Qed.

Lemma registrar_venta_una_venta_n_lineas_witness :
  registrar_venta 7 3 None (Some [tres_mesas; tres_mesas]) sesion_inicial
  = (Normal (exito 1 168000), sesion_mesas_repetidas)
  ∧ ∃ v nuevas A1 a A2,
      ventas (confirmado sesion_mesas_repetidas)
      = ventas (actual sesion_inicial) ++ [v]
      ∧ id_venta v = 1 ∧ v_id_cliente v = 7 ∧ v_id_usuario v = 3
      ∧ total v = 168000
      ∧ detalles (confirmado sesion_mesas_repetidas)
        = detalles (actual sesion_inicial) ++ nuevas
      ∧ length nuevas = 2%nat
      ∧ auditorias (confirmado sesion_mesas_repetidas)
        = auditorias (actual sesion_inicial) ++ A1 ++ [a] ++ A2
      ∧ tabla a = "Venta" ∧ accion a = "INSERT" ∧ id_registro a = 1
      ∧ datos a = "Venta registrada: Cliente ID 7, Total S/. 1680.00"
      ∧ Forall es_de_producto (A1 ++ A2).
Proof.
  assert (registrar_venta 7 3 None (Some [tres_mesas; tres_mesas])
            sesion_inicial
          = (Normal (exito 1 168000), sesion_mesas_repetidas)) as E
    by (vm_compute; reflexivity).
  split; [exact E|].
  exact (registrar_venta_una_venta_n_lineas 7 3 None [tres_mesas; tres_mesas]
           sesion_inicial (exito 1 168000) sesion_mesas_repetidas E eq_refl).
Defined.



Lemma registrar_venta_error_sin_cambios_witness :
  sesion_limpia sesion_commit_falla
  ∧ registrar_venta 7 3 None (Some [dos_sofas]) sesion_commit_falla
    = (Normal (mkResultado "error"
                 "Error al registrar venta: disk I/O error" 0 0),
       sesion_revertida)
  ∧ actual sesion_revertida = actual sesion_commit_falla
  ∧ confirmado sesion_revertida = confirmado sesion_commit_falla
  ∧ conteos (actual sesion_revertida) = conteos (actual sesion_commit_falla)
  ∧ conteos (confirmado sesion_revertida)
    = conteos (confirmado sesion_commit_falla).
Proof.
  assert (sesion_limpia sesion_commit_falla) as Hl by reflexivity.
  assert (registrar_venta 7 3 None (Some [dos_sofas]) sesion_commit_falla
          = (Normal (mkResultado "error"
                       "Error al registrar venta: disk I/O error" 0 0),
             sesion_revertida)) as E
    by (vm_compute; reflexivity).
  split; [exact Hl|]. split; [exact E|].
  exact (registrar_venta_error_sin_cambios 7 3 None (Some [dos_sofas])
           sesion_commit_falla _ sesion_revertida Hl E eq_refl).
Defined.

Lemma stock_insuficiente_rechaza_todo_witness :
  sin_fallos sesion_inicial
  ∧ registrar_venta 7 3 None (Some [dos_sofas; diez_mesas]) sesion_inicial
    = (Normal (mkResultado "error"
                 ("Stock insuficiente para 'Mesa de Centro Madera' (ID: 2). "
                  +:+ "Solicitado: 10, Disponible: 5") 0 0),
       sesion_inicial)
  ∧ ∃ pre d post p r s',
      [dos_sofas; diez_mesas] = pre ++ d :: post
      ∧ lineas_validas (productos (actual sesion_inicial)) pre
      ∧ productos (actual sesion_inicial) !! d_id_producto d = Some p
      ∧ stock p < cant d
      ∧ registrar_venta 7 3 None (Some [dos_sofas; diez_mesas]) sesion_inicial
        = (Normal r, s')
      ∧ status r = "error" ∧ venta_id r = 0 ∧ total_venta r = f_entero 0
      ∧ mensaje r
        = "Stock insuficiente para '" +:+ nombre_producto p +:+ "' (ID: "
          +:+ pretty (id_producto p) +:+ "). Solicitado: "
          +:+ pretty (cant d) +:+ ", Disponible: " +:+ pretty (stock p)
      ∧ actual s' = actual sesion_inicial
      ∧ confirmado s' = confirmado sesion_inicial.
Proof.
  assert (sin_fallos sesion_inicial) as Hs by constructor.
  split; [exact Hs|]. split; [vm_compute; reflexivity|].
  apply (stock_insuficiente_rechaza_todo 7 3 None [dos_sofas; diez_mesas]
           sesion_inicial Hs).
  - repeat constructor; eexists; vm_compute; reflexivity.
  - right. left. exists mesa. split; vm_compute; reflexivity.
Defined.

Lemma editar_producto_conserva_ventas_witness :
  let s' := (editar_producto 1 "Sofa 3 Cuerpos" "Tapiz nuevo" 99900 20
               sesion_tras_venta).2 in
  sesion_limpia sesion_tras_venta
  ∧ precio <$> productos (confirmado s') !! 1 = Some 99900
  ∧ ventas (confirmado s') = ventas (confirmado sesion_tras_venta)
  ∧ detalles (confirmado s') = detalles (confirmado sesion_tras_venta).
Proof.
  intros s'.
  assert (sesion_limpia sesion_tras_venta) as Hl by reflexivity.
  split; [exact Hl|]. split; [vm_compute; reflexivity|].
  destruct (editar_producto_conserva_ventas 1 "Sofa 3 Cuerpos" "Tapiz nuevo"
              99900 20 sesion_tras_venta _ s' Hl (surjective_pairing _))
    as (Hv & Hd & _).
  split; [exact Hv | exact Hd].
Defined.

End Casos.

(** ** More on the sale engine *)

Section MasSobreLaVenta.
Context {F : Type} `{Flotante F}.

(** Without persistence faults the validation always decides, and decides
    as [veredicto] says. *)
Lemma verificar_stock_veredicto (ds : list (Detalle F)) s :
  sin_fallos s →
  ∃ rechazo s', verificar_stock ds s = (Normal rechazo, s')
                ∧ sin_fallos s' ∧ solo_fallos s s'
                ∧ veredicto (productos (actual s)) ds rechazo.
Proof.
  revert s. induction ds as [|d ds IH]; intros s Hs; simpl.
  - exists None, s. repeat split; [exact Hs | constructor].
  - destruct (query_get_normal (d_id_producto d) s Hs) as [s1 Hq].
    pose proof (query_get_sin_fallos _ _ _ _ Hq Hs) as Hs1.
    pose proof (query_get_solo_fallos _ _ _ _ Hq) as Hf1.
    rewrite (ligar_paso _ _ _ _ _ Hq).
    destruct (productos (actual s) !! d_id_producto d) as [p|] eqn:Hp.
    + case_decide as Hst.
      * eexists _, s1. repeat split; try apply Hf1; [exact Hs1|].
        exists [], d, ds. split; [reflexivity|]. split; [constructor|].
        right. exists p. auto.
      * destruct (IH s1 Hs1) as (r & s' & He & Hs' & Hf' & Hv).
        exists r, s'. split; [exact He|]. split; [exact Hs'|].
        split; [eapply solo_fallos_trans; eassumption|].
        destruct Hf1 as (_ & Hb & _). rewrite Hb in Hv.
        assert (∃ p', productos (actual s) !! d_id_producto d = Some p'
                      ∧ cant d ≤ stock p') as Hd by (exists p; split; [auto|lia]).
        destruct r as [r|]; simpl in *.
        -- destruct Hv as (pre & d' & post & -> & Hpre & Hob).
           exists (d :: pre), d', post. split; [reflexivity|].
           split; [constructor; assumption | exact Hob].
        -- constructor; assumption.
    + eexists _, s1. repeat split; try apply Hf1; [exact Hs1|].
      exists [], d, ds. split; [reflexivity|]. split; [constructor|].
      left. auto.
Qed.

Lemma objecion_no_valida (m : gmap Z Producto) (d : Detalle F) r :
  objecion m d r → ¬ (∃ p, m !! d_id_producto d = Some p ∧ cant d ≤ stock p).
Proof.
  intros [[Hn _]|(p & Hp & Hst & _)] (p' & Hp' & Hle).
  - congruence.
  - rewrite Hp in Hp'. injection Hp' as <-. lia.
Qed.

(** Without persistence faults a call ends in one of two ways. *)
Lemma registrar_venta_sin_fallos_casos c u fecha (ds : list (Detalle F)) s :
  sin_fallos s →
  ∃ r s',
    registrar_venta c u fecha (Some ds) s = (Normal r, s')
    ∧ ((status r = "success" ∧ lineas_validas (productos (actual s)) ds)
       ∨ (status r = "error" ∧ veredicto (productos (actual s)) ds (Some r)
          ∧ actual s' = actual s ∧ confirmado s' = confirmado s)).
Proof.
  intros Hs.
  destruct (verificar_stock_veredicto ds s Hs)
    as (rechazo & s1 & He & Hs1 & Hf & Hv).
  assert (registrar_venta c u fecha (Some ds) s
          = match rechazo with
            | Some r => (Normal r, s1)
            | None =>
                try_except (alta_venta c u (fecha_efectiva fecha s) ds)
                           manejador s1
            end) as Hcall.
  { rewrite registrar_venta_eq. unfold try_except, cuerpo_venta. simpl.
    unfold ligar at 1. rewrite fecha_efectiva_eq.
    rewrite (ligar_paso _ _ _ _ _ He). destruct rechazo; reflexivity. }
  destruct rechazo as [r|]; simpl in Hv.
  - exists r, s1. split; [exact Hcall|]. right.
    destruct Hf as (Hc & Hb & _). split; [|auto].
    destruct Hv as (pre & d & post & _ & _ & [[_ ->]|(p & _ & _ & ->)]);
      reflexivity.
  - destruct Hf as (_ & Hb & _).
    destruct (alta_venta_ok c u (fecha_efectiva fecha s) ds s1 Hs1)
      as (r & s' & Ha & _).
    { rewrite Hb. apply lineas_validas_existen, Hv. }
    exists r, s'. unfold try_except in Hcall. rewrite Ha in Hcall.
    split; [exact Hcall|]. left. split; [|exact Hv].
    apply alta_venta_normal in Ha as (A1 & A2 & -> & _). reflexivity.
Qed.

(** X1. When no persistence fault occurs, [registrar_venta] registers the
    sale exactly when every request line names an existing product with
    enough stock for that line. Otherwise it returns the error of the
    first line that fails, "no encontrado" for a missing product or
    "Stock insuficiente" for short stock, and leaves the view and the
    committed state as they were. *)
Theorem registrar_venta_sin_fallos_veredicto c u fecha
    (ds : list (Detalle F)) s :
  sin_fallos s →
  ∃ r s',
    registrar_venta c u fecha (Some ds) s = (Normal r, s')
    ∧ (status r = "success" ↔ lineas_validas (productos (actual s)) ds)
    ∧ (status r ≠ "success" →
       veredicto (productos (actual s)) ds (Some r)
       ∧ actual s' = actual s ∧ confirmado s' = confirmado s).
Proof.
  intros Hs.
  destruct (registrar_venta_sin_fallos_casos c u fecha ds s Hs)
    as (r & s' & Hr & [[Hst Hv] | (Hst & Hv & Hb & Hc)]);
    exists r, s'; (split; [exact Hr|]).
  - split; [tauto|]. intros Hne. contradiction.
  - split; [|auto]. rewrite Hst. split; [discriminate|].
    intros Hval. exfalso.
    destruct Hv as (pre & d & post & -> & _ & Hob).
    apply (objecion_no_valida _ _ _ Hob).
    apply Forall_app in Hval as [_ Hval].
    apply Forall_cons in Hval as [Hd _]. exact Hd.
Qed.

End MasSobreLaVenta.

Section Conservacion.
Context {F : Type} `{Flotante F}.

Lemma suma_app (l1 l2 : list Z) :
  foldr Z.add 0 (l1 ++ l2) = foldr Z.add 0 l1 + foldr Z.add 0 l2.
Proof. induction l1 as [|x l1 IH]; simpl; lia. Qed.

(** The new rows of a sale add to the units sold of a product what the
    request asks of it. *)
Lemma vendido_nuevas idv (nuevas : list DetalleVenta) (ds : list (Detalle F))
    id :
  Forall2 (fila_de idv) nuevas ds →
  foldr Z.add 0 (cantidad <$> filter (λ d, dv_id_producto d = id) nuevas)
  = pedido id ds.
Proof.
  induction 1 as [|fila d nuevas ds (_ & Hp & Hc & _) _ IH]; [reflexivity|].
  rewrite filter_cons. simpl. rewrite <- Hp, <- Hc, <- IH.
  case_decide; reflexivity.
Qed.

(** X4. A successful call moves units from stock to sold and loses none:
    for every product, the stock left plus the units on its line items
    is what it was before the call, duplicates in the request included. *)
Theorem registrar_venta_conserva_unidades c u fecha (ds : list (Detalle F))
    s r s' id p :
  registrar_venta c u fecha (Some ds) s = (Normal r, s') →
  status r = "success" →
  productos (actual s) !! id = Some p →
  ∃ p', productos (confirmado s') !! id = Some p'
        ∧ stock p' + vendido (confirmado s') id
          = stock p + vendido (actual s) id.
Proof.
  intros Hr Hst Hp.
  destruct (registrar_venta_exito _ _ _ _ _ _ _ Hr Hst)
    as (A1 & A2 & -> & Hc & _ & Hps & _ & Hd & _).
  simpl in *.
  destruct (agregar_detalles_filas
              (nuevo_id (id_venta <$> ventas (actual s))) ds
              (detalles (actual s))) as (nuevas & Hn & Hf).
  exists (con_stock (stock p - pedido id ds) p).
  rewrite Hc, Hps, descontar_lookup, Hp. split; [reflexivity|].
  unfold vendido. rewrite Hd, Hn, filter_app, fmap_app, suma_app.
  rewrite (vendido_nuevas _ _ _ _ Hf). simpl. lia.
Qed.

End Conservacion.

(** ** More on the sale form *)

Section MasSobreElFormulario.
Context {F : Type} `{Flotante F}.

(** The loop over the form never ends normally when [cantidades] is the
    shorter list. *)
Lemma leer_detalles_corta ids cs (acc : list (Detalle F)) s ds s' :
  (length cs < length ids)%nat →
  leer_detalles ids cs acc s ≠ (Normal ds, s').
Proof.
  revert cs acc s. induction ids as [|id ids IH]; intros cs acc s Hlen; simpl.
  - simpl in Hlen. lia.
  - destruct cs as [|cn cs]; [discriminate|]. simpl in Hlen.
    case_decide; [apply IH; lia|].
    intros Hl. apply ligar_normal in Hl as (p & s1 & _ & Hl).
    destruct p; eapply IH in Hl; try assumption; lia.
Qed.

(** X9. When the form sends fewer quantities than product ids,
    [nueva_venta] ends in the 500 page whatever else happens, and the
    session is rolled back: nothing is committed and the view is the
    committed state. *)
Theorem nueva_venta_formulario_descuadrado c u f ids cs s :
  (length cs < length ids)%nat →
  ∃ s', nueva_venta c u f ids cs s = (Normal ErrorInterno500, s')
        ∧ confirmado s' = confirmado s ∧ actual s' = confirmado s.
Proof.
  intros Hlen. unfold nueva_venta, despachar, try_except.
  match goal with |- context [ligar ?m ?k s] =>
    destruct (ligar m k s) as [[resp|e] s1] eqn:Hc end.
  - apply ligar_normal in Hc as (ds & s0 & Hl & _).
    exfalso. eapply leer_detalles_corta; eassumption.
  - assert (confirmado s1 = confirmado s) as Hs1.
    { unfold ligar in Hc.
      destruct (leer_detalles ids cs [] s) as [[ds|e0] s0] eqn:Hl.
      - exfalso. eapply leer_detalles_corta; eassumption.
      - injection Hc as <- <-.
        apply leer_detalles_solo_fallos in Hl as (Hc' & _). exact Hc'. }
    destruct (internal_error ErrorInterno500 s1) as [o s'] eqn:Hi.
    apply internal_error_normal in Hi as (-> & Hc' & Hb' & _).
    exists s'. split; [reflexivity|]. split; congruence.
Qed.

Lemma leer_detalles_ok ids cs (acc : list (Detalle F)) s :
  sin_fallos s → (length ids ≤ length cs)%nat →
  ∃ ds s', leer_detalles ids cs acc s = (Normal ds, s')
           ∧ sin_fallos s' ∧ solo_fallos s s'.
Proof.
  revert cs acc s. induction ids as [|id ids IH]; intros cs acc s Hs Hlen;
    simpl.
  - exists acc, s. repeat split. exact Hs.
  - destruct cs as [|cn cs]; simpl in Hlen; [lia|].
    case_decide; [apply IH; [exact Hs | lia]|].
    destruct (query_get_normal id s Hs) as [s1 Hq].
    pose proof (query_get_sin_fallos _ _ _ _ Hq Hs) as Hs1.
    pose proof (query_get_solo_fallos _ _ _ _ Hq) as Hf1.
    rewrite (ligar_paso _ _ _ _ _ Hq).
    destruct (productos (actual s) !! id) as [p|];
      match goal with |- context [leer_detalles ids cs ?a s1] =>
        destruct (IH cs a s1 Hs1) as (ds & s' & Hl & Hs' & Hf');
          [lia|] end;
      exists ds, s'; (split; [exact Hl|]); (split; [exact Hs'|]);
      eapply solo_fallos_trans; eassumption.
Qed.

(** X10. When no persistence fault occurs and the form sends a quantity
    for every product id, [nueva_venta] answers in one of three ways: the
    warning that no line is left, with nothing changed; the redirect to
    the new sale; or the "Stock insuficiente" message of a line that asks
    for more than there is, with nothing changed. A product that does not
    exist is dropped from the request and never reported. *)
Theorem nueva_venta_respuestas c u f ids cs s :
  sin_fallos s → (length ids ≤ length cs)%nat →
  ∃ resp s',
    nueva_venta c u f ids cs s = (Normal resp, s')
    ∧ ((resp = Redirige "Debe agregar al menos un producto" "warning"
                        a_nueva_venta
        ∧ actual s' = actual s ∧ confirmado s' = confirmado s)
       ∨ resp = Redirige "Venta registrada exitosamente" "success"
                  (a_detalle_venta (nuevo_id (id_venta <$> ventas (actual s))))
       ∨ (∃ p (d : Detalle F),
            productos (actual s) !! d_id_producto d = Some p
            ∧ stock p < cant d
            ∧ resp = Redirige (mensaje_stock p d) "danger" a_nueva_venta
            ∧ actual s' = actual s ∧ confirmado s' = confirmado s)).
Proof.
  intros Hs Hlen.
  destruct (leer_detalles_ok ids cs [] s Hs Hlen)
    as (ds & s1 & Hl & Hs1 & Hc1 & Hb1 & _).
  pose proof (leer_detalles_vigentes _ _ _ _ _ _ Hl (Forall_nil_2 _)) as Hvig.
  unfold nueva_venta, despachar, try_except.
  rewrite (ligar_paso _ _ _ _ _ Hl).
  destruct ds as [|d0 ds0]; [eexists _, s1; split; [reflexivity|]; auto|].
  destruct (registrar_venta_sin_fallos_casos c u (Some f) (d0 :: ds0) s1 Hs1)
    as (r & s' & Hr & Hcasos).
  rewrite (ligar_paso _ _ _ _ _ Hr).
  destruct Hcasos as [[Hst _] | (Hst & Hv & Hb & Hc)].
  - rewrite decide_True by exact Hst. eexists _, s'. split; [reflexivity|].
    right; left.
    destruct (registrar_venta_exito _ _ _ _ _ _ _ Hr Hst)
      as (A1 & A2 & -> & _).
    simpl. rewrite Hb1. reflexivity.
  - rewrite decide_False by (rewrite Hst; discriminate).
    eexists _, s'. split; [reflexivity|]. right; right.
    destruct Hv as (pre & d & post & Hds & _ & Hob).
    assert (linea_vigente (productos (actual s)) d) as (p0 & Hp0 & _).
    { rewrite Forall_forall in Hvig. apply Hvig. rewrite Hds.
      apply elem_of_app. right. left. }
    rewrite Hb1 in Hob.
    destruct Hob as [[Hn _] | (p & Hp & Hcorto & ->)]; [congruence|].
    exists p, d. simpl. rewrite Hb, Hc, Hb1, Hc1. auto.
Qed.

End MasSobreElFormulario.

(** ** The product handlers *)

Lemma despachar_casos (m : Op Respuesta) s o s' :
  despachar m s = (o, s') →
  (∃ r, m s = (Normal r, s') ∧ o = Normal r)
  ∨ (∃ e s1, m s = (Excepcion e, s1) ∧ o = Normal ErrorInterno500
             ∧ confirmado s' = confirmado s1 ∧ actual s' = confirmado s1).
Proof.
  unfold despachar, try_except.
  destruct (m s) as [[r|e] s1]; [intros [= <- <-]; left; eauto|].
  intros Hi. apply internal_error_normal in Hi as (-> & Hc & Hb & _).
  right. eauto 10.
Qed.

Lemma filter_vacio {A} (P : A → Prop) `{∀ x, Decision (P x)} (l : list A) :
  (∀ x, x ∈ l → ¬ P x) → filter P l = [].
Proof.
  induction l as [|x l IH]; intros Hno; [reflexivity|].
  rewrite filter_cons_False by (apply Hno; left).
  apply IH. intros y Hy. apply Hno. right. exact Hy.
Qed.

Lemma alter_es_insert (m : gmap Z Producto) f id p :
  m !! id = Some p → alter f id m = <[id := f p]> m.
Proof.
  intros Hp. apply map_eq. intros k.
  rewrite lookup_alter, lookup_insert.
  case_decide; [subst k; rewrite Hp|]; reflexivity.
Qed.

Lemma claves_lookup (m : gmap Z Producto) k :
  k ∈ claves m ↔ is_Some (m !! k).
Proof.
  unfold claves. rewrite list_elem_of_fmap. split.
  - intros ([k' p] & -> & Hin). apply elem_of_map_to_list in Hin. eauto.
  - intros [p Hp]. exists (k, p). split; [reflexivity|].
    apply elem_of_map_to_list, Hp.
Qed.

(** The key of a new product is not in use. *)
Lemma nuevo_id_libre (m : gmap Z Producto) : m !! nuevo_id (claves m) = None.
Proof.
  apply eq_None_not_Some. intros Hs. apply claves_lookup in Hs.
  apply nuevo_id_fresco in Hs. lia.
Qed.

Lemma add_producto_mismo_confirmado n d x st :
  respeta mismo_confirmado (session_add_producto n d x st).
Proof. paso_puro. split; reflexivity. Qed.

Lemma add_producto_mismas_ventas n d x st :
  respeta mismas_ventas (session_add_producto n d x st).
Proof. paso_puro. intros vs ds Hs. exact Hs. Qed.

Lemma add_producto_sin_fallos n d x st :
  respeta conserva_sin_fallos (session_add_producto n d x st).
Proof. paso_puro. intros Hs. exact Hs. Qed.

Lemma delete_producto_mismo_confirmado id :
  respeta mismo_confirmado (session_delete_producto id).
Proof. paso_puro. split; reflexivity. Qed.

Lemma delete_producto_mismas_ventas id :
  respeta mismas_ventas (session_delete_producto id).
Proof. paso_puro. intros vs ds Hs. exact Hs. Qed.

Lemma delete_producto_sin_fallos id :
  respeta conserva_sin_fallos (session_delete_producto id).
Proof. paso_puro. intros Hs. exact Hs. Qed.

Lemma contar_detalles_solo_fallos id :
  respeta solo_fallos (contar_detalles_de_producto id).
Proof. unfold contar_detalles_de_producto. marco. Qed.

Lemma contar_detalles_sin_fallos id :
  respeta conserva_sin_fallos (contar_detalles_de_producto id).
Proof. unfold contar_detalles_de_producto. marco. Qed.

#[local] Hint Resolve add_producto_mismo_confirmado
  add_producto_mismas_ventas add_producto_sin_fallos
  delete_producto_mismo_confirmado delete_producto_mismas_ventas
  delete_producto_sin_fallos contar_detalles_solo_fallos
  contar_detalles_sin_fallos : marco.

Lemma contar_detalles_valor id s n s' :
  contar_detalles_de_producto id s = (Normal n, s') →
  n = length (filter (λ d, dv_id_producto d = id) (detalles (actual s))).
Proof.
  intros Hq. apply ligar_normal in Hq as (u & s1 & Hp & Hl).
  injection Hl as <- <-.
  apply persistencia_solo_fallos in Hp as (_ & -> & _). reflexivity.
Qed.

Lemma contar_detalles_normal id s :
  sin_fallos s →
  ∃ s', contar_detalles_de_producto id s
        = (Normal (length (filter (λ d, dv_id_producto d = id)
                             (detalles (actual s)))), s')
        ∧ sin_fallos s' ∧ solo_fallos s s'.
Proof.
  intros Hs. destruct (persistencia_normal s Hs) as [s1 Hp].
  pose proof (persistencia_sin_fallos _ _ _ Hp Hs) as Hs1.
  pose proof (persistencia_solo_fallos _ _ _ Hp) as Hf.
  exists s1. unfold contar_detalles_de_producto.
  rewrite (ligar_paso _ _ _ _ _ Hp). unfold leer.
  destruct Hf as (Hc & Hb & Hsu & Ha). rewrite Hb.
  repeat split; assumption.
Qed.

(** The rows the [after_update] listener writes: one for each product of
    the list that is still there, with its id and its name. *)
Lemma disparar_filas ids s :
  ∃ A, disparar_after_update ids s =
         (Normal tt, con_actual s (con_auditorias (actual s)
                                     (auditorias (actual s) ++ A)))
       ∧ Forall2 fila_update A (omap (λ id, productos (actual s) !! id) ids).
Proof.
  revert s. induction ids as [|id ids IH]; intros s; simpl.
  - exists []. split; [|constructor].
    rewrite app_nil_r. destruct s as [c [ps vs dv au] su fa ah]. reflexivity.
  - unfold ligar at 1. simpl.
    destruct (productos (actual s) !! id) as [target|]; simpl.
    + unfold ligar at 1. simpl.
      match goal with |- context [disparar_after_update ids ?s1] =>
        destruct (IH s1) as (A & -> & HA) end.
      simpl. eexists (_ :: A). split.
      * rewrite <- app_assoc. reflexivity.
      * constructor; [repeat split | exact HA].
    + unfold ligar at 1. simpl. apply IH.
Qed.

(** A flush and a commit that go through, with the rows of the listener. *)
Lemma session_flush_filas s :
  sin_fallos s →
  ∃ A s', session_flush s = (Normal tt, s') ∧ sin_fallos s'
    ∧ actual s' = con_auditorias (actual s) (auditorias (actual s) ++ A)
    ∧ confirmado s' = confirmado s ∧ ahora s' = ahora s ∧ sucios s' = []
    ∧ Forall2 fila_update A
        (omap (λ id, productos (actual s) !! id) (sucios s)).
Proof.
  intros Hs. destruct (persistencia_normal s Hs) as [s1 Hp].
  pose proof (persistencia_sin_fallos _ _ _ Hp Hs) as Hs1.
  pose proof (persistencia_solo_fallos _ _ _ Hp) as (Hc1 & Hb1 & Hsu1 & Ha1).
  unfold session_flush. rewrite (ligar_paso _ _ _ _ _ Hp).
  unfold ligar at 1. simpl. unfold ligar at 1. simpl.
  match goal with |- context [disparar_after_update ?ids ?s2] =>
    destruct (disparar_filas ids s2) as (A & HA & HF) end.
  rewrite HA. simpl in *. exists A. eexists. split; [reflexivity|]. simpl.
  rewrite Hb1, Hsu1 in HF. rewrite Hb1. repeat split; assumption.
Qed.

Lemma session_commit_filas s :
  sin_fallos s →
  ∃ A s', session_commit s = (Normal tt, s') ∧ sin_fallos s'
    ∧ actual s' = con_auditorias (actual s) (auditorias (actual s) ++ A)
    ∧ confirmado s' = actual s' ∧ ahora s' = ahora s
    ∧ Forall2 fila_update A
        (omap (λ id, productos (actual s) !! id) (sucios s)).
Proof.
  intros Hs.
  destruct (session_flush_filas s Hs)
    as (A & s1 & Hf & Hs1 & Hb1 & Hc1 & Ha1 & _ & HF).
  destruct (persistencia_normal s1 Hs1) as [s2 Hp].
  pose proof (persistencia_sin_fallos _ _ _ Hp Hs1) as Hs2.
  pose proof (persistencia_solo_fallos _ _ _ Hp) as (Hc2 & Hb2 & _ & Ha2).
  unfold session_commit.
  rewrite (ligar_paso _ _ _ _ _ Hf), (ligar_paso _ _ _ _ _ Hp).
  exists A. eexists. split; [reflexivity|]. simpl.
  rewrite Hb2, Hb1, Ha2, Ha1. repeat split; assumption.
Qed.

Section Catalogo.
Context {F : Type} `{Flotante F}.
Variable str_float : F → string.

Lemma commit_y_ret_lanza {A} (r : A) :
  lanza_sin_confirmar (session_commit ;; ret r).
Proof. apply (lanza_ligar_ret session_commit (λ _, r)), session_commit_lanza. Qed.

(** *** [editar_producto] *)

Lemma editar_producto_casos id n d (x : F) st s o s' :
  editar_producto id n d x st s = (o, s') →
  (o = Normal NoEncontrado404 ∧ productos (actual s) !! id = None
   ∧ solo_fallos s s')
  ∨ (∃ p A,
       o = Normal (Redirige "Producto actualizado correctamente" "success"
                            a_ver_productos)
       ∧ productos (actual s) !! id = Some p
       ∧ actual s'
         = con_auditorias
             (con_productos (actual s)
                (<[id := mkProducto (id_producto p) n d (a_numeric x) st]>
                   (productos (actual s))))
             (auditorias (actual s) ++ A)
       ∧ Forall es_de_producto A
       ∧ confirmado s' = actual s')
  ∨ (o = Normal ErrorInterno500 ∧ confirmado s' = confirmado s
     ∧ actual s' = confirmado s).
Proof.
  unfold editar_producto. intros He.
  apply despachar_casos in He
    as [(r & Hm & ->) | (e & s1 & Hm & -> & Hc & Hb)].
  - apply ligar_normal in Hm as (p & s1 & Hq & Hm).
    pose proof (query_get_solo_fallos _ _ _ _ Hq) as Hf.
    apply query_get_valor in Hq. destruct p as [p|].
    + right; left.
      apply ligar_normal in Hm as ([] & s2 & Hu & Hm). injection Hu as <-.
      apply ligar_normal in Hm as ([] & s3 & Hcm & Hm). injection Hm as <- <-.
      apply session_commit_normal in Hcm as (A & HA & HP & Hc).
      destruct Hf as (_ & Hb1 & _). simpl in HA. rewrite Hb1 in HA.
      exists p, A. rewrite (alter_es_insert _ _ _ p) in HA by congruence.
      repeat split; try assumption. congruence.
    + left. injection Hm as <- <-. auto.
  - right; right. split; [reflexivity|].
    assert (mismo_confirmado s s1) as [Hc1 _]; [|rewrite Hb, Hc, Hc1; auto].
    match type of Hm with ?m s = _ =>
      assert (lanza_sin_confirmar m) as Hl; [|exact (Hl _ _ _ Hm)] end.
    apply lanza_ligar; [eauto with marco | intros [p|]].
    + apply lanza_ligar; [eauto with marco | intros _].
      apply commit_y_ret_lanza.
    + intros s0 e0 s0' Hs0. discriminate Hs0.
Qed.

(** X11. Editing a product that exists, when no persistence fault occurs
    and the session holds no earlier change: the row under that key gets
    the name, description, price and stock of the form and keeps its id,
    no other product, sale or line item changes, and the audit log gains
    one row of action "UPDATE" for the product with its new name. *)
Theorem editar_producto_actualiza id n d (x : F) st s p :
  sin_fallos s → sucios s = [] →
  productos (actual s) !! id = Some p →
  ∃ s' a,
    editar_producto id n d x st s
    = (Normal (Redirige "Producto actualizado correctamente" "success"
                        a_ver_productos), s')
    ∧ productos (confirmado s')
      = <[id := mkProducto (id_producto p) n d (a_numeric x) st]>
          (productos (actual s))
    ∧ ventas (confirmado s') = ventas (actual s)
    ∧ detalles (confirmado s') = detalles (actual s)
    ∧ auditorias (confirmado s') = auditorias (actual s) ++ [a]
    ∧ fila_update a (mkProducto (id_producto p) n d (a_numeric x) st).
Proof.
  intros Hs Hsu Hp.
  destruct (query_get_normal id s Hs) as [s1 Hq].
  pose proof (query_get_sin_fallos _ _ _ _ Hq Hs) as Hs1.
  pose proof (query_get_solo_fallos _ _ _ _ Hq) as (Hc1 & Hb1 & Hsu1 & _).
  unfold editar_producto, despachar, try_except.
  rewrite (ligar_paso _ _ _ _ _ Hq), Hp.
  unfold ligar at 1. simpl.
  match goal with |- context [ligar session_commit _ ?s2] =>
    destruct (session_commit_filas s2 Hs1)
      as (A & s3 & Hcm & _ & HA & Hc3 & _ & HF) end.
  rewrite (ligar_paso _ _ _ _ _ Hcm). simpl in HA, HF.
  rewrite Hsu1, Hsu, Hb1 in HF. simpl in HF.
  rewrite lookup_alter, decide_True, Hp in HF by reflexivity. simpl in HF.
  apply Forall2_cons_inv_r in HF as (a & A' & Ha & HA' & ->).
  apply Forall2_nil_inv_r in HA' as ->.
  exists s3, a. split; [reflexivity|].
  rewrite Hc3, HA, Hb1, (alter_es_insert _ _ _ p Hp). simpl.
  repeat split; apply Ha.
Qed.

(** X12. Editing a product that does not exist changes nothing: the
    answer is the 404 page, or the 500 page when the lookup itself
    fails, and the committed state is what it was. *)
Theorem editar_producto_inexistente id n d (x : F) st s o s' :
  productos (actual s) !! id = None →
  editar_producto id n d x st s = (o, s') →
  (o = Normal NoEncontrado404 ∨ o = Normal ErrorInterno500)
  ∧ confirmado s' = confirmado s.
Proof.
  intros Hp He.
  apply editar_producto_casos in He
    as [(-> & _ & Hc & _) | [(p & A & _ & Hp' & _) | (-> & Hc & _)]];
    [auto | congruence | auto].
Qed.

(** *** [nuevo_producto] *)

Lemma commit_insert_lanza (q : Producto) (x : F) :
  lanza_sin_confirmar (session_commit_insert str_float q x).
Proof.
  unfold session_commit_insert, auditoria_producto_insert.
  apply lanza_ligar; [eauto with marco | intros _].
  apply lanza_ligar; [eauto with marco | intros _].
  apply session_commit_lanza.
Qed.

Lemma commit_delete_lanza (q : Producto) :
  lanza_sin_confirmar (session_commit_delete q).
Proof.
  unfold session_commit_delete, auditoria_producto_delete.
  apply lanza_ligar; [eauto with marco | intros _].
  apply lanza_ligar; [eauto with marco | intros _].
  apply session_commit_lanza.
Qed.

(** A commit with one new or one deleted product that goes through
    leaves exactly the row of the listener in the audit log. *)
Lemma commit_insert_ok (q : Producto) (x : F) s :
  sin_fallos s → sucios s = [] →
  ∃ s' a,
    session_commit_insert str_float q x s = (Normal tt, s')
    ∧ actual s' = con_auditorias (actual s) (auditorias (actual s) ++ [a])
    ∧ confirmado s' = actual s'
    ∧ tabla a = "Producto" ∧ accion a = "INSERT"
    ∧ id_registro a = id_producto q
    ∧ datos a = "Producto: " +:+ nombre_producto q +:+ ", Precio: "
                +:+ str_float x +:+ ", Stock: " +:+ pretty (stock q).
Proof.
  intros Hs Hsu. destruct (persistencia_normal s Hs) as [s1 Hp].
  pose proof (persistencia_sin_fallos _ _ _ Hp Hs) as Hs1.
  pose proof (persistencia_solo_fallos _ _ _ Hp) as (_ & Hb1 & Hsu1 & _).
  unfold session_commit_insert. rewrite (ligar_paso _ _ _ _ _ Hp).
  unfold ligar at 1. simpl.
  match goal with |- context [session_commit ?s2] =>
    destruct (session_commit_filas s2 Hs1)
      as (A & s3 & Hcm & _ & HA & Hc3 & _ & HF) end.
  rewrite Hcm. simpl in HA, HF. rewrite Hsu1, Hsu in HF.
  apply Forall2_nil_inv_r in HF as ->.
  eexists s3, _. split; [reflexivity|].
  rewrite Hc3, HA, Hb1, app_nil_r. repeat split.
Qed.

Lemma commit_delete_ok (q : Producto) s :
  sin_fallos s → sucios s = [] →
  ∃ s' a,
    session_commit_delete q s = (Normal tt, s')
    ∧ actual s' = con_auditorias (actual s) (auditorias (actual s) ++ [a])
    ∧ confirmado s' = actual s'
    ∧ tabla a = "Producto" ∧ accion a = "DELETE"
    ∧ id_registro a = id_producto q
    ∧ datos a = "Producto eliminado: " +:+ nombre_producto q.
Proof.
  intros Hs Hsu. destruct (persistencia_normal s Hs) as [s1 Hp].
  pose proof (persistencia_sin_fallos _ _ _ Hp Hs) as Hs1.
  pose proof (persistencia_solo_fallos _ _ _ Hp) as (_ & Hb1 & Hsu1 & _).
  unfold session_commit_delete. rewrite (ligar_paso _ _ _ _ _ Hp).
  unfold ligar at 1. simpl.
  match goal with |- context [session_commit ?s2] =>
    destruct (session_commit_filas s2 Hs1)
      as (A & s3 & Hcm & _ & HA & Hc3 & _ & HF) end.
  rewrite Hcm. simpl in HA, HF. rewrite Hsu1, Hsu in HF.
  apply Forall2_nil_inv_r in HF as ->.
  eexists s3, _. split; [reflexivity|].
  rewrite Hc3, HA, Hb1, app_nil_r. repeat split.
Qed.

Lemma nuevo_producto_casos n d (x : F) st s o s' :
  nuevo_producto str_float n d x st s = (o, s') →
  (∃ A,
     o = Normal (Redirige "Producto registrado exitosamente" "success"
                          a_ver_productos)
     ∧ actual s'
       = con_auditorias
           (con_productos (actual s)
              (<[nuevo_id (claves (productos (actual s))) :=
                   mkProducto (nuevo_id (claves (productos (actual s))))
                              n d (a_numeric x) st]>
                 (productos (actual s))))
           (auditorias (actual s) ++ A)
     ∧ confirmado s' = actual s')
  ∨ (o = Normal ErrorInterno500 ∧ confirmado s' = confirmado s
     ∧ actual s' = confirmado s).
Proof.
  unfold nuevo_producto. intros He.
  apply despachar_casos in He
    as [(r & Hm & ->) | (e & s1 & Hm & -> & Hc & Hb)].
  - left. apply ligar_normal in Hm as (q & s1 & Hq & Hm).
    injection Hq as <- <-.
    apply ligar_normal in Hm as ([] & s2 & Hci & Hm). injection Hm as <- <-.
    unfold session_commit_insert in Hci.
    apply ligar_normal in Hci as ([] & s3 & Hp & Hci).
    apply persistencia_solo_fallos in Hp as (_ & Hb3 & _ & Ha3).
    apply ligar_normal in Hci as ([] & s4 & Hau & Hci).
    injection Hau as <-.
    apply session_commit_normal in Hci as (A & HA & _ & Hc).
    simpl in HA. rewrite Hb3 in HA. simpl in HA.
    eexists (_ :: A). split; [reflexivity|]. split; [|exact Hc].
    rewrite HA, <- app_assoc. reflexivity.
  - right. split; [reflexivity|].
    assert (mismo_confirmado s s1) as [Hc1 _]; [|rewrite Hb, Hc, Hc1; auto].
    match type of Hm with ?m s = _ =>
      assert (lanza_sin_confirmar m) as Hl; [|exact (Hl _ _ _ Hm)] end.
    apply lanza_ligar; [eauto with marco | intros q].
    apply (lanza_ligar_ret (session_commit_insert str_float q x) (λ _, _)).
    apply commit_insert_lanza.
Qed.

(** X13. Registering a product, when no persistence fault occurs and the
    session holds no earlier change: the product is stored under a key
    that was free, with the fields of the form, every other product, sale
    and line item stays as it was, and the audit log gains one row of
    action "INSERT" that gives the name, the price as the float prints
    and the stock. *)
Theorem nuevo_producto_registra n d (x : F) st s :
  sin_fallos s → sucios s = [] →
  let k := nuevo_id (claves (productos (actual s))) in
  ∃ s' a,
    nuevo_producto str_float n d x st s
    = (Normal (Redirige "Producto registrado exitosamente" "success"
                        a_ver_productos), s')
    ∧ productos (actual s) !! k = None
    ∧ productos (confirmado s')
      = <[k := mkProducto k n d (a_numeric x) st]> (productos (actual s))
    ∧ ventas (confirmado s') = ventas (actual s)
    ∧ detalles (confirmado s') = detalles (actual s)
    ∧ auditorias (confirmado s') = auditorias (actual s) ++ [a]
    ∧ tabla a = "Producto" ∧ accion a = "INSERT" ∧ id_registro a = k
    ∧ datos a = "Producto: " +:+ n +:+ ", Precio: " +:+ str_float x
                +:+ ", Stock: " +:+ pretty st.
Proof.
  intros Hs Hsu k.
  unfold nuevo_producto, despachar, try_except.
  unfold ligar at 1. simpl.
  match goal with |- context [session_commit_insert _ ?q _] =>
    match goal with |- context [ligar _ _ ?s1] =>
      destruct (commit_insert_ok q x s1 Hs Hsu)
        as (s2 & a & Hci & Hb2 & Hc2 & Ha) end end.
  rewrite (ligar_paso _ _ _ _ _ Hci).
  exists s2, a. split; [reflexivity|].
  split; [apply nuevo_id_libre|].
  rewrite Hc2, Hb2. simpl. repeat split; apply Ha.
Qed.

(** *** [eliminar_producto] *)

Lemma eliminar_producto_casos id s o s' :
  eliminar_producto id s = (o, s') →
  (o = Normal NoEncontrado404 ∧ productos (actual s) !! id = None
   ∧ solo_fallos s s')
  ∨ (∃ p,
       o = Normal (Redirige
                     "No se puede eliminar. El producto tiene ventas registradas"
                     "danger" a_ver_productos)
       ∧ productos (actual s) !! id = Some p
       ∧ filter (λ d, dv_id_producto d = id_producto p) (detalles (actual s))
         ≠ []
       ∧ solo_fallos s s')
  ∨ (∃ p A,
       o = Normal (Redirige "Producto eliminado correctamente" "success"
                            a_ver_productos)
       ∧ productos (actual s) !! id = Some p
       ∧ filter (λ d, dv_id_producto d = id_producto p) (detalles (actual s))
         = []
       ∧ actual s'
         = con_auditorias
             (con_productos (actual s) (delete id (productos (actual s))))
             (auditorias (actual s) ++ A)
       ∧ confirmado s' = actual s')
  ∨ (o = Normal ErrorInterno500 ∧ confirmado s' = confirmado s
     ∧ actual s' = confirmado s).
Proof.
  unfold eliminar_producto. intros He.
  apply despachar_casos in He
    as [(r & Hm & ->) | (e & s1 & Hm & -> & Hc & Hb)].
  - apply ligar_normal in Hm as (p & s1 & Hq & Hm).
    pose proof (query_get_solo_fallos _ _ _ _ Hq) as Hf1.
    apply query_get_valor in Hq. destruct p as [p|].
    + apply ligar_normal in Hm as (cuenta & s2 & Hn & Hm).
      pose proof (contar_detalles_solo_fallos _ _ _ _ Hn) as Hf2.
      apply contar_detalles_valor in Hn.
      assert (solo_fallos s s2) as Hf by (eapply solo_fallos_trans; eassumption).
      destruct Hf1 as (_ & Hb1 & _). rewrite Hb1 in Hn.
      case_decide as Hpos.
      * right; left. injection Hm as <- <-. exists p.
        repeat split; try apply Hf; [congruence|].
        intros Hnil. rewrite Hnil in Hn. simpl in Hn. lia.
      * right; right; left.
        apply ligar_normal in Hm as ([] & s3 & Hd & Hm). injection Hd as <-.
        apply ligar_normal in Hm as ([] & s4 & Hcd & Hm).
        injection Hm as <- <-.
        unfold session_commit_delete in Hcd.
        apply ligar_normal in Hcd as ([] & s5 & Hp & Hcd).
        apply persistencia_solo_fallos in Hp as (_ & Hb5 & _).
        apply ligar_normal in Hcd as ([] & s6 & Hau & Hcd).
        injection Hau as <-.
        apply session_commit_normal in Hcd as (A & HA & _ & Hc).
        simpl in HA. rewrite Hb5 in HA. simpl in HA.
        destruct Hf as (_ & Hb2 & _). rewrite Hb2 in HA.
        exists p. eexists (_ :: A).
        split; [reflexivity|]. split; [congruence|].
        split; [apply length_zero_iff_nil; lia|]. split; [|exact Hc].
        rewrite HA, <- app_assoc. reflexivity.
    + left. injection Hm as <- <-. auto.
  - right; right; right. split; [reflexivity|].
    assert (mismo_confirmado s s1) as [Hc1 _]; [|rewrite Hb, Hc, Hc1; auto].
    match type of Hm with ?m s = _ =>
      assert (lanza_sin_confirmar m) as Hl; [|exact (Hl _ _ _ Hm)] end.
    apply lanza_ligar; [eauto with marco | intros [p|]].
    + apply lanza_ligar; [eauto with marco | intros cuenta].
      case_decide; [intros s0 e0 s0' Hs0; discriminate Hs0|].
      apply lanza_ligar; [eauto with marco | intros _].
      apply (lanza_ligar_ret (session_commit_delete p) (λ _, _)).
      apply commit_delete_lanza.
    + intros s0 e0 s0' Hs0. discriminate Hs0.
Qed.

(** X14. A product that appears on a line item is never deleted: on a
    session without uncommitted changes, whatever the persistence layer
    does, [eliminar_producto] answers with the refusal or with the 500
    page and leaves the committed database as it was. *)
Theorem eliminar_producto_con_ventas id s p d o s' :
  sesion_limpia s →
  productos (actual s) !! id = Some p →
  d ∈ detalles (actual s) → dv_id_producto d = id_producto p →
  eliminar_producto id s = (o, s') →
  (o = Normal (Redirige
                 "No se puede eliminar. El producto tiene ventas registradas"
                 "danger" a_ver_productos)
   ∨ o = Normal ErrorInterno500)
  ∧ confirmado s' = confirmado s.
Proof.
  intros Hl Hp Hd Hid He.
  apply eliminar_producto_casos in He
    as [(_ & Hn & _) | [(p' & -> & _ & _ & Hc & _)
       | [(p' & A & _ & Hp' & Hnil & _) | (-> & Hc & _)]]];
    [congruence | auto | | auto].
  exfalso. rewrite Hp in Hp'. injection Hp' as <-.
  assert (d ∈ filter (λ d, dv_id_producto d = id_producto p)
                     (detalles (actual s))) as Hin
    by (apply list_elem_of_filter; auto).
  rewrite Hnil in Hin. apply elem_of_nil in Hin. exact Hin.
Qed.

(** X15. Deleting a product that is on no line item, when no persistence
    fault occurs and the session holds no earlier change: the product is
    gone, every other product, sale and line item stays as it was, and
    the audit log gains one row of action "DELETE" with its id and
    name. *)
Theorem eliminar_producto_sin_ventas id s p :
  sin_fallos s → sucios s = [] →
  productos (actual s) !! id = Some p →
  (∀ d, d ∈ detalles (actual s) → dv_id_producto d ≠ id_producto p) →
  ∃ s' a,
    eliminar_producto id s
    = (Normal (Redirige "Producto eliminado correctamente" "success"
                        a_ver_productos), s')
    ∧ productos (confirmado s') = delete id (productos (actual s))
    ∧ ventas (confirmado s') = ventas (actual s)
    ∧ detalles (confirmado s') = detalles (actual s)
    ∧ auditorias (confirmado s') = auditorias (actual s) ++ [a]
    ∧ tabla a = "Producto" ∧ accion a = "DELETE"
    ∧ id_registro a = id_producto p
    ∧ datos a = "Producto eliminado: " +:+ nombre_producto p.
Proof.
  intros Hs Hsu Hp Hno.
  destruct (query_get_normal id s Hs) as [s1 Hq].
  pose proof (query_get_sin_fallos _ _ _ _ Hq Hs) as Hs1.
  pose proof (query_get_solo_fallos _ _ _ _ Hq) as (_ & Hb1 & Hsu1 & _).
  destruct (contar_detalles_normal (id_producto p) s1 Hs1)
    as (s2 & Hn & Hs2 & _ & Hb2 & Hsu2 & _).
  unfold eliminar_producto, despachar, try_except.
  rewrite (ligar_paso _ _ _ _ _ Hq), Hp, (ligar_paso _ _ _ _ _ Hn).
  assert (filter (λ d, dv_id_producto d = id_producto p)
                 (detalles (actual s1)) = []) as ->.
  { rewrite Hb1. apply filter_vacio. exact Hno. }
  rewrite decide_False by (simpl; lia).
  unfold ligar at 1. simpl.
  match goal with |- context [ligar _ _ ?s3] =>
    destruct (commit_delete_ok p s3 Hs2) as (s4 & a & Hcd & Hb4 & Hc4 & Ha);
      [simpl; congruence|] end.
  rewrite (ligar_paso _ _ _ _ _ Hcd).
  exists s4, a. split; [reflexivity|].
  rewrite Hc4, Hb4. simpl. rewrite Hb2, Hb1. repeat split; apply Ha.
Qed.

End Catalogo.

(** ** Access control on the routes *)

Section Acceso.
Context {F : Type} `{Flotante F}.
Variable str_float : F → string.

Lemma protegida_sin_permiso {A} accion u (f : Usuario → Op A) s :
  ¬ Permisos.tabla_fija (rol u) accion →
  protegida accion (Some u) f s
  = (Normal (RedirigeIndex ("No tiene permisos para: " +:+ accion) "danger"),
     s).
Proof.
  intros Hno. unfold protegida, login_required, requiere_permiso.
  destruct (Permisos.tiene_permiso (rol u) accion) eqn:Hp; [|reflexivity].
  apply tiene_permiso_tabla in Hp. contradiction.
Qed.

(** X16. Only an administrator reaches the handlers that create, edit
    or delete a product: for a logged-in user of any other role the three
    routes answer with the redirect to the index and the message "No
    tiene permisos para: ...", and the session is untouched. *)
Theorem productos_solo_admin u id n d (x : F) st s :
  rol u ≠ "admin" →
  ruta_nuevo_producto str_float (Some u) n d x st s
  = (Normal (RedirigeIndex "No tiene permisos para: crear" "danger"), s)
  ∧ ruta_editar_producto (Some u) id n d x st s
    = (Normal (RedirigeIndex "No tiene permisos para: actualizar" "danger"), s)
  ∧ ruta_eliminar_producto (Some u) id s
    = (Normal (RedirigeIndex "No tiene permisos para: eliminar" "danger"), s).
Proof.
  intros Hrol.
  unfold ruta_nuevo_producto, ruta_editar_producto, ruta_eliminar_producto.
  rewrite !protegida_sin_permiso; [auto | | |];
    unfold Permisos.tabla_fija;
    intros [[Hr _] | [[_ Hin] | [_ Hin]]]; try contradiction;
    repeat (apply elem_of_cons in Hin as [Hin|Hin]; [discriminate Hin|]);
    apply elem_of_nil in Hin; exact Hin.
Qed.

(** X17. Only an administrator or a seller reaches [nueva_venta]: for a
    logged-in user of any other role the route answers with the redirect
    to the index and leaves the session untouched, so no sale, line item,
    stock change or audit row comes of it. *)
Theorem ventas_solo_admin_y_vendedor u c f ids cs s :
  rol u ≠ "admin" → rol u ≠ "vendedor" →
  ruta_nueva_venta (Some u) c f ids cs s
  = (Normal (RedirigeIndex "No tiene permisos para: ventas" "danger"), s).
Proof.
  intros Ha Hv. unfold ruta_nueva_venta.
  apply protegida_sin_permiso. unfold Permisos.tabla_fija.
  intros [[Hr _] | [[Hr _] | [_ Hin]]]; try contradiction.
  repeat (apply elem_of_cons in Hin as [Hin|Hin]; [discriminate Hin|]).
  apply elem_of_nil in Hin. exact Hin.
Qed.

(** X18. A protected view answers with its own page only for a logged-in
    user whose role has the permission in the table, and then it is the
    page the handler gives for that user. The message "Debe iniciar
    sesión" of [requiere_permiso] is never shown: the anonymous visitor
    is stopped before, by [login_required]. *)
Theorem protegida_solo_con_permiso {A} accion current_user
    (f : Usuario → Op A) s o s' :
  protegida accion current_user f s = (o, s') →
  o ≠ Normal (RedirigeLogin "Debe iniciar sesión" "warning")
  ∧ ∀ r, o = Normal (Pagina r) →
         ∃ u, current_user = Some u ∧ Permisos.tabla_fija (rol u) accion
              ∧ f u s = (Normal r, s').
Proof.
  unfold protegida, login_required, requiere_permiso.
  destruct current_user as [u|]; [|intros [= <- <-]; split; [|intros r]; discriminate].
  destruct (Permisos.tiene_permiso (rol u) accion) eqn:Hp;
    [|intros [= <- <-]; split; [|intros r]; discriminate].
  apply tiene_permiso_tabla in Hp. unfold ligar.
  destruct (f u s) as [[r0|e] s0] eqn:Hf; intros [= <- <-];
    (split; [discriminate|]); intros r [= <-].
  exists u. repeat split; assumption.
Qed.

End Acceso.

(** ** Authentication *)

Section Autenticacion.
Variable check_password_hash : string → string → bool.
Variable usuarios : list Usuario.

Lemma usuario_por_username_solo_fallos n :
  respeta solo_fallos (usuario_por_username usuarios n).
Proof. unfold usuario_por_username. marco. Qed.

#[local] Hint Resolve usuario_por_username_solo_fallos : marco.

Lemma usuario_por_username_valor n s o s' :
  usuario_por_username usuarios n s = (Normal o, s') →
  o = snd <$> list_find (λ u, username u = n) usuarios.
Proof.
  intros Hq. apply ligar_normal in Hq as (u & s1 & _ & Hl).
  injection Hl as <- <-. reflexivity.
Qed.

Lemma usuario_por_username_normal n s :
  sin_fallos s →
  ∃ s', usuario_por_username usuarios n s
        = (Normal (snd <$> list_find (λ u, username u = n) usuarios), s')
        ∧ sin_fallos s' ∧ solo_fallos s s'.
Proof.
  intros Hs. destruct (persistencia_normal s Hs) as [s1 Hp].
  exists s1. unfold usuario_por_username.
  rewrite (ligar_paso _ _ _ _ _ Hp). split; [reflexivity|].
  split; [eapply persistencia_sin_fallos; eassumption|].
  eapply persistencia_solo_fallos, Hp.
Qed.

Lemma login_casos nm pw nx s o s' :
  login check_password_hash usuarios None nm pw nx s = (o, s') →
  (o = Normal (Rechazado "Usuario o contraseña incorrectos" "danger")
   ∧ (∀ u, snd <$> list_find (λ u, username u = nm) usuarios = Some u →
           activo u && check_password check_password_hash u pw = false)
   ∧ solo_fallos s s')
  ∨ (∃ u A,
       o = Normal (Bienvenido u ("Bienvenido " +:+ nombre_completo u) nx)
       ∧ snd <$> list_find (λ u, username u = nm) usuarios = Some u
       ∧ activo u = true ∧ check_password check_password_hash u pw = true
       ∧ actual s' = con_auditorias (actual s) (auditorias (actual s) ++ A)
       ∧ confirmado s' = actual s')
  ∨ (o = Normal LoginError500 ∧ confirmado s' = confirmado s
     ∧ actual s' = confirmado s).
Proof.
  unfold login, try_except.
  match goal with |- context [ligar ?m ?k s] =>
    destruct (ligar m k s) as [[r|e] s1] eqn:Hm end.
  - intros [= <- <-].
    apply ligar_normal in Hm as (ou & s2 & Hq & Hm).
    pose proof (usuario_por_username_solo_fallos _ _ _ _ Hq) as Hf.
    apply usuario_por_username_valor in Hq. rewrite <- Hq.
    destruct ou as [u|].
    + destruct (activo u && check_password check_password_hash u pw) eqn:Hok.
      * right; left.
        apply ligar_normal in Hm as ([] & s3 & Hau & Hm). injection Hau as <-.
        apply ligar_normal in Hm as ([] & s4 & Hcm & Hm).
        injection Hm as <- <-.
        apply session_commit_normal in Hcm as (A & HA & _ & Hc).
        destruct Hf as (_ & Hb & _). simpl in HA. rewrite Hb in HA.
        apply andb_true_iff in Hok as [Hact Hchk].
        exists u. eexists (_ :: A). repeat split; try assumption.
        rewrite HA, <- app_assoc. reflexivity.
      * left. injection Hm as <- <-. split; [reflexivity|].
        split; [|exact Hf]. intros u' [= <-]. exact Hok.
    + left. injection Hm as <- <-. split; [reflexivity|].
      split; [|exact Hf]. intros u' Hu'. discriminate Hu'.
  - intros Hi. apply internal_error_normal in Hi as (-> & Hc' & Hb' & _).
    right; right. split; [reflexivity|].
    assert (mismo_confirmado s s1) as [Hc1 _]; [|split; congruence].
    match type of Hm with ?m s = _ =>
      assert (lanza_sin_confirmar m) as Hl; [|exact (Hl _ _ _ Hm)] end.
    apply lanza_ligar; [eauto with marco | intros [u|]].
    + destruct (activo u && check_password check_password_hash u pw).
      * apply lanza_ligar; [eauto with marco | intros _].
        apply commit_y_ret_lanza.
      * intros s0 e0 s0' Hs0. discriminate Hs0.
    + intros s0 e0 s0' Hs0. discriminate Hs0.
Qed.

(** X19. A login attempt is refused, and writes nothing, when the first
    user with that name does not exist, is not active, or the password
    does not match its hash; an inactive user is refused even with the
    right password. The answer is the rejection, with the session as it
    was, or the 500 page after a rollback when the lookup fails. *)
Theorem login_rechazado nm pw nx s o s' :
  (∀ u, snd <$> list_find (λ u, username u = nm) usuarios = Some u →
        activo u = false ∨ check_password check_password_hash u pw = false) →
  login check_password_hash usuarios None nm pw nx s = (o, s') →
  (o = Normal (Rechazado "Usuario o contraseña incorrectos" "danger")
   ∧ actual s' = actual s ∧ confirmado s' = confirmado s)
  ∨ (o = Normal LoginError500 ∧ actual s' = confirmado s
     ∧ confirmado s' = confirmado s).
Proof.
  intros Hno Hl.
  apply login_casos in Hl
    as [(-> & _ & Hc & Hb & _) | [(u & A & _ & Hu & Hact & Hchk & _)
       | (-> & Hc & Hb)]]; [auto | | auto].
  destruct (Hno u Hu); congruence.
Qed.

(** X20. A login with the name of an active user and a password that
    matches its hash, when no persistence fault occurs and the session
    holds no earlier change, welcomes that user and commits exactly one
    audit row: table "Usuario", action "LOGIN", the id of the user and
    its name as author. Nothing else in the database changes. *)
Theorem login_correcto nm pw nx s u :
  sin_fallos s → sucios s = [] →
  snd <$> list_find (λ u, username u = nm) usuarios = Some u →
  activo u = true → check_password check_password_hash u pw = true →
  ∃ s' a,
    login check_password_hash usuarios None nm pw nx s
    = (Normal (Bienvenido u ("Bienvenido " +:+ nombre_completo u) nx), s')
    ∧ auditorias (confirmado s') = auditorias (actual s) ++ [a]
    ∧ tabla a = "Usuario" ∧ accion a = "LOGIN"
    ∧ id_registro a = id_usuario u ∧ usuario_sql a = username u
    ∧ productos (confirmado s') = productos (actual s)
    ∧ ventas (confirmado s') = ventas (actual s)
    ∧ detalles (confirmado s') = detalles (actual s).
Proof.
  intros Hs Hsu Hu Hact Hchk.
  destruct (usuario_por_username_normal nm s Hs)
    as (s1 & Hq & Hs1 & _ & Hb1 & Hsu1 & _).
  unfold login, try_except.
  rewrite (ligar_paso _ _ _ _ _ Hq), Hu, Hact, Hchk. simpl.
  unfold ligar at 1. simpl.
  match goal with |- context [ligar session_commit _ ?s2] =>
    destruct (session_commit_filas s2 Hs1)
      as (A & s3 & Hcm & _ & HA & Hc3 & _ & HF) end.
  rewrite (ligar_paso _ _ _ _ _ Hcm). simpl in HA, HF.
  rewrite Hsu1, Hsu in HF. apply Forall2_nil_inv_r in HF as ->.
  eexists s3, _. split; [reflexivity|].
  rewrite Hc3, HA, Hb1, app_nil_r. simpl. repeat split.
Qed.

Lemma logout_casos u s o s' :
  logout (Some u) s = (o, s') →
  (∃ A, actual s' = con_auditorias (actual s) (auditorias (actual s) ++ A)
        ∧ confirmado s' = actual s')
  ∨ (confirmado s' = confirmado s ∧ actual s' = confirmado s).
Proof.
  unfold logout, login_required, try_except.
  match goal with |- context [ligar ?m ?k s] =>
    destruct (ligar m k s) as [[r|e] s1] eqn:Hm end.
  - intros [= <- <-]. left.
    apply ligar_normal in Hm as ([] & s2 & Hau & Hm). injection Hau as <-.
    apply ligar_normal in Hm as ([] & s3 & Hcm & Hm). injection Hm as <- <-.
    apply session_commit_normal in Hcm as (A & HA & _ & Hc).
    simpl in HA. eexists (_ :: A). split; [|exact Hc].
    rewrite HA, <- app_assoc. reflexivity.
  - intros Hi. apply internal_error_normal in Hi as (_ & Hc' & Hb' & _).
    right.
    assert (mismo_confirmado s s1) as [Hc1 _]; [|split; congruence].
    match type of Hm with ?m s = _ =>
      assert (lanza_sin_confirmar m) as Hl; [|exact (Hl _ _ _ Hm)] end.
    apply lanza_ligar; [eauto with marco | intros _].
    apply commit_y_ret_lanza.
Qed.

End Autenticacion.

(** ** Requests one after the other *)

Section Secuencia.
Context {F : Type} `{Flotante F}.
Variable str_float : F → string.
Variable check_password_hash : string → string → bool.
Variable usuarios : list Usuario.

Lemma paso_refl (b : BD) : paso (F := F) b b.
Proof. left. repeat split. exists []. symmetry. apply app_nil_r. Qed.

(** A request that only read leaves a clean session clean. *)
Lemma paso_sin_cambio s s' :
  sesion_limpia s → confirmado s' = confirmado s →
  actual s' = actual s ∨ actual s' = confirmado s →
  sesion_limpia s' ∧ paso (F := F) (confirmado s) (confirmado s').
Proof.
  unfold sesion_limpia. intros Hl Hc Hb. rewrite Hc.
  split; [destruct Hb; congruence | apply paso_refl].
Qed.

Lemma protegida_corre {A} accion cu (f : Usuario → Op A) s o s' :
  protegida accion cu f s = (o, s') →
  s' = s ∨ ∃ u o', f u s = (o', s').
Proof.
  unfold protegida, login_required, requiere_permiso.
  destruct cu as [u|]; [|intros [= <- <-]; auto].
  destruct (Permisos.tiene_permiso (rol u) accion);
    [|intros [= <- <-]; auto].
  unfold ligar. destruct (f u s) as [[r|e] s0] eqn:Hf; intros [= <- <-];
    right; eauto.
Qed.

Lemma nueva_venta_paso c u f ids cs s o s' :
  sesion_limpia s →
  nueva_venta c u f ids cs s = (o, s') →
  sesion_limpia s' ∧ paso (F := F) (confirmado s) (confirmado s').
Proof.
  intros Hl Hn. unfold nueva_venta in Hn.
  apply despachar_casos in Hn
    as [(r & Hm & ->) | (e & s1 & Hm & -> & Hc & Hb)].
  - apply ligar_normal in Hm as (ds & s1 & Hld & Hm).
    pose proof (leer_detalles_solo_fallos _ _ _ _ _ _ Hld) as (Hc1 & Hb1 & _).
    eapply leer_detalles_vigentes in Hld; [|constructor].
    destruct ds as [|d0 ds0].
    { injection Hm as <- <-. apply paso_sin_cambio; auto. }
    apply ligar_normal in Hm as (res & s2 & Hr & Hm).
    assert (s' = s2) as -> by (case_decide; injection Hm as <- <-; reflexivity).
    clear Hm.
    assert (Hr' := Hr).
    apply registrar_venta_casos in Hr'
      as [(r0 & [= <-] & Hcasos) | (e & [=] & _)].
    destruct Hcasos as [[_ (Hc2 & Hb2 & _)]
                       | [(s1' & _ & _ & Ha) | (_ & Hc2 & Hb2)]].
    + apply paso_sin_cambio; [auto | congruence | left; congruence].
    + apply alta_venta_normal in Ha as (A1 & A2 & Hres & _).
      assert (status res = "success") as Hst by (rewrite Hres; reflexivity).
      destruct (registrar_venta_exito _ _ _ _ _ _ _ Hr Hst)
        as (B1 & B2 & _ & Hc2 & Hval & Hps & Hvs & Hds & Hau & _).
      change (default [] (Some (d0 :: ds0))) with (d0 :: ds0) in *.
      destruct (agregar_detalles_filas
                  (nuevo_id (id_venta <$> ventas (actual s1))) (d0 :: ds0)
                  (detalles (actual s1))) as (nuevas & Hnu & Hfi).
      unfold sesion_limpia in Hl.
      split; [unfold sesion_limpia; congruence|].
      right; right; right; right.
      rewrite Hb1 in Hval, Hps, Hvs, Hds, Hau, Hnu, Hfi.
      rewrite Hl in Hld, Hval, Hps, Hvs, Hds, Hau, Hnu, Hfi.
      rewrite Hc2.
      eexists _, (d0 :: ds0), nuevas, (B1 ++ [_] ++ B2).
      rewrite Hps, Hvs, Hds, Hnu, Hau.
      repeat split; try assumption; reflexivity.
    + apply paso_sin_cambio; [auto | congruence | right; congruence].
  - assert (confirmado s1 = confirmado s) as Hc1.
    { unfold ligar in Hm.
      destruct (leer_detalles ids cs [] s) as [[ds|e0] s0] eqn:Hld.
      - destruct ds as [|d0 ds0]; [discriminate Hm|].
        destruct (registrar_venta c u (Some f) (Some (d0 :: ds0)) s0)
          as [[r0|e0] s2] eqn:Hr0; [case_decide; discriminate Hm|].
        injection Hm as <- <-.
        apply registrar_venta_casos in Hr0 as [(r0 & [=] & _) | (e1 & _ & Hc2)].
        apply leer_detalles_solo_fallos in Hld as (Hc' & _). congruence.
      - injection Hm as <- <-.
        apply leer_detalles_solo_fallos in Hld as (Hc' & _). exact Hc'. }
    apply paso_sin_cambio; [auto | congruence | right; congruence].
Qed.

Lemma editar_producto_paso id n d (x : F) st s o s' :
  sesion_limpia s →
  editar_producto id n d x st s = (o, s') →
  sesion_limpia s' ∧ paso (F := F) (confirmado s) (confirmado s').
Proof.
  intros Hl He.
  apply editar_producto_casos in He
    as [(_ & _ & Hc & Hb & _) | [(p & A & _ & Hp & Hb & _ & Hc)
       | (_ & Hc & Hb)]].
  - apply paso_sin_cambio; auto.
  - unfold sesion_limpia in *. split; [congruence|].
    right; right; left. rewrite Hc, Hb, <- Hl. simpl.
    repeat split; [eauto|].
    exists id, p, (mkProducto (id_producto p) n d (a_numeric x) st), x.
    repeat split. exact Hp.
  - apply paso_sin_cambio; auto.
Qed.

Lemma nuevo_producto_paso n d (x : F) st s o s' :
  sesion_limpia s →
  nuevo_producto str_float n d x st s = (o, s') →
  sesion_limpia s' ∧ paso (F := F) (confirmado s) (confirmado s').
Proof.
  intros Hl He.
  apply nuevo_producto_casos in He as [(A & _ & Hb & Hc) | (_ & Hc & Hb)].
  - unfold sesion_limpia in *. split; [congruence|].
    right; left. rewrite Hc, Hb, <- Hl. simpl.
    repeat split; [eauto|].
    eexists (mkProducto _ n d (a_numeric x) st), x. simpl.
    repeat split. apply nuevo_id_libre.
  - apply paso_sin_cambio; auto.
Qed.

Lemma eliminar_producto_paso id s o s' :
  sesion_limpia s →
  eliminar_producto id s = (o, s') →
  sesion_limpia s' ∧ paso (F := F) (confirmado s) (confirmado s').
Proof.
  intros Hl He.
  apply eliminar_producto_casos in He
    as [(_ & _ & Hc & Hb & _) | [(p & _ & _ & _ & Hc & Hb & _)
       | [(p & A & _ & Hp & Hnil & Hb & Hc) | (_ & Hc & Hb)]]].
  - apply paso_sin_cambio; auto.
  - apply paso_sin_cambio; auto.
  - unfold sesion_limpia in *. split; [congruence|].
    right; right; right; left. rewrite Hc, Hb, <- Hl. simpl.
    repeat split; [eauto|]. exists id, p. repeat split; [exact Hp|].
    intros d0 Hd0 Hid.
    exact (filter_nil_not_elem_of _ _ d0 Hnil Hid Hd0).
  - apply paso_sin_cambio; auto.
Qed.

Lemma login_paso cu nm pw nx s o s' :
  sesion_limpia s →
  login check_password_hash usuarios cu nm pw nx s = (o, s') →
  sesion_limpia s' ∧ paso (F := F) (confirmado s) (confirmado s').
Proof.
  intros Hl He. destruct cu as [u|].
  { injection He as <- <-. apply paso_sin_cambio; auto. }
  apply login_casos in He
    as [(_ & _ & Hc & Hb & _) | [(u & A & _ & _ & _ & _ & Hb & Hc)
       | (_ & Hc & Hb)]].
  - apply paso_sin_cambio; auto.
  - unfold sesion_limpia in *. split; [congruence|].
    left. rewrite Hc, Hb, <- Hl. simpl. repeat split. eauto.
  - apply paso_sin_cambio; auto.
Qed.

Lemma logout_paso cu s o s' :
  sesion_limpia s →
  logout cu s = (o, s') →
  sesion_limpia s' ∧ paso (F := F) (confirmado s) (confirmado s').
Proof.
  intros Hl He. destruct cu as [u|].
  2:{ injection He as <- <-. apply paso_sin_cambio; auto. }
  apply logout_casos in He as [(A & Hb & Hc) | (Hc & Hb)].
  - unfold sesion_limpia in *. split; [congruence|].
    left. rewrite Hc, Hb, <- Hl. simpl. repeat split. eauto.
  - apply paso_sin_cambio; auto.
Qed.

(** Every request leaves a clean session clean and commits one step. *)
Lemma atender_paso t p s :
  sesion_limpia s →
  sesion_limpia (atender str_float check_password_hash usuarios t p s)
  ∧ paso (F := F) (confirmado s)
         (confirmado (atender str_float check_password_hash usuarios t p s)).
Proof.
  intros Hl.
  assert (sesion_limpia (poner_reloj t s)) as Hl' by exact Hl.
  change (confirmado s) with (confirmado (poner_reloj t s)).
  unfold atender. generalize dependent (poner_reloj t s). clear s Hl.
  intros s Hl.
  destruct p as [cu c f ids cs | cu n d x st | cu id n d x st | cu id
                | cu nm pw nx | cu]; simpl.
  - destruct (ruta_nueva_venta cu c f ids cs s) as [o s'] eqn:Hr.
    apply protegida_corre in Hr as [-> | (u & o' & Hr)];
      [apply paso_sin_cambio; auto | eapply nueva_venta_paso; eassumption].
  - destruct (ruta_nuevo_producto str_float cu n d x st s) as [o s'] eqn:Hr.
    apply protegida_corre in Hr as [-> | (u & o' & Hr)];
      [apply paso_sin_cambio; auto | eapply nuevo_producto_paso; eassumption].
  - destruct (ruta_editar_producto cu id n d x st s) as [o s'] eqn:Hr.
    apply protegida_corre in Hr as [-> | (u & o' & Hr)];
      [apply paso_sin_cambio; auto | eapply editar_producto_paso; eassumption].
  - destruct (ruta_eliminar_producto cu id s) as [o s'] eqn:Hr.
    apply protegida_corre in Hr as [-> | (u & o' & Hr)];
      [apply paso_sin_cambio; auto | eapply eliminar_producto_paso; eassumption].
  - destruct (login check_password_hash usuarios cu nm pw nx s)
      as [o s'] eqn:Hr.
    eapply login_paso; eassumption.
  - destruct (logout cu s) as [o s'] eqn:Hr.
    eapply logout_paso; eassumption.
Qed.

Lemma Forall2_elem_l {A B} (P : A → B → Prop) l k x :
  Forall2 P l k → x ∈ l → ∃ y, y ∈ k ∧ P x y.
Proof.
  induction 1 as [|a b l k Hab _ IH]; intros Hx.
  - apply elem_of_nil in Hx. contradiction.
  - apply elem_of_cons in Hx as [->|Hx].
    + exists b. split; [left | exact Hab].
    + destruct (IH Hx) as (y & Hy & HP). exists y. split; [right|]; assumption.
Qed.

Lemma filter_todo {A} (P : A → Prop) `{∀ x, Decision (P x)} (l : list A) :
  (∀ x, x ∈ l → P x) → filter P l = l.
Proof.
  induction l as [|x l IH]; intros Hsi; [reflexivity|].
  rewrite filter_cons_True by (apply Hsi; left).
  f_equal. apply IH. intros y Hy. apply Hsi. right. exact Hy.
Qed.

(** One step never rewrites history: sales, line items and audit rows
    are only added, after the ones that were there. *)
Lemma paso_prefijos (b b' : BD) :
  paso (F := F) b b' →
  ventas b `prefix_of` ventas b' ∧ detalles b `prefix_of` detalles b'
  ∧ auditorias b `prefix_of` auditorias b'.
Proof.
  intros [(_ & Hv & Hd & A & Ha)
         | [(Hv & Hd & (A & Ha) & _)
         | [(Hv & Hd & (A & Ha) & _)
         | [(Hv & Hd & (A & Ha) & _)
         | (v & ds & nuevas & A & _ & _ & _ & Hv & _ & _ & Hd & _ & Ha)]]]];
    rewrite Hv, Hd, Ha; repeat split;
    try reflexivity; apply prefix_app_r; reflexivity.
Qed.

Lemma paso_coherente (b b' : BD) :
  paso (F := F) b b' → bd_coherente b → bd_coherente b'.
Proof.
  intros Hpaso (Hk & Hfv & Hfp & Hq).
  destruct Hpaso as [(Hp & Hv & Hd & _)
         | [(Hv & Hd & _ & q & x & Hnone & _ & Hp)
         | [(Hv & Hd & _ & id & p & q & x & Hsome & Hid & _ & Hp)
         | [(Hv & Hd & _ & id & p & Hsome & Hno & Hp)
         | (v & ds & nuevas & A & Hvig & Hval & Hp & Hv & Hidv & _ & Hd
            & Hfi & _)]]]].
  - unfold bd_coherente. rewrite Hp, Hv, Hd. auto.
  - unfold bd_coherente. rewrite Hp, Hv, Hd. repeat split; try assumption.
    + intros k p. rewrite lookup_insert. case_decide; [|apply Hk].
      intros [= <-]. congruence.
    + intros d0 Hd0. rewrite lookup_insert. case_decide; [eauto|].
      apply Hfp, Hd0.
  - unfold bd_coherente. rewrite Hp, Hv, Hd. repeat split; try assumption.
    + intros k p0. rewrite lookup_insert. case_decide; [|apply Hk].
      intros [= <-]. rewrite Hid. subst k. apply Hk, Hsome.
    + intros d0 Hd0. rewrite lookup_insert. case_decide; [eauto|].
      apply Hfp, Hd0.
  - unfold bd_coherente. rewrite Hp, Hv, Hd. repeat split; try assumption.
    + intros k p0 Hp0. apply lookup_delete_Some in Hp0 as [_ Hp0].
      apply Hk, Hp0.
    + intros d0 Hd0. rewrite lookup_delete_ne; [apply Hfp, Hd0|].
      rewrite <- (Hk _ _ Hsome). intros Heq. apply (Hno d0 Hd0).
      symmetry. exact Heq.
  - unfold bd_coherente. rewrite Hp, Hv, Hd. repeat split.
    + intros k p0. rewrite descontar_lookup.
      destruct (productos b !! k) as [p|] eqn:Hpk; [|discriminate].
      intros [= <-]. simpl. apply Hk, Hpk.
    + intros d0 Hd0. rewrite fmap_app. apply elem_of_app.
      apply elem_of_app in Hd0 as [Hd0|Hd0]; [left; apply Hfv, Hd0|].
      right. destruct (Forall2_elem_l _ _ _ _ Hfi Hd0) as (y & _ & -> & _).
      simpl. left.
    + intros d0 Hd0. rewrite descontar_lookup, fmap_is_Some.
      apply elem_of_app in Hd0 as [Hd0|Hd0]; [apply Hfp, Hd0|].
      destruct (Forall2_elem_l _ _ _ _ Hfi Hd0) as (y & Hy & _ & -> & _).
      unfold lineas_validas in Hval. rewrite Forall_forall in Hval.
      destruct (Hval y Hy) as (p & -> & _). eauto.
    + intros d0 Hd0.
      apply elem_of_app in Hd0 as [Hd0|Hd0]; [apply Hq, Hd0|].
      destruct (Forall2_elem_l _ _ _ _ Hfi Hd0) as (y & Hy & _ & _ & -> & _).
      rewrite Forall_forall in Hvig.
      destruct (Hvig y Hy) as (p & _ & _ & Hpos). exact Hpos.
Qed.

(** The running total over the new rows of a sale is the total of the
    request, when the prices of the request survive the column. *)
Lemma suma_nuevas idv (nuevas : list DetalleVenta) (ds : list (Detalle F))
    t0 :
  Forall2 (fila_de idv) nuevas ds →
  Forall (λ d, f_decimal (a_numeric (d_precio d)) = d_precio d) ds →
  foldl (λ t r, f_mas t (subtotal r)) t0 nuevas
  = foldl (λ t d, f_mas t (subtotal_linea d)) t0 ds.
Proof.
  intros Hfi. revert t0.
  induction Hfi as [|fila d nuevas ds (_ & _ & Hc & Hpu) _ IH];
    intros t0 Hrt; [reflexivity|].
  apply Forall_cons in Hrt as [Hd Hrt]. simpl.
  rewrite <- IH by exact Hrt. do 2 f_equal.
  unfold subtotal, subtotal_linea. rewrite Hc, Hpu, Hd. reflexivity.
Qed.

Lemma paso_totales (b b' : BD) :
  numeric_estable (F := F) →
  paso (F := F) b b' → bd_coherente b →
  precios_estables (F := F) b → totales_coherentes (F := F) b →
  precios_estables (F := F) b' ∧ totales_coherentes (F := F) b'.
Proof.
  intros Hne Hpaso (Hk & Hfv & Hfp & Hq) Hpe Htc.
  assert (∀ b1 : BD, ventas b1 = ventas b → detalles b1 = detalles b →
                     totales_coherentes (F := F) b1) as Hmismo.
  { intros b1 Hv Hd v Hin. unfold detalles_de. rewrite Hd.
    apply Htc. rewrite <- Hv. exact Hin. }
  destruct Hpaso as [(Hp & Hv & Hd & _)
         | [(Hv & Hd & _ & q & x & Hnone & Hx & Hp)
         | [(Hv & Hd & _ & id & p & q & x & Hsome & Hid & Hx & Hp)
         | [(Hv & Hd & _ & id & p & Hsome & Hno & Hp)
         | (v & ds & nuevas & A & Hvig & Hval & Hp & Hv & Hidv & Htot & Hd
            & Hfi & _)]]]].
  - split; [|apply Hmismo; assumption].
    unfold precios_estables. rewrite Hp. exact Hpe.
  - split; [|apply Hmismo; assumption].
    intros k p0. rewrite Hp, lookup_insert. case_decide; [|apply Hpe].
    intros [= <-]. rewrite Hx. apply Hne.
  - split; [|apply Hmismo; assumption].
    intros k p0. rewrite Hp, lookup_insert. case_decide; [|apply Hpe].
    intros [= <-]. rewrite Hx. apply Hne.
  - split; [|apply Hmismo; assumption].
    intros k p0. rewrite Hp. intros Hp0.
    apply lookup_delete_Some in Hp0 as [_ Hp0]. eapply Hpe, Hp0.
  - split.
    + intros k p0. rewrite Hp, descontar_lookup.
      destruct (productos b !! k) as [p|] eqn:Hpk; [|discriminate].
      intros [= <-]. simpl. eapply Hpe, Hpk.
    + assert (∀ d0, d0 ∈ detalles b → dv_id_venta d0 ≠ id_venta v) as Hviejas.
      { intros d0 Hd0 Heq. apply Hfv in Hd0. rewrite Heq, Hidv in Hd0.
        apply nuevo_id_fresco in Hd0. lia. }
      assert (∀ d0, d0 ∈ nuevas → dv_id_venta d0 = id_venta v) as Hnuevas.
      { intros d0 Hd0.
        destruct (Forall2_elem_l _ _ _ _ Hfi Hd0) as (y & _ & Hy & _).
        exact Hy. }
      intros v0. rewrite Hv. intros Hv0. unfold detalles_de.
      rewrite Hd, filter_app.
      apply elem_of_app in Hv0 as [Hv0|Hv0].
      * rewrite (filter_vacio _ nuevas), app_nil_r; [apply Htc, Hv0|].
        intros d0 Hd0. rewrite (Hnuevas d0 Hd0), Hidv.
        assert (id_venta v0 < nuevo_id (id_venta <$> ventas b)); [|lia].
        apply nuevo_id_fresco, list_elem_of_fmap. eauto.
      * apply list_elem_of_singleton in Hv0 as ->.
        rewrite (filter_vacio _ (detalles b)) by exact Hviejas.
        rewrite (filter_todo _ nuevas) by exact Hnuevas. simpl.
        rewrite Htot. f_equal. unfold suma_subtotales, total_lineas.
        symmetry. apply (suma_nuevas _ _ _ _ Hfi).
        eapply Forall_impl; [exact Hvig|].
        intros d0 (p & Hp0 & -> & _). simpl.
        rewrite (Hpe _ _ Hp0). reflexivity.
Qed.

(** X21. Whatever requests are served, by whomever and with whatever
    faults of the persistence layer, the committed database stays
    coherent: product keys are the ids of their rows, every line item
    belongs to a sale of the table and names a product of the table, and
    every quantity on a line is positive. *)
Theorem atender_todas_coherente ps s :
  sesion_limpia s → bd_coherente (confirmado s) →
  bd_coherente
    (confirmado (atender_todas str_float check_password_hash usuarios ps s)).
Proof.
  revert s. induction ps as [|[t p] ps IH]; intros s Hl Hco; [exact Hco|].
  simpl. destruct (atender_paso t p s Hl) as [Hl' Hpaso].
  apply IH; [exact Hl'|]. eapply paso_coherente; eassumption.
Qed.

(** X22. Whatever requests are served, the committed sales, their line
    items and the audit log only grow: what was recorded is still there,
    unchanged and in the same order, followed by what came after. No
    request modifies a recorded unit price or total, and none removes an
    audit row. *)
Theorem atender_todas_solo_agrega ps s :
  sesion_limpia s →
  let s' := atender_todas str_float check_password_hash usuarios ps s in
  ventas (confirmado s) `prefix_of` ventas (confirmado s')
  ∧ detalles (confirmado s) `prefix_of` detalles (confirmado s')
  ∧ auditorias (confirmado s) `prefix_of` auditorias (confirmado s').
Proof.
  revert s. induction ps as [|[t p] ps IH]; intros s Hl; cbn zeta;
    [repeat split; reflexivity|].
  simpl. destruct (atender_paso t p s Hl) as [Hl' Hpaso].
  apply paso_prefijos in Hpaso as (Hv & Hd & Ha).
  destruct (IH _ Hl') as (Hv' & Hd' & Ha').
  repeat split; etrans; eassumption.
Qed.

(** X23. When a value stored in a [Numeric] column reads back as a float
    and stores again unchanged, and the catalogue starts with such
    prices, then after any requests the stored total of every sale is
    still what its stored line items add up to, quantity times unit price
    from the first line to the last, and every product price still
    survives the round trip. *)
Theorem atender_todas_totales ps s :
  numeric_estable (F := F) →
  sesion_limpia s → bd_coherente (confirmado s) →
  precios_estables (F := F) (confirmado s) →
  totales_coherentes (F := F) (confirmado s) →
  let s' := atender_todas str_float check_password_hash usuarios ps s in
  precios_estables (F := F) (confirmado s')
  ∧ totales_coherentes (F := F) (confirmado s').
Proof.
  intros Hne. revert s.
  induction ps as [|[t p] ps IH]; intros s Hl Hco Hpe Htc; cbn zeta;
    [split; assumption|].
  simpl. destruct (atender_paso t p s Hl) as [Hl' Hpaso].
  destruct (paso_totales _ _ Hne Hpaso Hco Hpe Htc) as [Hpe' Htc'].
  apply IH; try assumption. eapply paso_coherente; eassumption.
Qed.

End Secuencia.

(** ** The further properties, run on exact céntimos *)

Section MasCasos.
Import Centimos Ejemplo Muestra.

Lemma sin_fallos_inicial : sin_fallos sesion_inicial.
Proof. constructor. Qed.

Lemma sin_fallos_tras_venta : sin_fallos sesion_tras_venta.
Proof. constructor. Qed.

Lemma registrar_venta_sin_fallos_veredicto_witness :
  sin_fallos sesion_inicial
  ∧ ∃ r s',
      registrar_venta 7 3 None (Some [dos_sofas; diez_mesas]) sesion_inicial
      = (Normal r, s')
      ∧ (status r = "success"
         ↔ lineas_validas (productos (actual sesion_inicial))
             [dos_sofas; diez_mesas])
      ∧ (status r ≠ "success" →
         veredicto (productos (actual sesion_inicial))
           [dos_sofas; diez_mesas] (Some r)
         ∧ actual s' = actual sesion_inicial
         ∧ confirmado s' = confirmado sesion_inicial).
Proof.
  split; [exact sin_fallos_inicial|].
  exact (registrar_venta_sin_fallos_veredicto 7 3 None [dos_sofas; diez_mesas]
           sesion_inicial sin_fallos_inicial).
Defined.

Lemma venta_mesas_repetidas :
  registrar_venta 7 3 None (Some [tres_mesas; tres_mesas]) sesion_inicial
  = (Normal (exito 1 168000), sesion_mesas_repetidas).
Proof. vm_compute. reflexivity. Qed.

Lemma venta_dos_lineas :
  registrar_venta 7 3 None (Some [dos_sofas; tres_mesas]) sesion_inicial
  = (Normal (exito 1 254000), sesion_dos_lineas).
Proof. vm_compute. reflexivity. Qed.

Lemma registrar_venta_descuenta_pedido_witness :
  stock <$> productos (confirmado sesion_mesas_repetidas) !! 2
  = (λ p, stock p - pedido 2 [tres_mesas; tres_mesas])
      <$> productos (actual sesion_inicial) !! 2.
Proof.
  exact (registrar_venta_descuenta_pedido 7 3 None [tres_mesas; tres_mesas]
           sesion_inicial (exito 1 168000) sesion_mesas_repetidas 2
           venta_mesas_repetidas eq_refl).
Defined.

Lemma registrar_venta_sin_repetidos_stock_witness :
  NoDup (d_id_producto <$> [dos_sofas; tres_mesas])
  ∧ ∃ p, productos (actual sesion_inicial) !! d_id_producto tres_mesas = Some p
         ∧ stock <$> productos (confirmado sesion_dos_lineas)
                     !! d_id_producto tres_mesas
           = Some (stock p - cant tres_mesas)
         ∧ 0 ≤ stock p - cant tres_mesas.
Proof.
  assert (NoDup (d_id_producto <$> [dos_sofas; tres_mesas])) as Hnd.
  { apply NoDup_cons. split; [|apply NoDup_singleton].
    intros Hin. apply list_elem_of_singleton in Hin. discriminate Hin. }
  split; [exact Hnd|].
  apply (registrar_venta_sin_repetidos_stock 7 3 None [dos_sofas; tres_mesas]
           sesion_inicial (exito 1 254000) sesion_dos_lineas tres_mesas Hnd
           venta_dos_lineas eq_refl).
  right. left.
Defined.

Lemma registrar_venta_conserva_unidades_witness :
  productos (actual sesion_inicial) !! 2 = Some mesa
  ∧ ∃ p', productos (confirmado sesion_mesas_repetidas) !! 2 = Some p'
          ∧ stock p' + vendido (confirmado sesion_mesas_repetidas) 2
            = stock mesa + vendido (actual sesion_inicial) 2.
Proof.
  assert (productos (actual sesion_inicial) !! 2 = Some mesa) as Hp
    by (vm_compute; reflexivity).
  split; [exact Hp|].
  exact (registrar_venta_conserva_unidades 7 3 None [tres_mesas; tres_mesas]
           sesion_inicial (exito 1 168000) sesion_mesas_repetidas 2 mesa
           venta_mesas_repetidas eq_refl Hp).
Defined.

Lemma registrar_venta_conserva_ventas_witness :
  let res := registrar_venta 8 2 None (Some [tres_mesas]) sesion_tras_venta in
  sesion_limpia sesion_tras_venta
  ∧ ∃ vs dv,
      ventas (confirmado res.2) = ventas (confirmado sesion_tras_venta) ++ vs
      ∧ detalles (confirmado res.2)
        = detalles (confirmado sesion_tras_venta) ++ dv.
Proof.
  intros res.
  assert (sesion_limpia sesion_tras_venta) as Hl by (vm_compute; reflexivity).
  split; [exact Hl|].
  apply (registrar_venta_conserva_ventas 8 2 None (Some [tres_mesas])
           sesion_tras_venta (exito 2 84000) res.2 Hl).
  vm_compute. reflexivity.
Defined.

Lemma dos_ventas_en_serie_witness :
  productos (actual sesion_inicial) !! 3 = Some velador
  ∧ ∃ r1 s1 s2,
      registrar_venta 7 3 None (Some [mkDetalle 3 1 12000]) sesion_inicial
      = (Normal r1, s1)
      ∧ status r1 = "success"
      ∧ registrar_venta 8 2 None (Some [mkDetalle 3 1 12000]) s1
        = (Normal (mkResultado "error"
                     (mensaje_stock (con_stock 0 velador) (mkDetalle 3 1 12000))
                     0 (f_entero 0)), s2)
      ∧ stock <$> productos (confirmado s2) !! 3 = Some 0.
Proof.
  assert (productos (actual sesion_inicial) !! 3 = Some velador) as Hp
    by (vm_compute; reflexivity).
  split; [exact Hp|].
  exact (dos_ventas_en_serie 7 3 8 2 None None 3 12000 12000 velador
           sesion_inicial sin_fallos_inicial Hp eq_refl).
Defined.

Lemma nueva_venta_precio_vigente_witness :
  let res := nueva_venta 7 3 19675 [1] [2] sesion_inicial in
  res.1 = Normal (Redirige "Venta registrada exitosamente" "success"
                           (a_detalle_venta 1))
  ∧ ∃ idv nuevas,
      a_detalle_venta 1 = a_detalle_venta idv
      ∧ detalles (confirmado res.2)
        = detalles (actual sesion_inicial) ++ nuevas
      ∧ Forall (λ fila,
          dv_id_venta fila = idv ∧ 0 < cantidad fila
          ∧ ∃ p, productos (actual sesion_inicial) !! dv_id_producto fila
                 = Some p
                 ∧ precio_unitario fila = a_numeric (f_decimal (precio p)))
          nuevas.
Proof.
  intros res.
  assert (res.1 = Normal (Redirige "Venta registrada exitosamente" "success"
                                   (a_detalle_venta 1))) as E
    by (vm_compute; reflexivity).
  split; [exact E|].
  apply (nueva_venta_precio_vigente 7 3 19675 [1] [2] sesion_inicial
           "Venta registrada exitosamente" (a_detalle_venta 1) res.2).
  rewrite <- E. apply surjective_pairing.
Defined.

Lemma nueva_venta_sin_lineas_witness :
  Forall (λ n, n ≤ 0) [0; -1]
  ∧ nueva_venta 7 3 19675 [1; 2] [0; -1] sesion_inicial
    = (Normal (Redirige "Debe agregar al menos un producto" "warning"
                        a_nueva_venta), sesion_inicial).
Proof.
  assert (Forall (λ n, n ≤ 0) [0; -1]) as Hcs by (repeat constructor; lia).
  split; [exact Hcs|].
  exact (nueva_venta_sin_lineas 7 3 19675 [1; 2] [0; -1] sesion_inicial
           Hcs eq_refl).
Defined.

Lemma nueva_venta_formulario_descuadrado_witness :
  ∃ s', nueva_venta 7 3 19675 [1; 2] [2] sesion_inicial
        = (Normal ErrorInterno500, s')
        ∧ confirmado s' = confirmado sesion_inicial
        ∧ actual s' = confirmado sesion_inicial.
Proof.
  apply (nueva_venta_formulario_descuadrado 7 3 19675 [1; 2] [2]
           sesion_inicial).
  simpl. lia.
Defined.

Lemma nueva_venta_respuestas_witness :
  ∃ resp s',
    nueva_venta 7 3 19675 [1; 2] [2; 10] sesion_inicial = (Normal resp, s')
    ∧ ((resp = Redirige "Debe agregar al menos un producto" "warning"
                        a_nueva_venta
        ∧ actual s' = actual sesion_inicial
        ∧ confirmado s' = confirmado sesion_inicial)
       ∨ resp = Redirige "Venta registrada exitosamente" "success"
                  (a_detalle_venta
                     (nuevo_id (id_venta <$> ventas (actual sesion_inicial))))
       ∨ (∃ p (d : Detalle Z),
            productos (actual sesion_inicial) !! d_id_producto d = Some p
            ∧ stock p < cant d
            ∧ resp = Redirige (mensaje_stock p d) "danger" a_nueva_venta
            ∧ actual s' = actual sesion_inicial
            ∧ confirmado s' = confirmado sesion_inicial)).
Proof.
  apply (nueva_venta_respuestas 7 3 19675 [1; 2] [2; 10] sesion_inicial
           sin_fallos_inicial).
  simpl. lia.
Defined.

Lemma editar_producto_actualiza_witness :
  productos (actual sesion_inicial) !! 1 = Some sofa
  ∧ ∃ s' a,
      editar_producto 1 "Sofa 3 Cuerpos" "Tapiz nuevo" 99900 20 sesion_inicial
      = (Normal (Redirige "Producto actualizado correctamente" "success"
                          a_ver_productos), s')
      ∧ productos (confirmado s')
        = <[1 := mkProducto (id_producto sofa) "Sofa 3 Cuerpos" "Tapiz nuevo"
                            (a_numeric 99900) 20]>
            (productos (actual sesion_inicial))
      ∧ ventas (confirmado s') = ventas (actual sesion_inicial)
      ∧ detalles (confirmado s') = detalles (actual sesion_inicial)
      ∧ auditorias (confirmado s') = auditorias (actual sesion_inicial) ++ [a]
      ∧ fila_update a (mkProducto (id_producto sofa) "Sofa 3 Cuerpos"
                                  "Tapiz nuevo" (a_numeric 99900) 20).
Proof.
  assert (productos (actual sesion_inicial) !! 1 = Some sofa) as Hp
    by (vm_compute; reflexivity).
  split; [exact Hp|].
  exact (editar_producto_actualiza 1 "Sofa 3 Cuerpos" "Tapiz nuevo" 99900 20
           sesion_inicial sofa sin_fallos_inicial eq_refl Hp).
Defined.

Lemma editar_producto_inexistente_witness :
  let res := editar_producto 99 "Silla" "Silla de comedor" 9500 50
               sesion_inicial in
  productos (actual sesion_inicial) !! 99 = None
  ∧ (res.1 = Normal NoEncontrado404 ∨ res.1 = Normal ErrorInterno500)
  ∧ confirmado res.2 = confirmado sesion_inicial.
Proof.
  intros res.
  assert (productos (actual sesion_inicial) !! 99 = None) as Hp
    by (vm_compute; reflexivity).
  split; [exact Hp|].
  exact (editar_producto_inexistente 99 "Silla" "Silla de comedor" 9500 50
           sesion_inicial res.1 res.2 Hp (surjective_pairing res)).
Defined.

Lemma nuevo_producto_registra_witness :
  sin_fallos sesion_inicial
  ∧ ∃ s' a,
      nuevo_producto str_centimos "Banco Decorativo"
        "Banco para recibidor o pasillo" 22000 25 sesion_inicial
      = (Normal (Redirige "Producto registrado exitosamente" "success"
                          a_ver_productos), s')
      ∧ productos (actual sesion_inicial)
          !! nuevo_id (claves (productos (actual sesion_inicial))) = None
      ∧ productos (confirmado s')
        = <[nuevo_id (claves (productos (actual sesion_inicial))) :=
              mkProducto (nuevo_id (claves (productos (actual sesion_inicial))))
                "Banco Decorativo" "Banco para recibidor o pasillo"
                (a_numeric 22000) 25]>
            (productos (actual sesion_inicial))
      ∧ ventas (confirmado s') = ventas (actual sesion_inicial)
      ∧ detalles (confirmado s') = detalles (actual sesion_inicial)
      ∧ auditorias (confirmado s') = auditorias (actual sesion_inicial) ++ [a]
      ∧ tabla a = "Producto" ∧ accion a = "INSERT"
      ∧ id_registro a
        = nuevo_id (claves (productos (actual sesion_inicial)))
      ∧ datos a = "Producto: " +:+ "Banco Decorativo" +:+ ", Precio: "
                  +:+ str_centimos 22000 +:+ ", Stock: " +:+ pretty 25.
Proof.
  split; [exact sin_fallos_inicial|].
  exact (nuevo_producto_registra str_centimos "Banco Decorativo"
           "Banco para recibidor o pasillo" 22000 25 sesion_inicial
           sin_fallos_inicial eq_refl).
Defined.

Lemma sofa_tras_venta :
  productos (actual sesion_tras_venta) !! 1 = Some (con_stock 23 sofa).
Proof. vm_compute. reflexivity. Qed.

Lemma detalles_tras_venta : detalles (actual sesion_tras_venta) = [linea_sofas].
Proof. vm_compute. reflexivity. Qed.

Lemma eliminar_producto_con_ventas_witness :
  let res := eliminar_producto 1 sesion_tras_venta in
  linea_sofas ∈ detalles (actual sesion_tras_venta)
  ∧ (res.1 = Normal (Redirige
                 "No se puede eliminar. El producto tiene ventas registradas"
                 "danger" a_ver_productos)
     ∨ res.1 = Normal ErrorInterno500)
  ∧ confirmado res.2 = confirmado sesion_tras_venta.
Proof.
  intros res.
  assert (linea_sofas ∈ detalles (actual sesion_tras_venta)) as Hd
    by (rewrite detalles_tras_venta; left).
  assert (sesion_limpia sesion_tras_venta) as Hl by (vm_compute; reflexivity).
  split; [exact Hd|].
  exact (eliminar_producto_con_ventas 1 sesion_tras_venta (con_stock 23 sofa)
           linea_sofas res.1 res.2 Hl sofa_tras_venta Hd eq_refl
           (surjective_pairing res)).
Defined.

Lemma eliminar_producto_sin_ventas_witness :
  productos (actual sesion_inicial) !! 3 = Some velador
  ∧ ∃ s' a,
      eliminar_producto 3 sesion_inicial
      = (Normal (Redirige "Producto eliminado correctamente" "success"
                          a_ver_productos), s')
      ∧ productos (confirmado s')
        = delete 3 (productos (actual sesion_inicial))
      ∧ ventas (confirmado s') = ventas (actual sesion_inicial)
      ∧ detalles (confirmado s') = detalles (actual sesion_inicial)
      ∧ auditorias (confirmado s') = auditorias (actual sesion_inicial) ++ [a]
      ∧ tabla a = "Producto" ∧ accion a = "DELETE"
      ∧ id_registro a = id_producto velador
      ∧ datos a = "Producto eliminado: " +:+ nombre_producto velador.
Proof.
  assert (productos (actual sesion_inicial) !! 3 = Some velador) as Hp
    by (vm_compute; reflexivity).
  split; [exact Hp|].
  apply (eliminar_producto_sin_ventas 3 sesion_inicial velador
           sin_fallos_inicial eq_refl Hp).
  intros d Hd. apply elem_of_nil in Hd. contradiction.
Defined.

Lemma productos_solo_admin_witness :
  rol vendedor1 ≠ "admin"
  ∧ ruta_nuevo_producto str_centimos (Some vendedor1) "Banco Decorativo"
      "Banco para recibidor o pasillo" 22000 25 sesion_inicial
    = (Normal (RedirigeIndex "No tiene permisos para: crear" "danger"),
       sesion_inicial)
  ∧ ruta_editar_producto (Some vendedor1) 1 "Banco Decorativo"
      "Banco para recibidor o pasillo" 22000 25 sesion_inicial
    = (Normal (RedirigeIndex "No tiene permisos para: actualizar" "danger"),
       sesion_inicial)
  ∧ ruta_eliminar_producto (Some vendedor1) 1 sesion_inicial
    = (Normal (RedirigeIndex "No tiene permisos para: eliminar" "danger"),
       sesion_inicial).
Proof.
  assert (rol vendedor1 ≠ "admin") as Hr by discriminate.
  split; [exact Hr|].
  exact (productos_solo_admin str_centimos vendedor1 1 "Banco Decorativo"
           "Banco para recibidor o pasillo" 22000 25 sesion_inicial Hr).
Defined.

Lemma ventas_solo_admin_y_vendedor_witness :
  rol consulta1 ≠ "admin" ∧ rol consulta1 ≠ "vendedor"
  ∧ ruta_nueva_venta (Some consulta1) 7 19675 [1] [2] sesion_inicial
    = (Normal (RedirigeIndex "No tiene permisos para: ventas" "danger"),
       sesion_inicial).
Proof.
  assert (rol consulta1 ≠ "admin") as Ha by discriminate.
  assert (rol consulta1 ≠ "vendedor") as Hv by discriminate.
  split; [exact Ha|]. split; [exact Hv|].
  exact (ventas_solo_admin_y_vendedor consulta1 7 19675 [1] [2]
           sesion_inicial Ha Hv).
Defined.

Lemma protegida_solo_con_permiso_witness :
  let res := ruta_eliminar_producto (Some admin) 3 sesion_inicial in
  res.1 ≠ Normal (RedirigeLogin "Debe iniciar sesión" "warning")
  ∧ ∀ r, res.1 = Normal (Pagina r) →
         ∃ u, Some admin = Some u ∧ Permisos.tabla_fija (rol u) "eliminar"
              ∧ eliminar_producto 3 sesion_inicial = (Normal r, res.2).
Proof.
  intros res.
  exact (protegida_solo_con_permiso "eliminar" (Some admin)
           (λ _, eliminar_producto 3) sesion_inicial res.1 res.2
           (surjective_pairing res)).
Defined.

Lemma usuario_de_baja :
  snd <$> list_find (λ u, username u = "vendedor3") usuarios = Some de_baja.
Proof. vm_compute. reflexivity. Qed.

Lemma login_rechazado_witness :
  let res := login comprobar usuarios None "vendedor3" "VendedorSecure456"
               None sesion_inicial in
  check_password comprobar de_baja "VendedorSecure456" = true
  ∧ ((res.1 = Normal (Rechazado "Usuario o contraseña incorrectos" "danger")
      ∧ actual res.2 = actual sesion_inicial
      ∧ confirmado res.2 = confirmado sesion_inicial)
     ∨ (res.1 = Normal LoginError500
        ∧ actual res.2 = confirmado sesion_inicial
        ∧ confirmado res.2 = confirmado sesion_inicial)).
Proof.
  intros res. split; [vm_compute; reflexivity|].
  apply (login_rechazado comprobar usuarios "vendedor3" "VendedorSecure456"
           None sesion_inicial res.1 res.2); [|apply surjective_pairing].
  intros u Hu. rewrite usuario_de_baja in Hu. injection Hu as <-.
  left. reflexivity.
Defined.

Lemma login_correcto_witness :
  snd <$> list_find (λ u, username u = "admin") usuarios = Some admin
  ∧ ∃ s' a,
      login comprobar usuarios None "admin" "AdminSecure123" None
        sesion_inicial
      = (Normal (Bienvenido admin ("Bienvenido " +:+ nombre_completo admin)
                            None), s')
      ∧ auditorias (confirmado s') = auditorias (actual sesion_inicial) ++ [a]
      ∧ tabla a = "Usuario" ∧ accion a = "LOGIN"
      ∧ id_registro a = id_usuario admin ∧ usuario_sql a = username admin
      ∧ productos (confirmado s') = productos (actual sesion_inicial)
      ∧ ventas (confirmado s') = ventas (actual sesion_inicial)
      ∧ detalles (confirmado s') = detalles (actual sesion_inicial).
Proof.
  assert (snd <$> list_find (λ u, username u = "admin") usuarios = Some admin)
    as Hu by (vm_compute; reflexivity).
  split; [exact Hu|].
  apply (login_correcto comprobar usuarios "admin" "AdminSecure123" None
           sesion_inicial admin sin_fallos_inicial eq_refl Hu eq_refl).
  vm_compute. reflexivity.
Defined.

Lemma tienda_coherente : bd_coherente tienda.
Proof.
  split; [|split; [|split]].
  - intros k p Hk.
    apply (map_Forall_lookup_1 (λ k p, id_producto p = k) (productos tienda));
      [|exact Hk].
    unfold tienda. simpl.
    repeat (apply map_Forall_insert_2; [reflexivity|]).
    apply map_Forall_empty.
  - intros d Hd. apply elem_of_nil in Hd. contradiction.
  - intros d Hd. apply elem_of_nil in Hd. contradiction.
  - intros d Hd. apply elem_of_nil in Hd. contradiction.
Qed.

Lemma centimos_estables : numeric_estable (F := Z).
Proof. intros x. reflexivity. Qed.

Lemma atender_todas_coherente_witness :
  sesion_limpia sesion_inicial ∧ bd_coherente (confirmado tras_jornada).
Proof.
  assert (sesion_limpia sesion_inicial) as Hl by reflexivity.
  split; [exact Hl|].
  exact (atender_todas_coherente str_centimos comprobar usuarios jornada
           sesion_inicial Hl tienda_coherente).
Defined.

Lemma atender_todas_solo_agrega_witness :
  sesion_limpia sesion_tras_venta
  ∧ ventas (confirmado sesion_tras_venta)
      `prefix_of` ventas (confirmado
         (atender_todas str_centimos comprobar usuarios jornada
            sesion_tras_venta))
  ∧ detalles (confirmado sesion_tras_venta)
      `prefix_of` detalles (confirmado
         (atender_todas str_centimos comprobar usuarios jornada
            sesion_tras_venta))
  ∧ auditorias (confirmado sesion_tras_venta)
      `prefix_of` auditorias (confirmado
         (atender_todas str_centimos comprobar usuarios jornada
            sesion_tras_venta)).
Proof.
  assert (sesion_limpia sesion_tras_venta) as Hl by (vm_compute; reflexivity).
  split; [exact Hl|].
  exact (atender_todas_solo_agrega str_centimos comprobar usuarios jornada
           sesion_tras_venta Hl).
Defined.

Lemma atender_todas_totales_witness :
  numeric_estable (F := Z)
  ∧ precios_estables (F := Z) (confirmado tras_jornada)
  ∧ totales_coherentes (F := Z) (confirmado tras_jornada).
Proof.
  split; [exact centimos_estables|].
  apply (atender_todas_totales str_centimos comprobar usuarios jornada
           sesion_inicial centimos_estables).
  - reflexivity.
  - exact tienda_coherente.
  - intros k p _. reflexivity.
  - intros v Hv. apply elem_of_nil in Hv. contradiction.
Defined.

End MasCasos.
